(** * Mood signal stabilisation engine: a shallow embedding

    The development follows [mood_detector.py] (class [MoodDetector]),
    the category switch of [music_manager.py] and the monitor loop of
    [app.py].

    Modelling conventions.
    - Numbers are modelled twice.  What the engine does with a score
      (which branch it takes, what it writes, where a method raises) is
      studied over exact rationals ([Q]), with equalities between
      computed scores stated up to [==].  The methods whose answer the
      arithmetic itself decides are embedded a second time in module
      [Binary64], over the binary64 floats that Python computes with,
      and what is said about their results is proved there.
    - Emotion labels are Python strings and stay strings here.
    - A Python [dict] is an association list in insertion order, since
      [sorted] and [max] are sensitive to that order.
    - [time.time()] is an input: every operation that reads the clock
      receives the reading as an argument.
    - Methods of [MoodDetector] live in a small state-and-exception
      monad over the detector object, so that what a method mutates and
      where it can raise are both visible. *)

From Stdlib Require Import QArith Qpower Lqa ZArith Lia.
From Stdlib Require Import List String Bool Permutation Sorted.
From Stdlib Require Import Floats.
Import ListNotations.

Open Scope string_scope.
Open Scope list_scope.
Open Scope Q_scope.

Set Warnings "-inexact-float".

(** ** Numbers *)

(** Python's [x > y] on floats. *)
Definition Qgtb (x y : Q) : bool := negb (Qle_bool x y).

(** Python's [x < y] on floats. *)
Definition Qltb (x y : Q) : bool := negb (Qle_bool y x).

(** ** Lists and dictionaries *)

(** [l[-n:]] for a positive [n]: the last [n] elements. *)
Definition last_n {A} (n : nat) (l : list A) : list A :=
  skipn (List.length l - n) l.

(** [x in l] for a list of strings. *)
Definition str_in (x : string) (l : list string) : bool :=
  existsb (String.eqb x) l.

(** A dictionary with string keys, in insertion order. *)
Definition dict (V : Type) : Type := list (string * V).

Fixpoint dict_find {V} (d : dict V) (k : string) : option V :=
  match d with
  | [] => None
  | (k', v) :: d' => if String.eqb k k' then Some v else dict_find d' k
  end.

(** [d.get(k, default)] *)
Definition dict_get {V} (d : dict V) (k : string) (default : V) : V :=
  match dict_find d k with
  | Some v => v
  | None => default
  end.

(** [k in d] *)
Definition dict_mem {V} (d : dict V) (k : string) : bool :=
  match dict_find d k with
  | Some _ => true
  | None => false
  end.

(** [d[k] = v]: an existing key keeps its position, a new key goes last. *)
Fixpoint dict_set {V} (d : dict V) (k : string) (v : V) : dict V :=
  match d with
  | [] => [(k, v)]
  | (k', v') :: d' =>
      if String.eqb k k' then (k', v) :: d' else (k', v') :: dict_set d' k v
  end.

(** ** The detector object *)

(** One entry of [mood_history]: the dictionary with keys ['mood'],
    ['confidence'] and ['timestamp']. *)
Record entry : Type := Entry {
  mood_of : string;
  confidence_of : Q;
  timestamp_of : Q
}.

(** The fields of a [MoodDetector] that the engine reads or writes. *)
Record MoodDetector : Type := mkMoodDetector {
  current_mood : string;
  mood_confidence : Q;
  mood_history : list entry;
  confidence_threshold : Q;
  stability_threshold : Z;
  emotion_smoothing : Q;
  mood_mapping : dict string;
  emotion_intensity : dict Q;
  emotion_thresholds : dict Q;
  emotion_history : dict (list Q)
}.

Definition seven_labels : list string :=
  ["happy"; "sad"; "angry"; "fear"; "surprise"; "disgust"; "neutral"].

(** [MoodDetector.__init__] *)
Definition init : MoodDetector := {|
  current_mood := "neutral";
  mood_confidence := 0.0;
  mood_history := [];
  confidence_threshold := 0.20;
  stability_threshold := 2%Z;
  emotion_smoothing := 0.6;
  mood_mapping := map (fun l => (l, l)) seven_labels;
  emotion_intensity :=
    [("happy", 1.0); ("surprise", 0.8); ("neutral", 0.5); ("disgust", 0.6);
     ("fear", 0.7); ("sad", 1.2); ("angry", 1.0)];
  emotion_thresholds :=
    [("sad", 0.15); ("happy", 0.25); ("angry", 0.30); ("fear", 0.25);
     ("surprise", 0.25); ("disgust", 0.25); ("neutral", 0.20)];
  emotion_history := map (fun l => (l, [])) seven_labels
|}.

Definition set_mood_history (h : list entry) (self : MoodDetector) :=
  {| current_mood := current_mood self;
     mood_confidence := mood_confidence self;
     mood_history := h;
     confidence_threshold := confidence_threshold self;
     stability_threshold := stability_threshold self;
     emotion_smoothing := emotion_smoothing self;
     mood_mapping := mood_mapping self;
     emotion_intensity := emotion_intensity self;
     emotion_thresholds := emotion_thresholds self;
     emotion_history := emotion_history self |}.

Definition set_current (m : string) (c : Q) (self : MoodDetector) :=
  {| current_mood := m;
     mood_confidence := c;
     mood_history := mood_history self;
     confidence_threshold := confidence_threshold self;
     stability_threshold := stability_threshold self;
     emotion_smoothing := emotion_smoothing self;
     mood_mapping := mood_mapping self;
     emotion_intensity := emotion_intensity self;
     emotion_thresholds := emotion_thresholds self;
     emotion_history := emotion_history self |}.

Definition set_emotion_history (h : dict (list Q)) (self : MoodDetector) :=
  {| current_mood := current_mood self;
     mood_confidence := mood_confidence self;
     mood_history := mood_history self;
     confidence_threshold := confidence_threshold self;
     stability_threshold := stability_threshold self;
     emotion_smoothing := emotion_smoothing self;
     mood_mapping := mood_mapping self;
     emotion_intensity := emotion_intensity self;
     emotion_thresholds := emotion_thresholds self;
     emotion_history := h |}.

Definition set_params (thr g : Q) (self : MoodDetector) :=
  {| current_mood := current_mood self;
     mood_confidence := mood_confidence self;
     mood_history := mood_history self;
     confidence_threshold := thr;
     stability_threshold := stability_threshold self;
     emotion_smoothing := g;
     mood_mapping := mood_mapping self;
     emotion_intensity := emotion_intensity self;
     emotion_thresholds := emotion_thresholds self;
     emotion_history := emotion_history self |}.

(** ** State and exceptions *)

Inductive exn : Type := KeyError | IndexError | ZeroDivisionError.

Inductive result (A : Type) : Type :=
| Ok (a : A)
| Raise (e : exn).
Arguments Ok {A} a.
Arguments Raise {A} e.

(** A method body: it runs on the object, returns or raises, and leaves
    the object as mutated so far. *)
Definition M (A : Type) : Type := MoodDetector -> result A * MoodDetector.

Definition ret {A} (a : A) : M A := fun self => (Ok a, self).

Definition raise {A} (e : exn) : M A := fun self => (Raise e, self).

Definition bind {A B} (m : M A) (f : A -> M B) : M B :=
  fun self =>
    match m self with
    | (Ok a, self') => f a self'
    | (Raise e, self') => (Raise e, self')
    end.

Definition gets {A} (f : MoodDetector -> A) : M A :=
  fun self => (Ok (f self), self).

Definition modify (f : MoodDetector -> MoodDetector) : M unit :=
  fun self => (Ok tt, f self).

Declare Scope m_scope.
Delimit Scope m_scope with m.
Notation "x <- m ;; k" := (bind m (fun x => k))
  (at level 61, m at next level, right associativity) : m_scope.
Notation "m ;;; k" := (bind m (fun _ => k))
  (at level 61, right associativity) : m_scope.
Open Scope m_scope.

(** An expression that returns or raises without touching the object. *)
Definition lift {A} (r : result A) : M A := fun self => (r, self).

(** Python's true division [x / y]. *)
Definition pydiv (x y : Q) : M Q :=
  lift (if Qeq_bool y 0 then Raise ZeroDivisionError else Ok (x / y)).

(** [d[k]] on a dictionary. *)
Definition dict_index {V} (d : dict V) (k : string) : M V :=
  lift (match dict_find d k with
        | Some v => Ok v
        | None => Raise KeyError
        end).

(** ** The stability gate *)

(** [MoodDetector._is_mood_stable].  The sad branch returns early on a
    confident reading or on a recent sad entry and otherwise falls through
    to the general rules. *)
Definition _is_mood_stable (new_mood : string) (confidence : Q) : M bool :=
  history <- gets mood_history ;;
  let general :=
    if Qgtb confidence 0.7 then true
    else
      let recent_moods := map mood_of (last_n 3 history) in
      if str_in new_mood recent_moods then Qgtb confidence 0.3
      else Qgtb confidence 0.5 in
  if String.eqb new_mood "sad" then
    if Qgtb confidence 0.25 then ret true
    else
      let recent_moods := map mood_of (last_n 2 history) in
      if str_in "sad" recent_moods then ret (Qgtb confidence 0.15)
      else ret general
  else ret general.

(** ** The mood history ring *)

(** [MoodDetector._update_mood_history]; [now] is the reading of
    [time.time()]. *)
Definition _update_mood_history (now : Q) (mood : string) (confidence : Q)
  : M unit :=
  modify (fun self =>
    set_mood_history (mood_history self ++ [Entry mood confidence now]) self) ;;;
  history <- gets mood_history ;;
  if (50 <? List.length history)%nat
  then modify (set_mood_history (tl history))
  else ret tt.

(** ** The emotion smoother *)

(** Python's [sum]: left to right from 0. *)
Definition pysum (l : list Q) : Q := fold_left Qplus l 0.

(** [[g ** i for i in range(n)]] *)
Definition powers (g : Q) (n : nat) : list Q :=
  map (fun i => g ^ Z.of_nat i) (seq 0 n).

(** [sum(w * s for w, s in zip(ws, xs))] *)
Definition dot (ws xs : list Q) : Q :=
  pysum (map (fun ws => fst ws * snd ws) (combine ws xs)).

(** The body of the loop of [_smooth_emotions] for one item. *)
Definition smooth_one (emotion : string) (score : Q) : M Q :=
  eh <- gets emotion_history ;;
  if dict_mem eh emotion then
    old <- dict_index eh emotion ;;
    modify (set_emotion_history (dict_set eh emotion (old ++ [score]))) ;;;
    eh <- gets emotion_history ;;
    pushed <- dict_index eh emotion ;;
    (if (5 <? List.length pushed)%nat
     then modify (set_emotion_history (dict_set eh emotion (tl pushed)))
     else ret tt) ;;;
    eh <- gets emotion_history ;;
    hist <- dict_index eh emotion ;;
    if (1 <? List.length hist)%nat then
      g <- gets emotion_smoothing ;;
      let weights := rev (powers g (List.length hist)) in
      let weighted_sum := dot weights hist in
      let weight_sum := pysum weights in
      pydiv weighted_sum weight_sum
    else ret score
  else ret score.

Fixpoint smooth_loop (items : dict Q) (smoothed_scores : dict Q)
  : M (dict Q) :=
  match items with
  | [] => ret smoothed_scores
  | (emotion, score) :: items' =>
      v <- smooth_one emotion score ;;
      smooth_loop items' (dict_set smoothed_scores emotion v)
  end.

(** [MoodDetector._smooth_emotions] *)
Definition _smooth_emotions (emotion_scores : dict Q) : M (dict Q) :=
  smooth_loop emotion_scores [].

(** ** The dominant emotion selector *)

(** [sorted(items, key=lambda x: x[1], reverse=True)]: a stable sort by
    descending score; items of equal score keep their order. *)
Fixpoint insert_desc (x : string * Q) (l : list (string * Q))
  : list (string * Q) :=
  match l with
  | [] => [x]
  | y :: l' =>
      if Qle_bool (snd y) (snd x) then x :: l else y :: insert_desc x l'
  end.

Fixpoint sorted_desc (l : list (string * Q)) : list (string * Q) :=
  match l with
  | [] => []
  | x :: l' => insert_desc x (sorted_desc l')
  end.

(** [MoodDetector._get_dominant_emotion] *)
Definition _get_dominant_emotion (emotion_scores : dict Q)
  : M (string * Q) :=
  match emotion_scores with
  | [] => ret ("neutral", 0.0)
  | _ :: _ =>
      let sorted_emotions := sorted_desc emotion_scores in
      match sorted_emotions with
      | [] => raise IndexError
      | (primary_emotion, primary_score) :: others =>
          let ambiguous :=
            match others with
            | [] => false
            | (_, secondary_score) :: _ =>
                Qltb (primary_score - secondary_score) 0.1
                && Qltb primary_score 0.4
            end in
          if ambiguous then ret ("neutral", primary_score)
          else
            intensity <- gets emotion_intensity ;;
            let intensity_weighted_score :=
              primary_score * dict_get intensity primary_emotion 0.5 in
            ret (primary_emotion, intensity_weighted_score)
      end
  end.

(** ** The windowed voter *)

(** The [for i, entry in enumerate(recent_moods)] loop of
    [get_stable_mood], from index [i] on. *)
Fixpoint vote_loop (total_entries i : nat) (recent_moods : list entry)
    (mood_weights : dict Q) (mood_counts : dict nat)
  : M (dict Q * dict nat) :=
  match recent_moods with
  | [] => ret (mood_weights, mood_counts)
  | e :: rest =>
      let mood := mood_of e in
      let confidence := confidence_of e in
      time_weight <- pydiv (inject_Z (Z.of_nat (i + 1)))
                           (inject_Z (Z.of_nat total_entries)) ;;
      intensity <- gets emotion_intensity ;;
      let final_weight :=
        confidence * time_weight * dict_get intensity mood 0.5 in
      if dict_mem mood_weights mood then
        w <- dict_index mood_weights mood ;;
        c <- dict_index mood_counts mood ;;
        vote_loop total_entries (S i) rest
          (dict_set mood_weights mood (w + final_weight))
          (dict_set mood_counts mood (c + 1)%nat)
      else
        vote_loop total_entries (S i) rest
          (dict_set mood_weights mood final_weight)
          (dict_set mood_counts mood 1%nat)
  end.

(** [max(items, key=lambda x: x[1])] on a non-empty list: the first item
    of maximal value. *)
Fixpoint max_by_value (best : string * Q) (l : list (string * Q))
  : string * Q :=
  match l with
  | [] => best
  | x :: l' => max_by_value (if Qgtb (snd x) (snd best) then x else best) l'
  end.

(** The entries with [now - timestamp <= window_seconds]. *)
Definition within (window_seconds now : Q) (history : list entry)
  : list entry :=
  filter (fun e => Qle_bool (now - timestamp_of e) window_seconds) history.

(** [MoodDetector.get_stable_mood]; [now] is the reading of
    [time.time()]. *)
Definition get_stable_mood (window_seconds now : Q) : M string :=
  history <- gets mood_history ;;
  let recent_moods := within window_seconds now history in
  match recent_moods with
  | [] => gets current_mood
  | _ :: _ =>
      r <- vote_loop (List.length recent_moods) 0 recent_moods [] [] ;;
      let mood_weights := fst r in
      let mood_counts := snd r in
      match mood_weights with
      | [] => gets current_mood
      | first :: others =>
          let best_mood := max_by_value first others in
          if negb (String.eqb (fst best_mood) "neutral") then
            c <- dict_index mood_counts (fst best_mood) ;;
            if (c <? 2)%nat then ret "neutral" else ret (fst best_mood)
          else ret (fst best_mood)
      end
  end.

(** [MoodDetector.get_current_mood] *)
Definition get_current_mood (now : Q) : M entry :=
  m <- gets current_mood ;;
  c <- gets mood_confidence ;;
  ret (Entry m c now).

(** ** One frame of the detection loop *)

Inductive outcome : Type :=
| BelowThreshold   (* the per-emotion threshold was not exceeded *)
| GateRejected     (* [_is_mood_stable] returned [False] *)
| Accepted.        (* the mood, its confidence and the history were updated *)

(** The body of [_detection_loop] once a best detection with scores
    [emotion_scores] is in hand; [now] is the clock reading used by
    [_update_mood_history]. *)
Definition detect_frame (now : Q) (emotion_scores : dict Q) : M outcome :=
  smoothed_scores <- _smooth_emotions emotion_scores ;;
  dominant <- _get_dominant_emotion smoothed_scores ;;
  let dominant_emotion := fst dominant in
  let confidence := snd dominant in
  thresholds <- gets emotion_thresholds ;;
  fallback <- gets confidence_threshold ;;
  let emotion_threshold := dict_get thresholds dominant_emotion fallback in
  if Qgtb confidence emotion_threshold then
    mapping <- gets mood_mapping ;;
    let new_mood := dict_get mapping dominant_emotion "neutral" in
    stable <- _is_mood_stable new_mood confidence ;;
    if stable then
      modify (set_current new_mood confidence) ;;;
      m <- gets current_mood ;;
      _update_mood_history now m confidence ;;;
      ret Accepted
    else ret GateRejected
  else ret BelowThreshold.

(** The [try ... except Exception] around the frame: an exception is
    logged and the object stays as mutated so far. *)
Definition detection_step (now : Q) (emotion_scores : dict Q)
    (self : MoodDetector) : MoodDetector :=
  snd (detect_frame now emotion_scores self).

(** ** The playback engine's category switch *)

Module MusicManager.

(** The fields of a [MusicManager] that a category switch touches; songs
    are their paths.  Playback itself (pygame) and the shuffle of the
    playlist are outside the model. *)
Record t : Type := mk {
  current_mood : string;
  music_library : dict (list string);
  playlist : list string;
  current_index : nat
}.

(** [MusicManager.get_songs_by_mood] *)
Definition get_songs_by_mood (self : t) (mood : string) : list string :=
  dict_get (music_library self) mood [].

(** The body of [play_mood_music], with [recurse] for the call it makes
    on itself. *)
Definition play_mood_music_body (recurse : string -> t -> t)
    (mood : string) (self : t) : t :=
  if negb (String.eqb mood (current_mood self)) then
    let self1 := mk mood (music_library self) (playlist self)
                    (current_index self) in
    match get_songs_by_mood self1 mood with
    | [] =>
        if negb (String.eqb mood "neutral") then recurse "neutral" self1
        else self1
    | songs => mk mood (music_library self1) songs 0
    end
  else self.

(** [MusicManager.play_mood_music].  The only call it makes on itself
    has argument ['neutral'], and that call makes none: two levels are
    the whole recursion. *)
Definition play_mood_music : string -> t -> t :=
  play_mood_music_body (play_mood_music_body (fun _ self => self)).

End MusicManager.

(** ** The mood decision loop *)

(** [app_state] of [app.py]. *)
Record app_state : Type := mkAppState {
  mood_detection_active : bool;
  auto_play_enabled : bool;
  last_mood_change : Q;
  mood_change_cooldown : Z;
  mood_stability_window : Z
}.

Definition set_last_mood_change (t : Q) (st : app_state) : app_state :=
  mkAppState (mood_detection_active st) (auto_play_enabled st) t
             (mood_change_cooldown st) (mood_stability_window st).

(** The three objects the loop works on. *)
Record world : Type := mkWorld {
  detector : MoodDetector;
  state : app_state;
  manager : MusicManager.t
}.

(** A call [music_manager.play_mood_music(stable_mood)] made by the loop:
    when it was made, under which cooldown, and with which mood. *)
Record switch : Type := mkSwitch {
  switch_time : Q;
  switch_cooldown : Z;
  switch_mood : string
}.

(** One iteration of the [while] of [mood_monitor_loop].  [t_vote] is the
    clock reading inside [get_stable_mood], [current_time] the loop's own
    reading.  An exception is caught and logged: nothing more happens in
    that iteration. *)
Definition monitor_tick (t_vote current_time : Q) (w : world)
  : world * option switch :=
  let st := state w in
  if auto_play_enabled st then
    match get_stable_mood (inject_Z (mood_stability_window st)) t_vote
                          (detector w) with
    | (Raise _, det) => (mkWorld det st (manager w), None)
    | (Ok stable_mood, det) =>
        match get_current_mood current_time det with
        | (Raise _, det) => (mkWorld det st (manager w), None)
        | (Ok current_mood_data, det) =>
            if Qgtb (current_time - last_mood_change st)
                    (inject_Z (mood_change_cooldown st)) then
              let should_change_mood :=
                if negb (String.eqb stable_mood
                           (MusicManager.current_mood (manager w))) then
                  if Qgtb (confidence_of current_mood_data) 0.4 then true
                  else if str_in stable_mood ["happy"; "sad"; "angry"]
                          && Qgtb (confidence_of current_mood_data) 0.3
                  then true
                  else false
                else false in
              if should_change_mood then
                (mkWorld det (set_last_mood_change current_time st)
                   (MusicManager.play_mood_music stable_mood (manager w)),
                 Some (mkSwitch current_time (mood_change_cooldown st)
                         stable_mood))
              else (mkWorld det st (manager w), None)
            else (mkWorld det st (manager w), None)
        end
    end
  else (w, None).

(** What happens around the loop while it runs. *)
Inductive event : Type :=
| Tick (t_vote current_time : Q)
    (* an iteration of the monitor loop *)
| Frame (now : Q) (emotion_scores : dict Q)
    (* the detection thread handles a frame *)
| SetParams (threshold smoothing : option Q) (cooldown window : option Z)
    (* [/api/set_detection_params] *)
| ToggleAutoPlay
    (* [/api/toggle_auto_play] *)
| PlayMood (mood : string).
    (* [/api/play_mood/<mood>] *)

Definition step (ev : event) (w : world) : world * option switch :=
  match ev with
  | Tick t_vote current_time => monitor_tick t_vote current_time w
  | Frame now emotion_scores =>
      (mkWorld (detection_step now emotion_scores (detector w))
               (state w) (manager w), None)
  | SetParams threshold smoothing cooldown window =>
      let st := state w in
      let det := detector w in
      let thr := match threshold with
                 | Some x => x | None => confidence_threshold det end in
      let g := match smoothing with
               | Some x => x | None => emotion_smoothing det end in
      let cd := match cooldown with
                | Some c => c | None => mood_change_cooldown st end in
      let win := match window with
                 | Some x => x | None => mood_stability_window st end in
      (mkWorld (set_params thr g det)
         (mkAppState (mood_detection_active st) (auto_play_enabled st)
                     (last_mood_change st) cd win)
         (manager w), None)
  | ToggleAutoPlay =>
      let st := state w in
      (mkWorld (detector w)
         (mkAppState (mood_detection_active st)
                     (negb (auto_play_enabled st))
                     (last_mood_change st) (mood_change_cooldown st)
                     (mood_stability_window st))
         (manager w), None)
  | PlayMood mood =>
      (mkWorld (detector w) (state w)
               (MusicManager.play_mood_music mood (manager w)), None)
  end.

(** A run: the events in order, with the switches the loop made, oldest
    first. *)
Fixpoint run (evs : list event) (w : world) : world * list switch :=
  match evs with
  | [] => (w, [])
  | ev :: evs' =>
      let (w1, s) := step ev w in
      let (w2, log) := run evs' w1 in
      (w2, match s with Some x => x :: log | None => log end)
  end.

(** The clock readings of the loop, in order. *)
Fixpoint tick_times (evs : list event) : list Q :=
  match evs with
  | [] => []
  | Tick _ current_time :: evs' => current_time :: tick_times evs'
  | _ :: evs' => tick_times evs'
  end.

(** ** Runs of appends *)

(** A sequence of calls of [_update_mood_history], one per entry of [l],
    each with the entry's timestamp as clock reading. *)
Fixpoint appends (l : list entry) (self : MoodDetector) : MoodDetector :=
  match l with
  | [] => self
  | e :: l' =>
      appends l'
        (snd (_update_mood_history (timestamp_of e) (mood_of e)
                (confidence_of e) self))
  end.

(** * More of the repository *)

(** ** Sensitivity of the sad emotion *)

Definition set_emotion_thresholds (d : dict Q) (self : MoodDetector) :=
  {| current_mood := current_mood self;
     mood_confidence := mood_confidence self;
     mood_history := mood_history self;
     confidence_threshold := confidence_threshold self;
     stability_threshold := stability_threshold self;
     emotion_smoothing := emotion_smoothing self;
     mood_mapping := mood_mapping self;
     emotion_intensity := emotion_intensity self;
     emotion_thresholds := d;
     emotion_history := emotion_history self |}.

Definition set_emotion_intensity (d : dict Q) (self : MoodDetector) :=
  {| current_mood := current_mood self;
     mood_confidence := mood_confidence self;
     mood_history := mood_history self;
     confidence_threshold := confidence_threshold self;
     stability_threshold := stability_threshold self;
     emotion_smoothing := emotion_smoothing self;
     mood_mapping := mood_mapping self;
     emotion_intensity := d;
     emotion_thresholds := emotion_thresholds self;
     emotion_history := emotion_history self |}.

(** Python's [max(a, b)] and [min(a, b)]: the second argument is the
    answer only when it is strictly beyond the first. *)
Definition pymax (a b : Q) : Q := if Qgtb b a then b else a.

Definition pymin (a b : Q) : Q := if Qltb b a then b else a.

(** [MoodDetector.update_sad_sensitivity] *)
Definition update_sad_sensitivity (sensitivity_factor : Q) : M unit :=
  let base_threshold := 0.15 in
  q <- pydiv base_threshold sensitivity_factor ;;
  thresholds <- gets emotion_thresholds ;;
  modify (set_emotion_thresholds (dict_set thresholds "sad" (pymax 0.1 q))) ;;;
  intensity <- gets emotion_intensity ;;
  modify (set_emotion_intensity
            (dict_set intensity "sad" (pymin 2.0 (1.2 * sensitivity_factor)))).

(** The route [/api/set_sad_sensitivity] of [app.py], from the parsed
    sensitivity on: the clamp, the update, and the sensitivity reported
    back; [None] is the answer of the [except] branch. *)
Definition set_sad_sensitivity (sensitivity : Q) (self : MoodDetector)
  : option Q * MoodDetector :=
  let sensitivity := pymax 0.5 (pymin 3.0 sensitivity) in
  match update_sad_sensitivity sensitivity self with
  | (Ok _, self') => (Some sensitivity, self')
  | (Raise _, self') => (None, self')
  end.

(** ** The best of several faces *)

(** One detection of the classifier: the face's box and its scores. *)
Record detection : Type := mkDetection {
  box : list Z;
  emotions : dict Q
}.

(** [sum(emotion_scores.values())] *)
Definition total_confidence_of (d : detection) : Q :=
  pysum (map snd (emotions d)).

(** The [for detection in emotions] loop of
    [_get_best_emotion_detection]. *)
Fixpoint best_detection_loop (ds : list detection)
    (best_detection : option detection) (best_total_confidence : Q)
  : option detection :=
  match ds with
  | [] => best_detection
  | d :: ds' =>
      let total_confidence := total_confidence_of d in
      if Qgtb total_confidence best_total_confidence
      then best_detection_loop ds' (Some d) total_confidence
      else best_detection_loop ds' best_detection best_total_confidence
  end.

(** [MoodDetector._get_best_emotion_detection]; it reads no field. *)
Definition _get_best_emotion_detection (ds : list detection)
  : option detection :=
  match ds with
  | [] => None
  | _ :: _ => best_detection_loop ds None 0
  end.

(** What [_detection_loop] does with the detections of a frame it
    processes, inside its [try]: nothing without a best detection, the
    frame handler on the best detection's scores otherwise. *)
Definition handle_detections (now : Q) (ds : list detection) : M unit :=
  match ds with
  | [] => ret tt
  | _ :: _ =>
      match _get_best_emotion_detection ds with
      | None => ret tt
      | Some best_emotion_data =>
          detect_frame now (emotions best_emotion_data) ;;; ret tt
      end
  end.

(** One camera read of [_detection_loop]: [None] when the read fails,
    otherwise the clock reading and what the classifier finds in the
    frame. *)
Definition camera_read : Type := option (Q * list detection).

(** The [while] of [_detection_loop] over the reads of a session, with
    [frame_skip = 3]; an exception inside the [try] is logged and the loop
    goes on. *)
Fixpoint _detection_loop (reads : list camera_read) (frame_count : nat)
    (self : MoodDetector) : MoodDetector :=
  match reads with
  | [] => self
  | None :: reads' => _detection_loop reads' frame_count self
  | Some (now, ds) :: reads' =>
      let frame_count := (frame_count + 1)%nat in
      if negb (Nat.eqb (frame_count mod 3) 0)
      then _detection_loop reads' frame_count self
      else _detection_loop reads' frame_count
             (snd (handle_detections now ds self))
  end.

(** ** A mood from a still image *)

(** The answer of [detect_mood_from_image]. *)
Record image_mood : Type := mkImageMood {
  image_label : string;
  image_confidence : Q;
  all_emotions : dict Q
}.

(** [MoodDetector.detect_mood_from_image] from the classifier's detections
    on: the first face counts.  A face without scores makes [max] raise
    and a missing key makes the lookup raise; the [except] answers both
    like no face at all. *)
Definition detect_mood_from_image (ds : list detection) : M image_mood :=
  let nothing := mkImageMood "neutral" 0.0 [] in
  match ds with
  | [] => ret nothing
  | d :: _ =>
      let emotion_scores := emotions d in
      match emotion_scores with
      | [] => ret nothing
      | first :: others =>
          let dominant_emotion := fst (max_by_value first others) in
          match dict_find emotion_scores dominant_emotion with
          | None => ret nothing
          | Some confidence =>
              mapping <- gets mood_mapping ;;
              ret (mkImageMood (dict_get mapping dominant_emotion "neutral")
                     confidence emotion_scores)
          end
      end
  end.

(** ** Playback *)

Module Player.

(** A [MusicManager] with the fields of playback around the fields of the
    category switch.  [mixer] tells of a song whether pygame loads and
    plays it; the thread that watches for the end of a song is outside the
    model. *)
Record t : Type := mk {
  core : MusicManager.t;
  current_song : option string;
  is_playing : bool;
  is_paused : bool;
  volume : Q;
  repeat_mode : bool;
  shuffle_mode : bool
}.

Definition playlist (self : t) : list string :=
  MusicManager.playlist (core self).

Definition current_index (self : t) : nat :=
  MusicManager.current_index (core self).

Definition set_current_index (i : nat) (self : t) : t :=
  mk (MusicManager.mk (MusicManager.current_mood (core self))
        (MusicManager.music_library (core self))
        (MusicManager.playlist (core self)) i)
     (current_song self) (is_playing self) (is_paused self) (volume self)
     (repeat_mode self) (shuffle_mode self).

(** [MusicManager.play_current_song]: an index outside the playlist and a
    song the mixer refuses both end in the [except], which returns
    [False]; [current_song] is assigned before the mixer is asked. *)
Definition play_current_song (mixer : string -> bool) (self : t) : bool * t :=
  match playlist self with
  | [] => (false, self)
  | _ :: _ =>
      match nth_error (playlist self) (current_index self) with
      | None => (false, self)
      | Some song =>
          if mixer song then
            (true, mk (core self) (Some song) true false (volume self)
                      (repeat_mode self) (shuffle_mode self))
          else
            (false, mk (core self) (Some song) (is_playing self)
                       (is_paused self) (volume self) (repeat_mode self)
                       (shuffle_mode self))
      end
  end.

(** [MusicManager.stop] *)
Definition stop (self : t) : t :=
  mk (core self) None false false (volume self) (repeat_mode self)
     (shuffle_mode self).

(** [MusicManager.pause] *)
Definition pause (self : t) : t :=
  if is_playing self && negb (is_paused self) then
    mk (core self) (current_song self) (is_playing self) true (volume self)
       (repeat_mode self) (shuffle_mode self)
  else self.

(** [MusicManager.resume] *)
Definition resume (self : t) : t :=
  if is_playing self && is_paused self then
    mk (core self) (current_song self) (is_playing self) false (volume self)
       (repeat_mode self) (shuffle_mode self)
  else self.

(** [MusicManager.next_song] *)
Definition next_song (mixer : string -> bool) (self : t) : t :=
  match playlist self with
  | [] => self
  | _ :: _ =>
      if (current_index self <? List.length (playlist self) - 1)%nat then
        snd (play_current_song mixer
               (set_current_index (current_index self + 1) self))
      else if repeat_mode self then
        snd (play_current_song mixer (set_current_index 0 self))
      else stop self
  end.

(** [MusicManager.previous_song] *)
Definition previous_song (mixer : string -> bool) (self : t) : t :=
  match playlist self with
  | [] => self
  | _ :: _ =>
      if (0 <? current_index self)%nat then
        snd (play_current_song mixer
               (set_current_index (current_index self - 1) self))
      else if repeat_mode self then
        snd (play_current_song mixer
               (set_current_index (List.length (playlist self) - 1) self))
      else
        snd (play_current_song mixer (set_current_index 0 self))
  end.

(** [MusicManager.set_volume] *)
Definition set_volume (v : Q) (self : t) : t :=
  mk (core self) (current_song self) (is_playing self) (is_paused self)
     (pymax 0.0 (pymin 1.0 v)) (repeat_mode self) (shuffle_mode self).

(** [MusicManager.toggle_repeat] *)
Definition toggle_repeat (self : t) : t :=
  mk (core self) (current_song self) (is_playing self) (is_paused self)
     (volume self) (negb (repeat_mode self)) (shuffle_mode self).

End Player.

(** The [for mood, songs in self.music_library.items()] loop of
    [get_library_stats]. *)
Fixpoint library_stats_loop (library : dict (list string)) (stats : dict nat)
    (total_songs : nat) : dict nat * nat :=
  match library with
  | [] => (stats, total_songs)
  | (mood, songs) :: library' =>
      library_stats_loop library'
        (dict_set stats mood (List.length songs))
        (total_songs + List.length songs)
  end.

(** [MusicManager.get_library_stats] *)
Definition get_library_stats (self : MusicManager.t) : dict nat :=
  let (stats, total_songs) :=
    library_stats_loop (MusicManager.music_library self) [] 0 in
  dict_set stats "total" total_songs.

(** * The specification's vocabulary *)

(** ** The gate's rules *)

(** The ordered rules of [accept]: the sad rule for a sad candidate, and
    for any other candidate the bypass, the recently-seen rule and the
    new-mood rule. *)
Definition accept_rules (candidateLabel : string) (candidateConfidence : Q)
    (history : list entry) : bool :=
  if String.eqb candidateLabel "sad" then
    Qgtb candidateConfidence 0.25
    || (str_in "sad" (map mood_of (last_n 2 history))
        && Qgtb candidateConfidence 0.15)
  else if Qgtb candidateConfidence 0.7 then true
  else if str_in candidateLabel (map mood_of (last_n 3 history))
  then Qgtb candidateConfidence 0.3
  else Qgtb candidateConfidence 0.5.

(** ** The vote *)

(** [finalWeight] of the entry at position [i] out of [total]. *)
Definition final_weight (intensity : dict Q) (total i : nat) (e : entry)
  : Q :=
  confidence_of e
  * (inject_Z (Z.of_nat (i + 1)) / inject_Z (Z.of_nat total))
  * dict_get intensity (mood_of e) 0.5.

(** The weight accumulated by label [m] over [entries], whose first entry
    is at position [i]. *)
Fixpoint accumulated_weight (intensity : dict Q) (total i : nat)
    (entries : list entry) (m : string) : Q :=
  match entries with
  | [] => 0
  | e :: rest =>
      (if String.eqb (mood_of e) m then final_weight intensity total i e
       else 0)
      + accumulated_weight intensity total (S i) rest m
  end.

(** The occurrence count of label [m] in [entries]. *)
Definition occurrences (entries : list entry) (m : string) : nat :=
  List.length (filter (fun e => String.eqb (mood_of e) m) entries).

(** ** Switches of the loop *)

(** The later of two switches came more than its cooldown after the
    earlier. *)
Definition apart (s1 s2 : switch) : Prop :=
  inject_Z (switch_cooldown s2) < switch_time s2 - switch_time s1.

(** The frames the detection thread handles between two ticks. *)
Definition frames (l : list (Q * dict Q)) : list event :=
  map (fun f => Frame (fst f) (snd f)) l.

(** * Support for the proofs *)

(** Every field but the smoothing histories. *)
Definition frame_of (self : MoodDetector) :=
  (current_mood self, mood_confidence self, mood_history self,
   (confidence_threshold self, stability_threshold self,
    emotion_smoothing self),
   (mood_mapping self, emotion_intensity self, emotion_thresholds self)).

(** What the gate guards: the current mood, its confidence and the ring. *)
Definition mood_state (self : MoodDetector) :=
  (current_mood self, mood_confidence self, mood_history self).

(** What the vote reads of the entries: label and confidence. *)
Definition view (entries : list entry) : list (string * Q) :=
  map (fun e => (mood_of e, confidence_of e)) entries.

(** What the dictionaries [W'] and [C'] of the vote hold for label [m]
    once the loop has gone from [W] and [C] through [rest], whose first
    entry is at position [i]. *)
Definition vote_post (intensity : dict Q) (total i : nat)
    (rest : list entry) (W : dict Q) (C : dict nat)
    (W' : dict Q) (C' : dict nat) (m : string) : Prop :=
  (dict_find W' m = None <->
   dict_find W m = None /\ ~ In m (map mood_of rest))
  /\ dict_get W' m 0
     == dict_get W m 0 + accumulated_weight intensity total i rest m
  /\ dict_get C' m 0%nat = (dict_get C m 0%nat + occurrences rest m)%nat
  /\ (dict_find W' m = None <-> dict_find C' m = None).

(** Case analysis on an innermost scrutinee of the goal. *)
Ltac step_m :=
  match goal with
  | |- context [match ?x with _ => _ end] =>
      lazymatch x with
      | context [match _ with _ => _ end] => fail
      | _ => destruct x eqn:?
      end
  end.

(** * Vocabulary for the further properties *)

(** The reads of the camera that succeeded, in order. *)
Fixpoint successes (reads : list camera_read) : list (Q * list detection) :=
  match reads with
  | [] => []
  | None :: reads' => successes reads'
  | Some f :: reads' => f :: successes reads'
  end.

(** The third, sixth, ninth ... element of a list. *)
Fixpoint every_third {A} (l : list A) : list A :=
  match l with
  | _ :: _ :: x :: l' => x :: every_third l'
  | _ => []
  end.

(** The processed frames handled one after the other, exceptions caught. *)
Definition handle_all (fs : list (Q * list detection))
    (self : MoodDetector) : MoodDetector :=
  fold_left (fun s f => snd (handle_detections (fst f) (snd f) s)) fs self.

(** No smoothing history holds more than 5 samples. *)
Definition histories_capped (self : MoodDetector) : Prop :=
  forall k h, dict_find (emotion_history self) k = Some h ->
              (List.length h <= 5)%nat.

(** The ring is within its cap, holds only observations the gate can have
    let through under labels of the mood mapping, and its newest entry is
    the current mood with its confidence. *)
Definition ring_sound (self : MoodDetector) : Prop :=
  (List.length (mood_history self) <= 50)%nat
  /\ (forall e, In e (mood_history self) ->
        0.15 < confidence_of e
        /\ In (mood_of e) ("neutral" :: map snd (mood_mapping self)))
  /\ (mood_history self = []
      \/ exists pre t,
           mood_history self
           = pre ++ [Entry (current_mood self) (mood_confidence self) t]).

(** The position of the player lies within its playlist, if there is
    one. *)
Definition in_playlist (self : Player.t) : Prop :=
  Player.playlist self = []
  \/ (Player.current_index self < List.length (Player.playlist self))%nat.

(** * The arithmetic of the engine in binary64 *)

(** Python's [float] is the IEEE 754 binary64 format, and so is the
    primitive type [float]: its operations are the processor's, rounding
    included.  The methods whose answer the arithmetic itself decides (the
    vote, the selector, the smoother, the statistics and the choice among
    faces) are embedded here over [float], branch for branch as above. *)

Module Binary64.

Local Open Scope float_scope.

(** ** Numbers *)

(** [float(n)] for an [int] that is a length or an index: the machine
    integer converted by the processor, exact below 2^53. *)
Abbreviation of_nat n := (of_uint63 (Uint63Axioms.of_Z (Z.of_nat n))).

(** ** The detector object *)

Record entry : Type := Entry {
  mood_of : string;
  confidence_of : float;
  timestamp_of : float
}.

Record MoodDetector : Type := mkMoodDetector {
  current_mood : string;
  mood_confidence : float;
  mood_history : list entry;
  confidence_threshold : float;
  stability_threshold : Z;
  emotion_smoothing : float;
  mood_mapping : dict string;
  emotion_intensity : dict float;
  emotion_thresholds : dict float;
  emotion_history : dict (list float)
}.

(** [MoodDetector.__init__] *)
Definition init : MoodDetector := {|
  current_mood := "neutral";
  mood_confidence := 0.0;
  mood_history := [];
  confidence_threshold := 0.20;
  stability_threshold := 2%Z;
  emotion_smoothing := 0.6;
  mood_mapping := map (fun l => (l, l)) seven_labels;
  emotion_intensity :=
    [("happy", 1.0); ("surprise", 0.8); ("neutral", 0.5); ("disgust", 0.6);
     ("fear", 0.7); ("sad", 1.2); ("angry", 1.0)];
  emotion_thresholds :=
    [("sad", 0.15); ("happy", 0.25); ("angry", 0.30); ("fear", 0.25);
     ("surprise", 0.25); ("disgust", 0.25); ("neutral", 0.20)];
  emotion_history := map (fun l => (l, [])) seven_labels
|}.

Definition set_mood_history (h : list entry) (self : MoodDetector) :=
  {| current_mood := current_mood self;
     mood_confidence := mood_confidence self;
     mood_history := h;
     confidence_threshold := confidence_threshold self;
     stability_threshold := stability_threshold self;
     emotion_smoothing := emotion_smoothing self;
     mood_mapping := mood_mapping self;
     emotion_intensity := emotion_intensity self;
     emotion_thresholds := emotion_thresholds self;
     emotion_history := emotion_history self |}.

Definition set_emotion_history (h : dict (list float))
    (self : MoodDetector) :=
  {| current_mood := current_mood self;
     mood_confidence := mood_confidence self;
     mood_history := mood_history self;
     confidence_threshold := confidence_threshold self;
     stability_threshold := stability_threshold self;
     emotion_smoothing := emotion_smoothing self;
     mood_mapping := mood_mapping self;
     emotion_intensity := emotion_intensity self;
     emotion_thresholds := emotion_thresholds self;
     emotion_history := h |}.

Definition set_emotion_smoothing (g : float) (self : MoodDetector) :=
  {| current_mood := current_mood self;
     mood_confidence := mood_confidence self;
     mood_history := mood_history self;
     confidence_threshold := confidence_threshold self;
     stability_threshold := stability_threshold self;
     emotion_smoothing := g;
     mood_mapping := mood_mapping self;
     emotion_intensity := emotion_intensity self;
     emotion_thresholds := emotion_thresholds self;
     emotion_history := emotion_history self |}.

(** ** State and exceptions *)

Inductive exn : Type :=
  KeyError | IndexError | ZeroDivisionError | OverflowError.

Inductive result (A : Type) : Type :=
| Ok (a : A)
| Raise (e : exn).
Arguments Ok {A} a.
Arguments Raise {A} e.

Definition M (A : Type) : Type := MoodDetector -> result A * MoodDetector.

Definition ret {A} (a : A) : M A := fun self => (Ok a, self).

Definition raise {A} (e : exn) : M A := fun self => (Raise e, self).

Definition bind {A B} (m : M A) (f : A -> M B) : M B :=
  fun self =>
    match m self with
    | (Ok a, self') => f a self'
    | (Raise e, self') => (Raise e, self')
    end.

Definition gets {A} (f : MoodDetector -> A) : M A :=
  fun self => (Ok (f self), self).

Definition modify (f : MoodDetector -> MoodDetector) : M unit :=
  fun self => (Ok tt, f self).

Definition lift {A} (r : result A) : M A := fun self => (r, self).

Declare Scope b64_scope.
Notation "x <- m ;; k" := (bind m (fun x => k))
  (at level 61, m at next level, right associativity) : b64_scope.
Notation "m ;;; k" := (bind m (fun _ => k))
  (at level 61, right associativity) : b64_scope.
Local Open Scope b64_scope.

(** [x / y] on floats: a zero divisor of either sign raises. *)
Definition pydiv (x y : float) : M float :=
  lift (if y =? 0 then Raise ZeroDivisionError else Ok (x / y)).

(** [a / b] on the [int]s of a position and a length: the quotient
    rounded once, which for such operands is the quotient of their
    conversions. *)
Definition int_truediv (a b : nat) : M float :=
  lift (if Nat.eqb b 0 then Raise ZeroDivisionError
        else Ok (of_nat a / of_nat b)).

(** [d[k]] on a dictionary. *)
Definition dict_index {V} (d : dict V) (k : string) : M V :=
  lift (match dict_find d k with
        | Some v => Ok v
        | None => Raise KeyError
        end).

(** [[f(x) for x in l]]: the items are computed in order and the first
    exception ends the comprehension. *)
Fixpoint comprehension {A B} (f : A -> M B) (l : list A) : M (list B) :=
  match l with
  | [] => ret []
  | a :: l' =>
      b <- f a ;;
      bs <- comprehension f l' ;;
      ret (b :: bs)
  end.

(** ** The emotion smoother *)

Section Builtins.

(** [x ** i] for a float [x] and an [int] [i] of [range]: the C library's
    [pow], with [OverflowError] when it reports a range error. *)
Variable float_pow : float -> nat -> result float.

(** The built-in [sum] on floats.  Through CPython 3.11 it adds the items
    one by one; later versions compensate the rounding. *)
Variable pysum : list float -> float.

(** The body of the loop of [_smooth_emotions] for one item. *)
Definition smooth_one (emotion : string) (score : float) : M float :=
  eh <- gets emotion_history ;;
  if dict_mem eh emotion then
    old <- dict_index eh emotion ;;
    modify (set_emotion_history (dict_set eh emotion (old ++ [score]))) ;;;
    eh <- gets emotion_history ;;
    pushed <- dict_index eh emotion ;;
    (if (5 <? List.length pushed)%nat
     then modify (set_emotion_history (dict_set eh emotion (tl pushed)))
     else ret tt) ;;;
    eh <- gets emotion_history ;;
    hist <- dict_index eh emotion ;;
    if (1 <? List.length hist)%nat then
      g <- gets emotion_smoothing ;;
      weights <- comprehension (fun i => lift (float_pow g i))
                   (seq 0 (List.length hist)) ;;
      let weights := rev weights in
      let weighted_sum :=
        pysum (map (fun ws => fst ws * snd ws) (combine weights hist)) in
      let weight_sum := pysum weights in
      pydiv weighted_sum weight_sum
    else ret score
  else ret score.

Fixpoint smooth_loop (items : dict float) (smoothed_scores : dict float)
  : M (dict float) :=
  match items with
  | [] => ret smoothed_scores
  | (emotion, score) :: items' =>
      v <- smooth_one emotion score ;;
      smooth_loop items' (dict_set smoothed_scores emotion v)
  end.

(** [MoodDetector._smooth_emotions] *)
Definition _smooth_emotions (emotion_scores : dict float) : M (dict float) :=
  smooth_loop emotion_scores [].

(** ** The best of several faces *)

Record detection : Type := mkDetection {
  box : list Z;
  emotions : dict float
}.

(** The [for detection in emotions] loop of
    [_get_best_emotion_detection]. *)
Fixpoint best_detection_loop (ds : list detection)
    (best_detection : option detection) (best_total_confidence : float)
  : option detection :=
  match ds with
  | [] => best_detection
  | d :: ds' =>
      let emotion_scores := emotions d in
      let total_confidence := pysum (map snd emotion_scores) in
      if best_total_confidence <? total_confidence
      then best_detection_loop ds' (Some d) total_confidence
      else best_detection_loop ds' best_detection best_total_confidence
  end.

(** [MoodDetector._get_best_emotion_detection]; it reads no field. *)
Definition _get_best_emotion_detection (ds : list detection)
  : option detection :=
  match ds with
  | [] => None
  | _ :: _ => best_detection_loop ds None 0
  end.

End Builtins.

(** [sum] as CPython computes it through version 3.11: from 0, one rounded
    addition per item. *)
Definition sum_left (l : list float) : float := fold_left add l 0.

(** [x ** i] with the exact power rounded once, and [OverflowError] when
    the power of a finite [x] is beyond the format: what a correctly
    rounding [pow] gives. *)
Definition pow_rounded (x : float) (i : nat) : result float :=
  match i with
  | O => Ok 1
  | S _ =>
      match Prim2SF x with
      | S754_nan => Ok nan
      | S754_zero s => Ok (if s && Nat.odd i then neg_zero else 0)
      | S754_infinity s =>
          Ok (if s && Nat.odd i then neg_infinity else infinity)
      | S754_finite s m e =>
          let mantissa := if s then Z.neg m else Z.pos m in
          let r := SF2Prim (binary_normalize prec emax
                              (mantissa ^ Z.of_nat i) (e * Z.of_nat i)
                              false) in
          if is_infinity r then Raise OverflowError else Ok r
      end
  end.

(** ** The dominant emotion selector *)

(** [sorted(items, key=lambda x: x[1], reverse=True)]: a stable sort by
    descending score, for scores that compare (no NaN among them). *)
Fixpoint insert_desc (x : string * float) (l : list (string * float))
  : list (string * float) :=
  match l with
  | [] => [x]
  | y :: l' =>
      if snd y <=? snd x then x :: l else y :: insert_desc x l'
  end.

Fixpoint sorted_desc (l : list (string * float)) : list (string * float) :=
  match l with
  | [] => []
  | x :: l' => insert_desc x (sorted_desc l')
  end.

(** [MoodDetector._get_dominant_emotion] *)
Definition _get_dominant_emotion (emotion_scores : dict float)
  : M (string * float) :=
  match emotion_scores with
  | [] => ret ("neutral", 0.0)
  | _ :: _ =>
      let sorted_emotions := sorted_desc emotion_scores in
      match sorted_emotions with
      | [] => raise IndexError
      | (primary_emotion, primary_score) :: others =>
          let ambiguous :=
            match others with
            | [] => false
            | (_, secondary_score) :: _ =>
                (primary_score - secondary_score <? 0.1)
                && (primary_score <? 0.4)
            end in
          if ambiguous then ret ("neutral", primary_score)
          else
            intensity <- gets emotion_intensity ;;
            let intensity_weighted_score :=
              primary_score * dict_get intensity primary_emotion 0.5 in
            ret (primary_emotion, intensity_weighted_score)
      end
  end.

(** ** The windowed voter *)

(** The [for i, entry in enumerate(recent_moods)] loop of
    [get_stable_mood], from index [i] on. *)
Fixpoint vote_loop (total_entries i : nat) (recent_moods : list entry)
    (mood_weights : dict float) (mood_counts : dict nat)
  : M (dict float * dict nat) :=
  match recent_moods with
  | [] => ret (mood_weights, mood_counts)
  | e :: rest =>
      let mood := mood_of e in
      let confidence := confidence_of e in
      time_weight <- int_truediv (i + 1) total_entries ;;
      intensity <- gets emotion_intensity ;;
      let final_weight :=
        confidence * time_weight * dict_get intensity mood 0.5 in
      if dict_mem mood_weights mood then
        w <- dict_index mood_weights mood ;;
        c <- dict_index mood_counts mood ;;
        vote_loop total_entries (S i) rest
          (dict_set mood_weights mood (w + final_weight))
          (dict_set mood_counts mood (c + 1)%nat)
      else
        vote_loop total_entries (S i) rest
          (dict_set mood_weights mood final_weight)
          (dict_set mood_counts mood 1%nat)
  end.

(** [max(items, key=lambda x: x[1])] on a non-empty list: an item takes
    the lead only when its value is greater than the leader's. *)
Fixpoint max_by_value (best : string * float) (l : list (string * float))
  : string * float :=
  match l with
  | [] => best
  | x :: l' => max_by_value (if snd best <? snd x then x else best) l'
  end.

(** The entries with [now - timestamp <= window_seconds]. *)
Definition within (window_seconds now : float) (history : list entry)
  : list entry :=
  filter (fun e => now - timestamp_of e <=? window_seconds) history.

(** [MoodDetector.get_stable_mood]; [now] is the reading of
    [time.time()], [window_seconds] the window as a float. *)
Definition get_stable_mood (window_seconds now : float) : M string :=
  history <- gets mood_history ;;
  let recent_moods := within window_seconds now history in
  match recent_moods with
  | [] => gets current_mood
  | _ :: _ =>
      r <- vote_loop (List.length recent_moods) 0 recent_moods [] [] ;;
      let mood_weights := fst r in
      let mood_counts := snd r in
      match mood_weights with
      | [] => gets current_mood
      | first :: others =>
          let best_mood := max_by_value first others in
          if negb (String.eqb (fst best_mood) "neutral") then
            c <- dict_index mood_counts (fst best_mood) ;;
            if (c <? 2)%nat then ret "neutral" else ret (fst best_mood)
          else ret (fst best_mood)
      end
  end.

(** ** Statistics of the ring *)

(** The dictionary that [get_mood_statistics] returns when the ring is not
    empty. *)
Record statistics : Type := mkStatistics {
  mood_distribution : dict nat;
  average_confidence : float;
  total_detections : nat;
  reported_mood : string
}.

(** The [for entry in self.mood_history] loop of [get_mood_statistics]. *)
Fixpoint statistics_loop (history : list entry) (mood_counts : dict nat)
    (total_confidence : float) : M (dict nat * float) :=
  match history with
  | [] => ret (mood_counts, total_confidence)
  | e :: rest =>
      let mood := mood_of e in
      let confidence := confidence_of e in
      if dict_mem mood_counts mood then
        c <- dict_index mood_counts mood ;;
        statistics_loop rest (dict_set mood_counts mood (c + 1)%nat)
          (total_confidence + confidence)
      else
        statistics_loop rest (dict_set mood_counts mood 1%nat)
          (total_confidence + confidence)
  end.

(** [MoodDetector.get_mood_statistics]; [None] is the empty dictionary of
    the empty ring. *)
Definition get_mood_statistics : M (option statistics) :=
  history <- gets mood_history ;;
  match history with
  | [] => ret None
  | _ :: _ =>
      r <- statistics_loop history [] 0 ;;
      avg_confidence <- pydiv (snd r) (of_nat (List.length history)) ;;
      m <- gets current_mood ;;
      ret (Some (mkStatistics (fst r) avg_confidence
                   (List.length history) m))
  end.

End Binary64.

(** * The specification's vocabulary over floats *)

Module Binary64Spec.

Import Binary64.
Local Open Scope float_scope.

(** Descending order of scores: [x] may stand before [y]. *)
Definition desc (x y : string * float) : Prop := (snd y <=? snd x) = true.

(** [finalWeight] of the entry at position [i] out of [total]. *)
Definition final_weight (intensity : dict float) (total i : nat) (e : entry)
  : float :=
  confidence_of e * (of_nat (i + 1) / of_nat total)
  * dict_get intensity (mood_of e) 0.5.

(** The final weights of the entries labelled [m], oldest first; the first
    entry of [entries] is at position [i]. *)
Fixpoint label_weights (intensity : dict float) (total i : nat)
    (entries : list entry) (m : string) : list float :=
  match entries with
  | [] => []
  | e :: rest =>
      (if String.eqb (mood_of e) m
       then [final_weight intensity total i e] else [])
      ++ label_weights intensity total (S i) rest m
  end.

(** The weight accumulated by label [m]: its final weights added up,
    oldest first. *)
Definition accumulated_weight (intensity : dict float) (total : nat)
    (entries : list entry) (m : string) : float :=
  match label_weights intensity total 0 entries m with
  | [] => 0
  | w :: ws => fold_left add ws w
  end.

(** The occurrence count of label [m] in [entries]. *)
Definition occurrences (entries : list entry) (m : string) : nat :=
  List.length (filter (fun e => String.eqb (mood_of e) m) entries).

(** The labels of a list, each once, in the order of their first
    appearance. *)
Fixpoint first_seen (l : list string) : list string :=
  match l with
  | [] => []
  | x :: l' => x :: filter (fun y => negb (String.eqb y x)) (first_seen l')
  end.

(** The moving average of a history [hist], newest last: the sample at
    position [k] from the front is [n - 1 - k] steps old and weighs
    [pw (n - 1 - k)], the power of the decay factor with that exponent;
    the weighted sum is divided by the sum of the weights, every operation
    rounded. *)
Definition ema (pysum : list float -> float) (pw : nat -> float)
    (hist : list float) : float :=
  let n := List.length hist in
  pysum (map (fun k => pw (n - 1 - k)%nat * nth k hist 0) (seq 0 n))
  / pysum (map (fun k => pw (n - 1 - k)%nat) (seq 0 n)).

(** What a call of the smoother owes a label whose history was [old] and
    whose raw score is [score]. *)
Definition smooth_post (pysum : list float -> float) (pw : nat -> float)
    (old : list float) (score : float)
    (eh' : dict (list float)) (smoothed : dict float) (label : string)
  : Prop :=
  let hist := last_n 5 (old ++ [score]) in
  dict_find eh' label = Some hist
  /\ (List.length hist <= 5)%nat
  /\ exists v,
       dict_find smoothed label = Some v
       /\ (List.length hist = 1%nat -> v = score)
       /\ ((1 < List.length hist)%nat -> v = ema pysum pw hist).

(** ** Support for the proofs *)

(** What the weight dictionary holds for a label once its final weights
    [ws] have been met, when it held [start] before. *)
Definition acc_from (start : option float) (ws : list float)
  : option float :=
  match start, ws with
  | Some w, _ => Some (fold_left add ws w)
  | None, [] => None
  | None, w :: ws' => Some (fold_left add ws' w)
  end.

End Binary64Spec.

(** * Properties *)

(** ** Comparisons, lists, dictionaries *)

Lemma Qgtb_true (x y : Q) : Qgtb x y = true <-> y < x.
Proof.
  unfold Qgtb. rewrite negb_true_iff.
  split.
  - intros H. apply Qnot_le_lt. intros L.
    apply Qle_bool_iff in L. congruence.
  - intros H. destruct (Qle_bool x y) eqn:E; [|reflexivity].
    apply Qle_bool_iff in E. lra.
Qed.

Lemma Qgtb_false (x y : Q) : Qgtb x y = false <-> x <= y.
Proof.
  unfold Qgtb. rewrite negb_false_iff. apply Qle_bool_iff.
Qed.

Lemma Qltb_true (x y : Q) : Qltb x y = true <-> x < y.
Proof. unfold Qltb. apply (Qgtb_true y x). Qed.

Lemma Qltb_false (x y : Q) : Qltb x y = false <-> y <= x.
Proof. unfold Qltb. apply (Qgtb_false y x). Qed.

Lemma str_in_true (x : string) (l : list string) :
  str_in x l = true <-> In x l.
Proof.
  unfold str_in. rewrite existsb_exists. split.
  - intros [y [Hy E]]. apply String.eqb_eq in E. now subst.
  - intros H. exists x. split; [assumption | apply String.eqb_refl].
Qed.

Lemma dict_find_set_same {V} (d : dict V) k v :
  dict_find (dict_set d k v) k = Some v.
Proof.
  induction d as [|[k' v'] d IH]; simpl.
  - now rewrite String.eqb_refl.
  - destruct (String.eqb k k') eqn:E; simpl; rewrite E; auto.
Qed.

Lemma dict_find_set_other {V} (d : dict V) k k' v :
  k' <> k -> dict_find (dict_set d k v) k' = dict_find d k'.
Proof.
  intros N. induction d as [|[k0 v0] d IH]; simpl.
  - apply String.eqb_neq in N. now rewrite N.
  - destruct (String.eqb k k0) eqn:E; simpl.
    + apply String.eqb_eq in E. subst k0.
      apply String.eqb_neq in N. now rewrite N.
    + destruct (String.eqb k' k0); auto.
Qed.


Lemma last_n_length {A} (n : nat) (l : list A) :
  (List.length (last_n n l) <= n)%nat.
Proof. unfold last_n. rewrite length_skipn. lia. Qed.

Lemma last_n_all {A} (n : nat) (l : list A) :
  (List.length l <= n)%nat -> last_n n l = l.
Proof.
  intros H. unfold last_n.
  replace (List.length l - n)%nat with 0%nat by lia. reflexivity.
Qed.



(** ** The stability gate *)

(** The gate decides as the ordered rules do and leaves the detector as
    it was: a sad candidate that the sad rule turns down has a confidence of
    at most 0.25, which the general rules turn down as well. *)
Lemma gate_run (new_mood : string) (confidence : Q) (self : MoodDetector) :
  _is_mood_stable new_mood confidence self
  = (Ok (accept_rules new_mood confidence (mood_history self)), self).
Proof.
  unfold _is_mood_stable, accept_rules, bind, gets, ret.
  destruct (String.eqb new_mood "sad") eqn:Hsad; [|reflexivity].
  destruct (Qgtb confidence 0.25) eqn:H25; [reflexivity|].
  destruct (str_in "sad" (map mood_of (last_n 2 (mood_history self))));
    [reflexivity|].
  simpl. apply Qgtb_false in H25.
  assert (H7 : Qgtb confidence 0.7 = false) by (apply Qgtb_false; lra).
  assert (H3 : Qgtb confidence 0.3 = false) by (apply Qgtb_false; lra).
  assert (H5 : Qgtb confidence 0.5 = false) by (apply Qgtb_false; lra).
  rewrite H7, H3, H5.
  now destruct (str_in new_mood _).
Qed.

(** C1. The gate returns, without touching the detector, exactly what the
    ordered rules say: for a sad candidate, confidence above 0.25, or sad
    among the last 2 history entries and confidence above 0.15; for any
    other candidate, confidence above 0.7, else above 0.3 when the label is
    among the last 3 entries, else above 0.5.  In particular a candidate
    that is not sad, not among the last 3 entries and of confidence at
    most 0.5 is rejected. *)
Theorem is_mood_stable_rules (new_mood : string) (confidence : Q)
    (self : MoodDetector) :
  _is_mood_stable new_mood confidence self
  = (Ok (accept_rules new_mood confidence (mood_history self)), self)
  /\ (new_mood <> "sad" ->
      ~ In new_mood (map mood_of (last_n 3 (mood_history self))) ->
      confidence <= 0.5 ->
      _is_mood_stable new_mood confidence self = (Ok false, self)).
Proof.
  split; [apply gate_run|].
  intros Hns Hnew Hc. rewrite gate_run. do 2 f_equal.
  unfold accept_rules.
  apply String.eqb_neq in Hns. rewrite Hns.
  assert (H7 : Qgtb confidence 0.7 = false) by (apply Qgtb_false; lra).
  rewrite H7.
  destruct (str_in new_mood _) eqn:Hin.
  - apply str_in_true in Hin. contradiction.
  - apply Qgtb_false. exact Hc.
Qed.

Lemma is_mood_stable_rules_witness :
  _is_mood_stable "fear" 0.5
    (set_mood_history [Entry "happy" 0.8 1; Entry "sad" 0.3 2] init)
  = (Ok false,
     set_mood_history [Entry "happy" 0.8 1; Entry "sad" 0.3 2] init).
Proof.
  apply (is_mood_stable_rules "fear" 0.5
           (set_mood_history [Entry "happy" 0.8 1; Entry "sad" 0.3 2] init)).
  - discriminate.
  - simpl. intros [H | [H | []]]; discriminate.
  - vm_compute. discriminate.
Defined.

(** ** The mood history ring *)

Lemma update_mood_history_last_n (now : Q) (mood : string) (confidence : Q)
    (self : MoodDetector) :
  (List.length (mood_history self) <= 50)%nat ->
  mood_history (snd (_update_mood_history now mood confidence self))
  = last_n 50 (mood_history self ++ [Entry mood confidence now]).
Proof.
  intros Hlen.
  unfold _update_mood_history, bind, modify, gets, ret. simpl.
  set (h := mood_history self ++ [Entry mood confidence now]).
  assert (Hh : List.length h = S (List.length (mood_history self))).
  { unfold h. rewrite length_app. simpl. lia. }
  destruct (50 <? List.length h)%nat eqn:E; simpl.
  - apply Nat.ltb_lt in E. unfold last_n.
    replace (List.length h - 50)%nat with 1%nat by lia.
    now destruct h.
  - apply Nat.ltb_ge in E. now rewrite last_n_all.
Qed.




(** ** What the smoother and the selector leave alone *)

Lemma smooth_one_frame (emotion : string) (score : Q) (self : MoodDetector) :
  frame_of (snd (smooth_one emotion score self)) = frame_of self.
Proof.
  unfold smooth_one, bind, gets, modify, dict_index, pydiv, lift, ret, raise.
  cbn -[Nat.ltb]. repeat (step_m; cbn -[Nat.ltb]); reflexivity.
Qed.

Lemma smooth_loop_frame (items smoothed : dict Q) (self : MoodDetector) :
  frame_of (snd (smooth_loop items smoothed self)) = frame_of self.
Proof.
  revert smoothed self.
  induction items as [|[emotion score] items IH]; intros smoothed self.
  - reflexivity.
  - simpl. unfold bind.
    pose proof (smooth_one_frame emotion score self) as H1.
    destruct (smooth_one emotion score self) as [[v | e] self1]; simpl in *.
    + now rewrite IH.
    + exact H1.
Qed.

Lemma get_dominant_emotion_pure (scores : dict Q) (self : MoodDetector) :
  snd (_get_dominant_emotion scores self) = self.
Proof.
  unfold _get_dominant_emotion, bind, gets, ret, raise.
  repeat (step_m; cbn); reflexivity.
Qed.

Lemma is_mood_stable_pure (new_mood : string) (confidence : Q)
    (self : MoodDetector) :
  snd (_is_mood_stable new_mood confidence self) = self.
Proof. now rewrite gate_run. Qed.

(** ** The per-emotion threshold in front of the gate *)

Lemma frame_mood_state (self self1 : MoodDetector) :
  frame_of self1 = frame_of self -> mood_state self1 = mood_state self.
Proof. unfold frame_of, mood_state. congruence. Qed.

Lemma update_mood_history_ok (now : Q) (mood : string) (confidence : Q)
    (self : MoodDetector) :
  fst (_update_mood_history now mood confidence self) = Ok tt.
Proof.
  unfold _update_mood_history, bind, modify, gets, ret.
  cbn -[Nat.ltb]. now step_m.
Qed.

(** The frame handler, path by path. *)
Lemma detect_frame_paths (now : Q) (emotion_scores : dict Q)
    (self : MoodDetector) :
  detect_frame now emotion_scores self =
  match _smooth_emotions emotion_scores self with
  | (Raise e, self1) => (Raise e, self1)
  | (Ok smoothed, self1) =>
      match fst (_get_dominant_emotion smoothed self1) with
      | Raise e => (Raise e, self1)
      | Ok (dom, conf) =>
          let new_mood := dict_get (mood_mapping self) dom "neutral" in
          if Qgtb conf (dict_get (emotion_thresholds self) dom
                          (confidence_threshold self))
          then
            if accept_rules new_mood conf (mood_history self1)
            then (Ok Accepted,
                  snd (_update_mood_history now new_mood conf
                         (set_current new_mood conf self1)))
            else (Ok GateRejected, self1)
          else (Ok BelowThreshold, self1)
      end
  end.
Proof.
  pose proof (smooth_loop_frame emotion_scores [] self) as Hframe.
  fold (_smooth_emotions emotion_scores) in Hframe.
  unfold detect_frame. unfold bind at 1.
  destruct (_smooth_emotions emotion_scores self) as [[smoothed | e] self1];
    [|reflexivity].
  simpl in Hframe. unfold frame_of in Hframe.
  unfold bind at 1.
  pose proof (get_dominant_emotion_pure smoothed self1) as Hpure.
  destruct (_get_dominant_emotion smoothed self1) as [[[dom conf] | e] self2];
    simpl in Hpure; subst self2; [|reflexivity].
  cbn [fst snd]. unfold bind at 1, gets at 1. unfold bind at 1, gets at 1.
  replace (emotion_thresholds self1) with (emotion_thresholds self)
    by congruence.
  replace (confidence_threshold self1) with (confidence_threshold self)
    by congruence.
  destruct (Qgtb conf _); [|reflexivity].
  unfold bind at 1, gets at 1.
  replace (mood_mapping self1) with (mood_mapping self) by congruence.
  unfold bind at 1.
  rewrite (gate_run _ conf self1).
  destruct (accept_rules _ conf (mood_history self1)); [|reflexivity].
  unfold bind at 1, modify at 1. unfold bind at 1, gets at 1.
  cbn [current_mood set_current]. unfold bind, ret.
  set (u := _update_mood_history _ _ _ _).
  pose proof (update_mood_history_ok now
                (dict_get (mood_mapping self) dom "neutral") conf
                (set_current (dict_get (mood_mapping self) dom "neutral")
                   conf self1)) as Hok.
  fold u in Hok. destruct u as [[[] | e] self3]; simpl in *;
    [reflexivity | discriminate].
Qed.

Lemma default_thresholds :
  map (fun l => dict_get (emotion_thresholds init) l
                  (confidence_threshold init))
      ["sad"; "happy"; "angry"; "fear"; "surprise"; "disgust"; "neutral"]
  = [0.15; 0.25; 0.30; 0.25; 0.25; 0.25; 0.20]
  /\ (forall l, ~ In l seven_labels ->
        dict_get (emotion_thresholds init) l (confidence_threshold init)
        = 0.20).
Proof.
  split; [reflexivity|].
  intros l Hl. simpl in Hl. unfold dict_get. simpl.
  repeat match goal with
         | |- context [String.eqb l ?k] =>
             destruct (String.eqb_spec l k); [subst; tauto|]
         end.
  reflexivity.
Qed.

(** C10. In the handling of a frame the gate is consulted only when the
    selected emotion's confidence strictly exceeds that emotion's
    threshold, taken from [emotion_thresholds] with the global
    [confidence_threshold] as fallback: an outcome other than
    [BelowThreshold] needs it, and a change of the current mood, of its
    confidence or of the ring needs an accepted outcome.  The thresholds
    of a fresh detector are sad 0.15, happy 0.25, angry 0.30, fear 0.25,
    surprise 0.25, disgust 0.25, neutral 0.20, and 0.20 for any other
    label. *)
Theorem detection_prefilter (now : Q) (emotion_scores : dict Q)
    (self : MoodDetector) :
  (forall o self',
      detect_frame now emotion_scores self = (Ok o, self') ->
      exists smoothed self1 dominant_emotion confidence,
        _smooth_emotions emotion_scores self = (Ok smoothed, self1)
        /\ _get_dominant_emotion smoothed self1
           = (Ok (dominant_emotion, confidence), self1)
        /\ (o = BelowThreshold <->
            confidence <= dict_get (emotion_thresholds self)
                            dominant_emotion (confidence_threshold self))
        /\ (o <> BelowThreshold ->
            dict_get (emotion_thresholds self) dominant_emotion
              (confidence_threshold self) < confidence
            /\ _is_mood_stable
                 (dict_get (mood_mapping self) dominant_emotion "neutral")
                 confidence self1
               = (Ok match o with Accepted => true | _ => false end, self1)))
  /\ (mood_state (detection_step now emotion_scores self) <> mood_state self ->
      exists self', detect_frame now emotion_scores self = (Ok Accepted, self'))
  /\ map (fun l => dict_get (emotion_thresholds init) l
                     (confidence_threshold init))
         ["sad"; "happy"; "angry"; "fear"; "surprise"; "disgust"; "neutral"]
     = [0.15; 0.25; 0.30; 0.25; 0.25; 0.25; 0.20]
  /\ (forall l, ~ In l seven_labels ->
        dict_get (emotion_thresholds init) l (confidence_threshold init)
        = 0.20).
Proof.
  split; [|split; [|exact default_thresholds]].
  - intros o self' H. rewrite detect_frame_paths in H.
    destruct (_smooth_emotions emotion_scores self)
      as [[smoothed | e] self1] eqn:Hsm; [|discriminate].
    pose proof (get_dominant_emotion_pure smoothed self1) as Hpure.
    destruct (_get_dominant_emotion smoothed self1)
      as [[[dom conf] | e] self2] eqn:Hsel; simpl in Hpure; subst self2;
      [|discriminate].
    exists smoothed, self1, dom, conf.
    split; [reflexivity|]. split; [exact Hsel|].
    cbn [fst] in H. cbv zeta in H.
    rewrite (gate_run _ conf self1).
    destruct (Qgtb conf _) eqn:Hgt.
    + apply Qgtb_true in Hgt.
      destruct (accept_rules _ conf (mood_history self1)) eqn:Hacc;
        injection H as <- <-.
      * split; [split; [discriminate | intros; lra]|].
        intros _. split; [exact Hgt | reflexivity].
      * split; [split; [discriminate | intros; lra]|].
        intros _. split; [exact Hgt | reflexivity].
    + apply Qgtb_false in Hgt. injection H as <- <-.
      split; [split; [intros _; exact Hgt | reflexivity]|].
      intros N. now contradiction N.
  - intros N. unfold detection_step in N.
    pose proof (smooth_loop_frame emotion_scores [] self) as Hframe.
    fold (_smooth_emotions emotion_scores) in Hframe.
    apply frame_mood_state in Hframe.
    rewrite detect_frame_paths in N |- *.
    destruct (_smooth_emotions emotion_scores self)
      as [[smoothed | e] self1]; simpl in Hframe;
      [| now contradiction N].
    destruct (fst (_get_dominant_emotion smoothed self1))
      as [[dom conf] | e]; [| now contradiction N].
    cbv zeta in N |- *.
    destruct (Qgtb conf _); [| now contradiction N].
    destruct (accept_rules _ conf (mood_history self1));
      [| now contradiction N].
    eexists. reflexivity.
Qed.

Lemma detection_prefilter_witness :
  exists self', detect_frame 5 [("happy", 0.9)] init = (Ok Accepted, self').
Proof.
  apply (detection_prefilter 5 [("happy", 0.9)] init).
  vm_compute. intros H. discriminate H.
Defined.

(** ** Dictionaries: keys *)

Lemma dict_find_none {V} (d : dict V) (k : string) :
  dict_find d k = None <-> ~ In k (map fst d).
Proof.
  induction d as [|[k' v'] d IH]; simpl.
  - tauto.
  - destruct (String.eqb_spec k k') as [-> | N].
    + split; [discriminate | intros H; exfalso; apply H; now left].
    + rewrite IH. split.
      * intros H [E | I]; [congruence | contradiction].
      * intros H I. apply H. now right.
Qed.

Lemma dict_set_keys {V} (d : dict V) (k : string) (v : V) :
  map fst (dict_set d k v)
  = match dict_find d k with
    | Some _ => map fst d
    | None => map fst d ++ [k]
    end.
Proof.
  induction d as [|[k' v'] d IH]; simpl.
  - reflexivity.
  - destruct (String.eqb k k'); simpl.
    + reflexivity.
    + rewrite IH. now destruct (dict_find d k).
Qed.

Lemma dict_set_nodup {V} (d : dict V) (k : string) (v : V) :
  NoDup (map fst d) -> NoDup (map fst (dict_set d k v)).
Proof.
  intros H. rewrite dict_set_keys.
  destruct (dict_find d k) eqn:E; [assumption|].
  apply dict_find_none in E.
  apply NoDup_app; [assumption | repeat constructor; simpl; tauto |].
  intros x Hx [<- | []]. contradiction.
Qed.

Lemma dict_find_in {V} (d : dict V) (k : string) (v : V) :
  dict_find d k = Some v -> In (k, v) d.
Proof.
  induction d as [|[k' v'] d IH]; simpl; [discriminate|].
  destruct (String.eqb_spec k k') as [-> | N].
  - intros [= ->]. now left.
  - intros H. right. now apply IH.
Qed.

Lemma dict_in_find {V} (d : dict V) (k : string) (v : V) :
  NoDup (map fst d) -> In (k, v) d -> dict_find d k = Some v.
Proof.
  induction d as [|[k' v'] d IH]; simpl; [tauto|].
  intros Hnd [E | I].
  - injection E as -> ->. now rewrite String.eqb_refl.
  - inversion Hnd as [|? ? Hk Hnd']; subst.
    destruct (String.eqb_spec k k') as [-> | N].
    + exfalso. apply Hk. apply (in_map fst) in I. exact I.
    + now apply IH.
Qed.

Lemma dict_get_set_same {V} (d : dict V) k v (default : V) :
  dict_get (dict_set d k v) k default = v.
Proof. unfold dict_get. now rewrite dict_find_set_same. Qed.

Lemma dict_get_set_other {V} (d : dict V) k k' v (default : V) :
  k' <> k -> dict_get (dict_set d k v) k' default = dict_get d k' default.
Proof. intros N. unfold dict_get. now rewrite dict_find_set_other. Qed.

(** ** The windowed voter *)

Lemma total_entries_nonzero (total : nat) :
  total <> 0%nat -> Qeq_bool (inject_Z (Z.of_nat total)) 0 = false.
Proof.
  intros H. destruct (Qeq_bool _ 0) eqn:E; [|reflexivity].
  apply Qeq_bool_eq in E. unfold Qeq in E. simpl in E. lia.
Qed.

Lemma occurrences_cons (e : entry) (rest : list entry) (m : string) :
  occurrences (e :: rest) m
  = ((if String.eqb (mood_of e) m then 1 else 0) + occurrences rest m)%nat.
Proof.
  unfold occurrences. simpl. now destruct (String.eqb (mood_of e) m).
Qed.

(** One entry more at the front of what the loop goes through. *)
Lemma vote_post_cons (intensity : dict Q) (total i : nat) (e : entry)
    (rest : list entry) (W : dict Q) (C : dict nat) (W' : dict Q)
    (C' : dict nat) (vW : Q) (vC : nat) :
  vW == dict_get W (mood_of e) 0 + final_weight intensity total i e ->
  vC = (dict_get C (mood_of e) 0 + 1)%nat ->
  (forall m, vote_post intensity total (S i) rest
               (dict_set W (mood_of e) vW) (dict_set C (mood_of e) vC)
               W' C' m) ->
  forall m, vote_post intensity total i (e :: rest) W C W' C' m.
Proof.
  intros HvW HvC Hspec m.
  destruct (Hspec m) as (Hk & Hw & Hc & Hwc).
  unfold vote_post. rewrite occurrences_cons. cbn [accumulated_weight].
  destruct (String.eqb_spec (mood_of e) m) as [E | N].
  - subst m.
    rewrite dict_get_set_same in Hw. rewrite dict_get_set_same in Hc.
    rewrite dict_find_set_same in Hk.
    split; [|split; [|split]].
    + split.
      * intros H. apply Hk in H. destruct H as [H _]. discriminate H.
      * intros [_ H]. exfalso. apply H. simpl. now left.
    + rewrite Hw, HvW. lra.
    + rewrite Hc, HvC. lia.
    + exact Hwc.
  - rewrite dict_get_set_other in Hw by congruence.
    rewrite dict_get_set_other in Hc by congruence.
    rewrite dict_find_set_other in Hk by congruence.
    split; [|split; [|split]].
    + split.
      * intros H. apply Hk in H. destruct H as [H1 H2].
        split; [exact H1|]. simpl. intros [E | I]; [congruence | tauto].
      * intros [H1 H2]. apply Hk. split; [exact H1|].
        intros I. apply H2. simpl. now right.
    + rewrite Hw. lra.
    + rewrite Hc. lia.
    + exact Hwc.
Qed.

(** The loop neither raises nor mutates, and its dictionaries hold, per
    label, what the earlier entries gave plus what [rest] gives. *)
Lemma vote_loop_spec (rest : list entry) :
  forall (total i : nat) (W : dict Q) (C : dict nat) (self : MoodDetector),
    total <> 0%nat ->
    (forall m, dict_find W m = None <-> dict_find C m = None) ->
    NoDup (map fst W) ->
    exists W' C',
      vote_loop total i rest W C self = (Ok (W', C'), self)
      /\ NoDup (map fst W')
      /\ forall m, vote_post (emotion_intensity self) total i rest
                     W C W' C' m.
Proof.
  induction rest as [|e rest IH]; intros total i W C self Ht Hkeys Hnd.
  - exists W, C. simpl. split; [reflexivity|]. split; [assumption|].
    intros m. unfold vote_post, occurrences. simpl.
    split; [tauto|]. split; [lra|]. split; [lia | apply Hkeys].
  - cbn [vote_loop]. unfold bind at 1, pydiv, lift.
    rewrite (total_entries_nonzero total Ht).
    unfold bind at 1, gets at 1.
    fold (final_weight (emotion_intensity self) total i e).
    set (fw := final_weight (emotion_intensity self) total i e).
    assert (Hstep : forall vW vC,
               (dict_find (dict_set W (mood_of e) vW) (mood_of e) = None <->
                dict_find (dict_set C (mood_of e) vC) (mood_of e) = None)).
    { intros vW vC. rewrite !dict_find_set_same. split; discriminate. }
    assert (Hk1 : forall vW vC m,
               dict_find (dict_set W (mood_of e) vW) m = None <->
               dict_find (dict_set C (mood_of e) vC) m = None).
    { intros vW vC m. destruct (String.eqb_spec m (mood_of e)) as [-> | N].
      - apply Hstep.
      - rewrite !dict_find_set_other by assumption. apply Hkeys. }
    unfold dict_mem.
    destruct (dict_find W (mood_of e)) as [w|] eqn:HW.
    + destruct (dict_find C (mood_of e)) as [c|] eqn:HC.
      2: { apply Hkeys in HC. congruence. }
      unfold bind at 1, dict_index at 1, lift. rewrite HW.
      unfold bind at 1, dict_index at 1, lift. rewrite HC.
      destruct (IH total (S i) (dict_set W (mood_of e) (w + fw))
                  (dict_set C (mood_of e) (c + 1)%nat) self Ht
                  (Hk1 _ _) (dict_set_nodup W _ _ Hnd))
        as (W' & C' & Hrun & Hnd' & Hspec).
      exists W', C'. split; [exact Hrun|]. split; [exact Hnd'|].
      apply (vote_post_cons _ _ _ _ _ _ _ _ _ (w + fw) (c + 1)%nat).
      * unfold dict_get. rewrite HW. reflexivity.
      * unfold dict_get. rewrite HC. reflexivity.
      * exact Hspec.
    + assert (HC : dict_find C (mood_of e) = None) by now apply Hkeys.
      destruct (IH total (S i) (dict_set W (mood_of e) fw)
                  (dict_set C (mood_of e) 1%nat) self Ht
                  (Hk1 _ _) (dict_set_nodup W _ _ Hnd))
        as (W' & C' & Hrun & Hnd' & Hspec).
      exists W', C'. split; [exact Hrun|]. split; [exact Hnd'|].
      apply (vote_post_cons _ _ _ _ _ _ _ _ _ fw 1%nat).
      * unfold dict_get. rewrite HW. unfold fw. lra.
      * unfold dict_get. rewrite HC. reflexivity.
      * exact Hspec.
Qed.

Lemma max_by_value_spec (l : list (string * Q)) :
  forall best,
    In (max_by_value best l) (best :: l)
    /\ forall x, In x (best :: l) -> snd x <= snd (max_by_value best l).
Proof.
  induction l as [|y l IH]; intros best; simpl.
  - split; [now left|]. intros x [<- | []]. lra.
  - destruct (IH (if Qgtb (snd y) (snd best) then y else best))
      as [Hin Hmax].
    split.
    + destruct Hin as [E | I].
      * rewrite <- E. destruct (Qgtb (snd y) (snd best)); tauto.
      * tauto.
    + assert (Hb : snd best
                   <= snd (if Qgtb (snd y) (snd best) then y else best)
                   /\ snd y
                      <= snd (if Qgtb (snd y) (snd best) then y else best)).
      { destruct (Qgtb (snd y) (snd best)) eqn:E.
        - apply Qgtb_true in E. lra.
        - apply Qgtb_false in E. lra. }
      pose proof (Hmax _ (or_introl eq_refl)) as H0.
      intros x [<- | [<- | I]].
      * lra.
      * lra.
      * apply Hmax. now right.
Qed.

(** The voter after its read of the ring. *)
Lemma get_stable_mood_unfold (window_seconds now : Q) (self : MoodDetector) :
  get_stable_mood window_seconds now self
  = match within window_seconds now (mood_history self) with
    | [] => (Ok (current_mood self), self)
    | _ :: _ =>
        bind (vote_loop
                (List.length (within window_seconds now (mood_history self)))
                0 (within window_seconds now (mood_history self)) [] [])
          (fun r =>
             match fst r with
             | [] => gets current_mood
             | first :: others =>
                 let best_mood := max_by_value first others in
                 if negb (String.eqb (fst best_mood) "neutral")
                 then
                   c <- dict_index (snd r) (fst best_mood) ;;
                   if (c <? 2)%nat then ret "neutral"
                   else ret (fst best_mood)
                 else ret (fst best_mood)
             end) self
    end.
Proof.
  unfold get_stable_mood. unfold bind at 1. unfold gets at 1.
  now destruct (within window_seconds now (mood_history self)).
Qed.

(** One iteration of the loop, path by path. *)
Lemma vote_loop_cons (total i : nat) (e : entry) (rest : list entry)
    (W : dict Q) (C : dict nat) (self : MoodDetector) :
  vote_loop total i (e :: rest) W C self =
  if Qeq_bool (inject_Z (Z.of_nat total)) 0
  then (Raise ZeroDivisionError, self)
  else
    let fw := final_weight (emotion_intensity self) total i e in
    match dict_find W (mood_of e) with
    | Some w =>
        match dict_find C (mood_of e) with
        | Some c =>
            vote_loop total (S i) rest
              (dict_set W (mood_of e) (w + fw))
              (dict_set C (mood_of e) (c + 1)%nat) self
        | None => (Raise KeyError, self)
        end
    | None =>
        vote_loop total (S i) rest
          (dict_set W (mood_of e) fw) (dict_set C (mood_of e) 1%nat) self
    end.
Proof.
  cbn [vote_loop].
  unfold bind, pydiv, lift, gets, dict_index, dict_mem, final_weight.
  destruct (Qeq_bool _ 0); [reflexivity|].
  destruct (dict_find W (mood_of e)); [|reflexivity].
  now destruct (dict_find C (mood_of e)).
Qed.

(** The loop reads the entries' labels and confidences and the
    intensities, and nothing else. *)
Lemma vote_loop_reads (rest : list entry) :
  forall (rest' : list entry) (total i : nat) (W : dict Q) (C : dict nat)
         (self1 self2 : MoodDetector),
    view rest = view rest' ->
    emotion_intensity self1 = emotion_intensity self2 ->
    exists r,
      vote_loop total i rest W C self1 = (r, self1)
      /\ vote_loop total i rest' W C self2 = (r, self2).
Proof.
  induction rest as [|e rest IH];
    intros [|e' rest'] total i W C self1 self2 Hv Hi;
    try discriminate Hv.
  - eexists. split; reflexivity.
  - injection Hv as Hm Hc Hv.
    rewrite !vote_loop_cons. unfold final_weight.
    rewrite <- Hi, <- Hm, <- Hc.
    destruct (Qeq_bool (inject_Z (Z.of_nat total)) 0).
    { eexists. split; reflexivity. }
    cbv zeta.
    destruct (dict_find W (mood_of e)).
    + destruct (dict_find C (mood_of e)).
      * now apply IH.
      * eexists. split; reflexivity.
    + now apply IH.
Qed.

(** The voter reads the in-window entries' labels and confidences, the
    current mood and the intensities; it returns the detector as it got
    it. *)
Lemma get_stable_mood_reads (w1 now1 w2 now2 : Q)
    (self1 self2 : MoodDetector) :
  view (within w1 now1 (mood_history self1))
  = view (within w2 now2 (mood_history self2)) ->
  current_mood self1 = current_mood self2 ->
  emotion_intensity self1 = emotion_intensity self2 ->
  exists r,
    get_stable_mood w1 now1 self1 = (r, self1)
    /\ get_stable_mood w2 now2 self2 = (r, self2).
Proof.
  intros Hv Hc Hi.
  rewrite !get_stable_mood_unfold.
  set (l1 := within w1 now1 (mood_history self1)) in *.
  set (l2 := within w2 now2 (mood_history self2)) in *.
  assert (Hlen : List.length l1 = List.length l2).
  { apply (f_equal (@List.length _)) in Hv. unfold view in Hv.
    now rewrite !length_map in Hv. }
  destruct (vote_loop_reads l1 l2 (List.length l1) 0 [] [] self1 self2 Hv Hi)
    as (r & H1 & H2).
  rewrite <- Hlen.
  destruct l1 as [|a1 l1], l2 as [|a2 l2]; try discriminate Hv.
  - rewrite Hc. eexists. split; reflexivity.
  - unfold bind at 1 3. rewrite H1, H2.
    destruct r as [[W C] | e]; cbn [fst snd].
    2: { eexists. split; reflexivity. }
    destruct W as [|first others].
    { unfold gets. rewrite Hc. eexists. split; reflexivity. }
    cbv zeta.
    destruct (negb _).
    + unfold bind, dict_index, lift.
      destruct (dict_find C _) as [c|].
      * destruct (c <? 2)%nat; eexists; split; reflexivity.
      * eexists. split; reflexivity.
    + eexists. split; reflexivity.
Qed.

(** C9. The voter is a function of the ring, the current mood, the
    intensities, the window and the clock reading: two detectors that agree
    on the first three get the same answer for the same window and
    reading, whatever their other fields hold; a call leaves the detector
    exactly as it was; and a second call right after the first returns
    what the first did. *)
Theorem stable_mood_pure (window_seconds now : Q)
    (self1 self2 : MoodDetector) :
  mood_history self1 = mood_history self2 ->
  current_mood self1 = current_mood self2 ->
  emotion_intensity self1 = emotion_intensity self2 ->
  fst (get_stable_mood window_seconds now self1)
  = fst (get_stable_mood window_seconds now self2)
  /\ snd (get_stable_mood window_seconds now self1) = self1
  /\ (x <- get_stable_mood window_seconds now ;;
      y <- get_stable_mood window_seconds now ;;
      ret (x, y)) self1
     = (match fst (get_stable_mood window_seconds now self1) with
        | Ok v => Ok (v, v)
        | Raise e => Raise e
        end, self1).
Proof.
  intros Hh Hc Hi.
  destruct (get_stable_mood_reads window_seconds now window_seconds now
              self1 self2) as (r & H1 & H2); try assumption.
  { now rewrite Hh. }
  rewrite H1, H2. cbn [fst snd]. repeat split.
  unfold bind. rewrite H1. destruct r as [v | e]; [|reflexivity].
  rewrite H1. reflexivity.
Qed.

Lemma stable_mood_pure_witness :
  fst (get_stable_mood 15 100
         (set_mood_history [Entry "angry" 0.6 90; Entry "angry" 0.5 95]
            init))
  = fst (get_stable_mood 15 100
           (set_emotion_history [("happy", [0.3])]
              (set_mood_history
                 [Entry "angry" 0.6 90; Entry "angry" 0.5 95] init))).
Proof.
  apply (stable_mood_pure 15 100
           (set_mood_history [Entry "angry" 0.6 90; Entry "angry" 0.5 95]
              init)
           (set_emotion_history [("happy", [0.3])]
              (set_mood_history
                 [Entry "angry" 0.6 90; Entry "angry" 0.5 95] init)));
    reflexivity.
Defined.

(** ** Two angry observations and a single surprise *)

(** The voter's answer, computed on a ring [l] that shows the voter what
    the window of [self] shows it. *)
Lemma stable_mood_of_view (window_seconds now : Q) (self : MoodDetector)
    (l : list entry) (answer : string) :
  emotion_intensity self = emotion_intensity init ->
  view (within window_seconds now (mood_history self)) = view l ->
  within 0 0 l = l ->
  (forall m,
      fst (get_stable_mood 0 0 (set_current m 0 (set_mood_history l init)))
      = Ok answer) ->
  get_stable_mood window_seconds now self = (Ok answer, self).
Proof.
  intros Hi Hv Hl Hans.
  destruct (get_stable_mood_reads window_seconds now 0 0 self
              (set_current (current_mood self) 0 (set_mood_history l init)))
    as (r & H1 & H2).
  - cbn [mood_history set_current set_mood_history]. now rewrite Hl.
  - reflexivity.
  - exact Hi.
  - specialize (Hans (current_mood self)). rewrite H2 in Hans.
    cbn [fst] in Hans. now rewrite H1, Hans.
Qed.

(** C3, the claim as worded, fails: with the surprise observation as the
    newest of the three, surprise occurs once and still the result is not
    angry: it is neutral. *)
Lemma single_spike_flips_to_neutral :
  let self :=
    set_mood_history
      [Entry "angry" 0.6 90; Entry "angry" 0.5 95; Entry "surprise" 0.9 97]
      init in
  let entries := within 15 100 (mood_history self) in
  view entries = [("angry", 0.6); ("angry", 0.5); ("surprise", 0.9)]
  /\ occurrences entries "surprise" = 1%nat
  /\ get_stable_mood 15 100 self = (Ok "neutral", self)
  /\ ~ (fst (get_stable_mood 15 100 self) <> Ok "angry" ->
        accumulated_weight (emotion_intensity self) 3 0 entries "angry"
        < accumulated_weight (emotion_intensity self) 3 0 entries "surprise"
        /\ (2 <= occurrences entries "surprise")%nat).
Proof.
  cbv zeta. repeat split.
  intros H.
  assert (N : fst (get_stable_mood 15 100
                     (set_mood_history
                        [Entry "angry" 0.6 90; Entry "angry" 0.5 95;
                         Entry "surprise" 0.9 97] init)) <> Ok "angry")
    by (vm_compute; discriminate).
  apply H in N. destruct N as [_ N]. vm_compute in N. lia.
Qed.

(** C3, amended. With the default intensities, a window holding exactly two
    angry observations of confidence 0.6 and 0.5, oldest first, gives
    angry.  With a single surprise observation of confidence 0.9 added the
    result is never surprise: it is angry when the surprise observation is
    older than one of the angry ones, and neutral when it is the newest of
    the three, where its weight exceeds angry's and the occurrence guard
    turns the win into neutral. *)
Theorem single_spike_guard (window_seconds now : Q) (self : MoodDetector) :
  emotion_intensity self = emotion_intensity init ->
  let seen := view (within window_seconds now (mood_history self)) in
  (seen = [("angry", 0.6); ("angry", 0.5)] ->
   get_stable_mood window_seconds now self = (Ok "angry", self))
  /\ (seen = [("surprise", 0.9); ("angry", 0.6); ("angry", 0.5)] ->
      get_stable_mood window_seconds now self = (Ok "angry", self))
  /\ (seen = [("angry", 0.6); ("surprise", 0.9); ("angry", 0.5)] ->
      get_stable_mood window_seconds now self = (Ok "angry", self))
  /\ (seen = [("angry", 0.6); ("angry", 0.5); ("surprise", 0.9)] ->
      get_stable_mood window_seconds now self = (Ok "neutral", self)).
Proof.
  intros Hi seen. subst seen.
  repeat split; intros Hv.
  - apply (stable_mood_of_view _ _ _
             [Entry "angry" 0.6 0; Entry "angry" 0.5 0]);
      [exact Hi | exact Hv | reflexivity | intros m; reflexivity].
  - apply (stable_mood_of_view _ _ _
             [Entry "surprise" 0.9 0; Entry "angry" 0.6 0;
              Entry "angry" 0.5 0]);
      [exact Hi | exact Hv | reflexivity | intros m; reflexivity].
  - apply (stable_mood_of_view _ _ _
             [Entry "angry" 0.6 0; Entry "surprise" 0.9 0;
              Entry "angry" 0.5 0]);
      [exact Hi | exact Hv | reflexivity | intros m; reflexivity].
  - apply (stable_mood_of_view _ _ _
             [Entry "angry" 0.6 0; Entry "angry" 0.5 0;
              Entry "surprise" 0.9 0]);
      [exact Hi | exact Hv | reflexivity | intros m; reflexivity].
Qed.

Lemma single_spike_guard_witness :
  get_stable_mood 15 100
    (set_mood_history
       [Entry "happy" 0.9 10; Entry "angry" 0.6 90; Entry "angry" 0.5 95]
       init)
  = (Ok "angry",
     set_mood_history
       [Entry "happy" 0.9 10; Entry "angry" 0.6 90; Entry "angry" 0.5 95]
       init)
  /\ get_stable_mood 15 100
       (set_mood_history
          [Entry "angry" 0.6 90; Entry "angry" 0.5 95;
           Entry "surprise" 0.9 97] init)
     = (Ok "neutral",
        set_mood_history
          [Entry "angry" 0.6 90; Entry "angry" 0.5 95;
           Entry "surprise" 0.9 97] init).
Proof.
  split.
  - apply (proj1 (single_spike_guard 15 100
                    (set_mood_history
                       [Entry "happy" 0.9 10; Entry "angry" 0.6 90;
                        Entry "angry" 0.5 95] init) eq_refl)).
    reflexivity.
  - apply (proj2 (proj2 (proj2 (single_spike_guard 15 100
                    (set_mood_history
                       [Entry "angry" 0.6 90; Entry "angry" 0.5 95;
                        Entry "surprise" 0.9 97] init) eq_refl)))).
    reflexivity.
Defined.

(** ** Sums *)

Lemma pysum_from (l : list Q) (a : Q) : fold_left Qplus l a == a + pysum l.
Proof.
  unfold pysum. revert a. induction l as [|x l IH]; intros a; simpl.
  - ring.
  - rewrite (IH (a + x)), (IH (0 + x)). ring.
Qed.

Lemma pysum_cons (x : Q) (l : list Q) : pysum (x :: l) == x + pysum l.
Proof. unfold pysum at 1. simpl. rewrite pysum_from. ring. Qed.

Lemma pysum_app (a b : list Q) : pysum (a ++ b) == pysum a + pysum b.
Proof. unfold pysum at 1. rewrite fold_left_app. apply pysum_from. Qed.

Lemma pysum_rev (l : list Q) : pysum (rev l) == pysum l.
Proof.
  induction l as [|x l IH]; simpl.
  - reflexivity.
  - rewrite pysum_app, IH, !pysum_cons. unfold pysum. simpl. ring.
Qed.

(** ** The emotion smoother *)

Lemma dict_set_set {V} (d : dict V) (k : string) (v v' : V) :
  dict_set (dict_set d k v) k v' = dict_set d k v'.
Proof.
  induction d as [|[k0 v0] d IH]; simpl.
  - now rewrite String.eqb_refl.
  - destruct (String.eqb k k0) eqn:E; simpl; rewrite E.
    + reflexivity.
    + now rewrite IH.
Qed.

Lemma push_cap {A} (n : nat) (l : list A) (x : A) :
  (List.length l <= n)%nat ->
  (if (n <? List.length (l ++ [x]))%nat then tl (l ++ [x]) else l ++ [x])
  = last_n n (l ++ [x]).
Proof.
  intros H.
  assert (Hlen : List.length (l ++ [x]) = S (List.length l))
    by (rewrite length_app; simpl; lia).
  destruct (n <? List.length (l ++ [x]))%nat eqn:E.
  - apply Nat.ltb_lt in E. unfold last_n.
    replace (List.length (l ++ [x]) - n)%nat with 1%nat by lia.
    now destruct (l ++ [x]).
  - apply Nat.ltb_ge in E. now rewrite last_n_all.
Qed.

(** The loop body of the smoother, path by path. *)
Lemma smooth_one_paths (emotion : string) (score : Q) (self : MoodDetector) :
  smooth_one emotion score self =
  match dict_find (emotion_history self) emotion with
  | None => (Ok score, self)
  | Some old =>
      let pushed := old ++ [score] in
      let hist :=
        if (5 <? List.length pushed)%nat then tl pushed else pushed in
      let self' :=
        set_emotion_history (dict_set (emotion_history self) emotion hist)
          self in
      if (1 <? List.length hist)%nat then
        let weights := rev (powers (emotion_smoothing self)
                              (List.length hist)) in
        (if Qeq_bool (pysum weights) 0 then Raise ZeroDivisionError
         else Ok (dot weights hist / pysum weights), self')
      else (Ok score, self')
  end.
Proof.
  unfold smooth_one, dict_mem.
  unfold bind at 1, gets at 1.
  destruct (dict_find (emotion_history self) emotion) as [old|] eqn:Hold;
    [|reflexivity].
  unfold bind at 1, dict_index at 1, lift. rewrite Hold.
  unfold bind at 1, modify at 1.
  unfold bind at 1, gets at 1. cbn [emotion_history set_emotion_history].
  unfold bind at 1, dict_index at 1, lift. rewrite dict_find_set_same.
  cbv zeta.
  destruct (5 <? List.length (old ++ [score]))%nat.
  - unfold bind at 1, modify at 1.
    unfold bind at 1, gets at 1. cbn [emotion_history set_emotion_history].
    unfold bind at 1, dict_index at 1, lift.
    rewrite dict_find_set_same, dict_set_set.
    destruct (1 <? List.length (tl (old ++ [score])))%nat; [|reflexivity].
    unfold bind, gets, pydiv, lift.
    cbn [emotion_smoothing set_emotion_history].
    now destruct (Qeq_bool _ 0).
  - unfold bind at 1, ret at 1.
    unfold bind at 1, gets at 1. cbn [emotion_history set_emotion_history].
    unfold bind at 1, dict_index at 1, lift.
    rewrite dict_find_set_same.
    destruct (1 <? List.length (old ++ [score]))%nat; [|reflexivity].
    unfold bind, gets, pydiv, lift.
    cbn [emotion_smoothing set_emotion_history].
    now destruct (Qeq_bool _ 0).
Qed.

(** ** The mood decision loop *)

Lemma get_stable_mood_pure (window_seconds now : Q) (self : MoodDetector) :
  snd (get_stable_mood window_seconds now self) = self.
Proof.
  destruct (get_stable_mood_reads window_seconds now window_seconds now
              self self eq_refl eq_refl eq_refl) as (r & H & _).
  now rewrite H.
Qed.

(** Whether the loop switches, given the stable mood. *)
Lemma monitor_tick_paths (t_vote current_time : Q) (w : world) :
  monitor_tick t_vote current_time w =
  if auto_play_enabled (state w) then
    match fst (get_stable_mood (inject_Z (mood_stability_window (state w)))
                 t_vote (detector w)) with
    | Raise _ => (w, None)
    | Ok stable_mood =>
        if Qgtb (current_time - last_mood_change (state w))
                (inject_Z (mood_change_cooldown (state w)))
           && negb (String.eqb stable_mood
                      (MusicManager.current_mood (manager w)))
           && (Qgtb (mood_confidence (detector w)) 0.4
               || str_in stable_mood ["happy"; "sad"; "angry"]
                  && Qgtb (mood_confidence (detector w)) 0.3)
        then
          (mkWorld (detector w)
             (set_last_mood_change current_time (state w))
             (MusicManager.play_mood_music stable_mood (manager w)),
           Some (mkSwitch current_time (mood_change_cooldown (state w))
                   stable_mood))
        else (w, None)
    end
  else (w, None).
Proof.
  unfold monitor_tick.
  destruct (auto_play_enabled (state w)); [|reflexivity].
  pose proof (get_stable_mood_pure
                (inject_Z (mood_stability_window (state w))) t_vote
                (detector w)) as Hpure.
  destruct (get_stable_mood _ t_vote (detector w)) as [[stable | e] det];
    simpl in Hpure; subst det; cbn [fst].
  - unfold get_current_mood, bind, gets, ret. cbn [confidence_of].
    destruct w as [det st mgr]. cbn [detector state manager].
    destruct (Qgtb (current_time - last_mood_change st) _); [|reflexivity].
    destruct (negb _); [|reflexivity].
    destruct (Qgtb (mood_confidence det) 0.4); [reflexivity|].
    cbn [orb andb].
    now destruct (str_in stable _ && Qgtb (mood_confidence det) 0.3).
  - now destruct w.
Qed.

(** C8, the claim as worded, fails: with automatic playing switched off,
    a tick after the cooldown with a stable mood that differs from the
    served one and a confidence above 0.4 switches nothing. *)
Lemma auto_play_off_never_switches :
  let w :=
    mkWorld
      (set_current "happy" 0.9
         (set_mood_history [Entry "happy" 0.9 98; Entry "happy" 0.9 99]
            init))
      (mkAppState true false 0 8 12)
      (MusicManager.mk "neutral" [] [] 0) in
  inject_Z (mood_change_cooldown (state w))
  < 100 - last_mood_change (state w)
  /\ fst (get_stable_mood (inject_Z (mood_stability_window (state w))) 100
            (detector w)) = Ok "happy"
  /\ "happy" <> MusicManager.current_mood (manager w)
  /\ 0.4 < mood_confidence (detector w)
  /\ snd (monitor_tick 100 100 w) = None.
Proof.
  cbv zeta. split; [reflexivity|]. split; [reflexivity|].
  split; [discriminate|]. split; reflexivity.
Qed.

(** C8, amended. On a tick of the loop with automatic playing enabled and
    the cooldown elapsed, nothing is switched when the stable mood equals
    the served mood; when they differ, the loop switches to the stable mood
    if and only if the confidence c of the current mood is above 0.4, or
    the stable mood is happy, sad or angry and c is above 0.3. *)
Theorem switch_gate (t_vote current_time : Q) (w : world)
    (stable_mood : string) :
  auto_play_enabled (state w) = true ->
  inject_Z (mood_change_cooldown (state w))
  < current_time - last_mood_change (state w) ->
  fst (get_stable_mood (inject_Z (mood_stability_window (state w))) t_vote
         (detector w)) = Ok stable_mood ->
  let c := mood_confidence (detector w) in
  (stable_mood = MusicManager.current_mood (manager w) ->
   snd (monitor_tick t_vote current_time w) = None)
  /\ (stable_mood <> MusicManager.current_mood (manager w) ->
      (0.4 < c \/ In stable_mood ["happy"; "sad"; "angry"] /\ 0.3 < c ->
       snd (monitor_tick t_vote current_time w)
       = Some (mkSwitch current_time (mood_change_cooldown (state w))
                 stable_mood))
      /\ (~ (0.4 < c \/ In stable_mood ["happy"; "sad"; "angry"] /\ 0.3 < c)
          -> snd (monitor_tick t_vote current_time w) = None)).
Proof.
  intros Hauto Hcd Hstable c.
  rewrite monitor_tick_paths, Hauto, Hstable.
  apply Qgtb_true in Hcd. rewrite Hcd. cbn [andb].
  split.
  - intros <-. now rewrite String.eqb_refl.
  - intros Hne. apply String.eqb_neq in Hne. rewrite Hne. cbn [negb andb].
    fold c.
    destruct (Qgtb c 0.4) eqn:E4; cbn [orb].
    + apply Qgtb_true in E4. split; [reflexivity|].
      intros N. exfalso. apply N. now left.
    + apply Qgtb_false in E4.
      destruct (str_in stable_mood ["happy"; "sad"; "angry"]) eqn:Ein;
        cbn [andb].
      * apply str_in_true in Ein.
        destruct (Qgtb c 0.3) eqn:E3.
        -- apply Qgtb_true in E3. split; [reflexivity|].
           intros N. exfalso. apply N. right. now split.
        -- apply Qgtb_false in E3. split; [|reflexivity].
           intros [H | [_ H]]; lra.
      * split; [|reflexivity].
        intros [H | [H _]]; [lra|].
        apply str_in_true in H. congruence.
Qed.

Lemma switch_gate_witness :
  snd (monitor_tick 100 100
         (mkWorld
            (set_current "happy" 0.35
               (set_mood_history
                  [Entry "happy" 0.9 98; Entry "happy" 0.35 99] init))
            (mkAppState true true 0 8 12)
            (MusicManager.mk "neutral" [] [] 0)))
  = Some (mkSwitch 100 8 "happy").
Proof.
  apply (switch_gate 100 100
           (mkWorld
              (set_current "happy" 0.35
                 (set_mood_history
                    [Entry "happy" 0.9 98; Entry "happy" 0.35 99] init))
              (mkAppState true true 0 8 12)
              (MusicManager.mk "neutral" [] [] 0))
           "happy").
  - reflexivity.
  - reflexivity.
  - reflexivity.
  - discriminate.
  - right. split; [simpl; tauto | reflexivity].
Defined.

Lemma monitor_tick_switch (t_vote current_time : Q) (w w1 : world)
    (s : switch) :
  monitor_tick t_vote current_time w = (w1, Some s) ->
  switch_time s = current_time
  /\ switch_cooldown s = mood_change_cooldown (state w)
  /\ inject_Z (mood_change_cooldown (state w))
     < current_time - last_mood_change (state w)
  /\ state w1 = set_last_mood_change current_time (state w).
Proof.
  rewrite monitor_tick_paths.
  destruct (auto_play_enabled (state w)); [|discriminate].
  destruct (fst (get_stable_mood _ t_vote (detector w))) as [stable | e];
    [|discriminate].
  destruct (Qgtb (current_time - last_mood_change (state w)) _) eqn:Hcd;
    [|discriminate].
  cbn [andb]. destruct (negb _ && _); [|discriminate].
  intros [= <- <-]. apply Qgtb_true in Hcd. repeat split. exact Hcd.
Qed.

Lemma monitor_tick_quiet (t_vote current_time : Q) (w w1 : world) :
  monitor_tick t_vote current_time w = (w1, None) -> w1 = w.
Proof.
  rewrite monitor_tick_paths.
  destruct (auto_play_enabled (state w)); [|congruence].
  destruct (fst (get_stable_mood _ t_vote (detector w))) as [stable | e];
    [|congruence].
  destruct (_ && _ && _); [discriminate | congruence].
Qed.

Lemma step_switch (ev : event) (w w1 : world) (s : switch) :
  step ev w = (w1, Some s) ->
  In (switch_time s) (tick_times [ev])
  /\ inject_Z (switch_cooldown s)
     < switch_time s - last_mood_change (state w)
  /\ last_mood_change (state w1) = switch_time s.
Proof.
  destruct ev as [tv ct | now scores | thr g cd win | | mood]; simpl;
    try discriminate.
  intros H. apply monitor_tick_switch in H.
  destruct H as (Ht & Hc & Hlt & Hst).
  rewrite Ht, Hc, Hst. simpl. tauto.
Qed.

Lemma step_quiet (ev : event) (w w1 : world) :
  step ev w = (w1, None) ->
  last_mood_change (state w1) = last_mood_change (state w).
Proof.
  destruct ev as [tv ct | now scores | thr g cd win | | mood]; simpl.
  - intros H. apply monitor_tick_quiet in H. now subst.
  - now intros [= <-].
  - now intros [= <-].
  - now intros [= <-].
  - now intros [= <-].
Qed.

Lemma tick_times_cons (ev : event) (evs : list event) :
  tick_times (ev :: evs) = tick_times [ev] ++ tick_times evs.
Proof. now destruct ev. Qed.

(** Every switch of a run comes more than its cooldown after any instant
    that is no later than the last switch before the run and no later than
    the ticks of the run. *)
Lemma run_after (evs : list event) :
  forall (w : world) (x : Q),
    x <= last_mood_change (state w) ->
    Forall (fun t => x <= t) (tick_times evs) ->
    Forall (fun s => inject_Z (switch_cooldown s) < switch_time s - x)
      (snd (run evs w)).
Proof.
  induction evs as [|ev evs IH]; intros w x Hx Hticks; simpl.
  - constructor.
  - rewrite tick_times_cons in Hticks. apply Forall_app in Hticks.
    destruct Hticks as [Hev Hticks].
    destruct (step ev w) as [w1 [s|]] eqn:Hstep.
    + apply step_switch in Hstep. destruct Hstep as (Hin & Hlt & Hlast).
      specialize (IH w1 x).
      destruct (run evs w1) as [w2 log]. simpl in *.
      constructor.
      * lra.
      * apply IH; [|assumption].
        rewrite Hlast. rewrite Forall_forall in Hev. now apply Hev.
    + apply step_quiet in Hstep.
      specialize (IH w1 x).
      destruct (run evs w1) as [w2 log]. simpl in *.
      apply IH; [|assumption]. now rewrite Hstep.
Qed.

Lemma run_frames (l : list (Q * dict Q)) :
  forall (evs : list event) (w : world),
    exists det,
      run (frames l ++ evs) w
      = run evs (mkWorld det (state w) (manager w)).
Proof.
  induction l as [|f l IH]; intros evs w.
  - exists (detector w). now destruct w.
  - simpl.
    destruct (IH evs (mkWorld (detection_step (fst f) (snd f) (detector w))
                        (state w) (manager w))) as (det & Hrun).
    exists det. rewrite Hrun. cbn [state manager].
    now destruct (run evs _).
Qed.

(** C7. In a run of the loop under a clock that does not go back, any two
    switches are apart by more than the cooldown in force at the later one:
    after a switch at time t no tick with now - t at most the cooldown
    switches, however many ticks there are and whatever else happens in
    between.  In particular, under a cooldown of 8 seconds, when a tick
    switches and the next tick comes 3 seconds later, with any frames
    handled in between, the two ticks make exactly one switch call. *)
Theorem cooldown_between_switches :
  (forall (evs : list event) (w : world),
      StronglySorted Qle (tick_times evs) ->
      ForallOrdPairs apart (snd (run evs w)))
  /\ (forall (w w1 : world) (t_vote1 t_vote2 t : Q) (s : switch)
             (between : list (Q * dict Q)),
         mood_change_cooldown (state w) = 8%Z ->
         monitor_tick t_vote1 t w = (w1, Some s) ->
         snd (run (Tick t_vote1 t :: frames between ++ [Tick t_vote2 (t + 3)])
                w)
         = [s]).
Proof.
  split.
  - induction evs as [|ev evs IH]; intros w Hsorted; simpl.
    + constructor.
    + rewrite tick_times_cons in Hsorted.
      destruct (step ev w) as [w1 [s|]] eqn:Hstep.
      * apply step_switch in Hstep. destruct Hstep as (Hin & _ & Hlast).
        simpl in Hin. destruct ev; simpl in Hin; try contradiction.
        destruct Hin as [Hin | []]. simpl in Hsorted.
        inversion Hsorted as [|? ? Hs Hall]; subst.
        pose proof (run_after evs w1 (switch_time s)) as Hafter.
        specialize (IH w1 Hs).
        destruct (run evs w1) as [w2 log]. simpl in *.
        constructor; [|exact IH].
        apply Hafter; [rewrite Hlast; lra|].
        exact Hall.
      * assert (Hs : StronglySorted Qle (tick_times evs)).
        { destruct ev; simpl in Hsorted; try assumption.
          now inversion Hsorted. }
        specialize (IH w1 Hs).
        destruct (run evs w1) as [w2 log]. exact IH.
  - intros w w1 tv1 tv2 t s between Hcd Htick.
    cbn [run step]. rewrite Htick.
    destruct (run_frames between [Tick tv2 (t + 3)] w1) as (det & Hrun).
    rewrite Hrun. cbn [run step state manager].
    apply monitor_tick_switch in Htick.
    destruct Htick as (_ & _ & _ & Hst).
    rewrite monitor_tick_paths. cbn [state manager detector].
    rewrite Hst. cbn [auto_play_enabled last_mood_change
                        mood_change_cooldown mood_stability_window
                        set_last_mood_change].
    rewrite Hcd.
    assert (Hq : Qgtb (t + 3 - t) (inject_Z 8) = false).
    { apply Qgtb_false. change (inject_Z 8) with 8. lra. }
    rewrite Hq. cbn [andb].
    destruct (auto_play_enabled (state w)); [|reflexivity].
    now destruct (fst (get_stable_mood _ tv2 det)).
Qed.

Lemma cooldown_between_switches_witness :
  ForallOrdPairs apart
    (snd (run [Tick 100 100; Frame 101 [("sad", 0.9)]; Tick 103 103;
               Frame 104 [("sad", 0.9)]; Tick 109 109]
            (mkWorld
               (set_current "happy" 0.9
                  (set_mood_history
                     [Entry "happy" 0.9 98; Entry "happy" 0.9 99] init))
               (mkAppState true true 0 8 12)
               (MusicManager.mk "neutral" [] [] 0))))
  /\ snd (run (Tick 100 100
               :: frames [(101, [("sad", 0.9)]); (102, [("sad", 0.9)])]
               ++ [Tick 103 (100 + 3)])
            (mkWorld
               (set_current "happy" 0.9
                  (set_mood_history
                     [Entry "happy" 0.9 98; Entry "happy" 0.9 99] init))
               (mkAppState true true 0 8 12)
               (MusicManager.mk "neutral" [] [] 0)))
     = [mkSwitch 100 8 "happy"].
Proof.
  split.
  - apply (proj1 cooldown_between_switches).
    simpl. repeat constructor; vm_compute; discriminate.
  - eapply (proj2 cooldown_between_switches).
    + reflexivity.
    + reflexivity.
Defined.

(** ** Scenarios *)

(** Three frames that show happy at 0.9 to a fresh detector: the first
    passes through the smoother unchanged, the average of equal samples is
    the sample, the selector gives (happy, 0.9) and the gate lets it
    through on the 0.7 bypass each time. *)
Example three_happy_frames :
  let self :=
    detection_step 3 [("happy", 0.9)]
      (detection_step 2 [("happy", 0.9)]
         (detection_step 1 [("happy", 0.9)] init)) in
  current_mood self = "happy"
  /\ mood_confidence self == 0.9
  /\ map mood_of (mood_history self) = ["happy"; "happy"; "happy"]
  /\ dict_find (emotion_history self) "happy" = Some [0.9; 0.9; 0.9].
Proof. cbv zeta. repeat split. Qed.

(** A sad candidate of confidence 0.2 on an empty ring is turned down, and
    so is the frame that produces it; the same candidate is let through
    once sad is among the last two entries. *)
Example faint_sad :
  _is_mood_stable "sad" 0.2 init = (Ok false, init)
  /\ fst (detect_frame 1 [("sad", 0.2); ("happy", 0.05)] init)
     = Ok GateRejected
  /\ mood_state (detection_step 1 [("sad", 0.2); ("happy", 0.05)] init)
     = mood_state init
  /\ fst (_is_mood_stable "sad" 0.2
            (set_mood_history [Entry "sad" 0.3 1; Entry "happy" 0.8 2] init))
     = Ok true.
Proof. repeat split. Qed.

(** Two appends, as in the repository's test of the history. *)
Example two_appends :
  map mood_of
    (mood_history (appends [Entry "happy" 0.8 1; Entry "sad" 0.6 2] init))
  = ["happy"; "sad"].
Proof. reflexivity. Qed.

(** A category without songs falls back to neutral. *)
Example fallback_to_neutral :
  MusicManager.current_mood
    (MusicManager.play_mood_music "sad"
       (MusicManager.mk "happy" [("sad", []); ("neutral", ["calm.mp3"])]
          ["joy.mp3"] 0))
  = "neutral".
Proof. reflexivity. Qed.

(** * Further properties of the code *)

(** ** The gate: monotone, bounded, and easier after an acceptance *)

(** Case analysis on the comparisons of the goal, as inequalities. *)
Ltac q_cases :=
  repeat match goal with
         | |- context [Qgtb ?a ?b] => destruct (Qgtb a b) eqn:?
         end;
  repeat match goal with
         | H : Qgtb _ _ = true |- _ => apply Qgtb_true in H
         | H : Qgtb _ _ = false |- _ => apply Qgtb_false in H
         end.

(** Case analysis on the ring's part in the rules. *)
Ltac ring_cases :=
  repeat match goal with
         | |- context [str_in ?x ?l] => destruct (str_in x l)
         end.

Lemma accept_rules_monotone (m : string) (c c' : Q) (h : list entry) :
  c <= c' -> accept_rules m c h = true -> accept_rules m c' h = true.
Proof.
  intros Hle. unfold accept_rules.
  destruct (String.eqb m "sad"); ring_cases; q_cases; simpl; intros H;
    try reflexivity; try discriminate H; lra.
Qed.

(** X1. The gate is monotone in the confidence: a candidate accepted at
    one confidence is accepted at any higher confidence, against the same
    ring. *)
Theorem gate_monotone (new_mood : string) (c c' : Q) (self : MoodDetector) :
  c <= c' ->
  fst (_is_mood_stable new_mood c self) = Ok true ->
  fst (_is_mood_stable new_mood c' self) = Ok true.
Proof.
  intros Hle. rewrite !gate_run. cbn [fst]. intros [= H].
  now rewrite (accept_rules_monotone new_mood c c' _ Hle H).
Qed.

Lemma gate_monotone_witness :
  fst (_is_mood_stable "fear" 0.6 init) = Ok true.
Proof.
  apply (gate_monotone "fear" 0.55 0.6 init).
  - vm_compute. discriminate.
  - reflexivity.
Defined.

(** X2. Whatever the ring holds, the gate accepts nothing at a confidence
    of 0.15 or less, accepts nothing but sad at 0.3 or less, and accepts
    everything above 0.7. *)
Theorem gate_bounds (new_mood : string) (c : Q) (self : MoodDetector) :
  (fst (_is_mood_stable new_mood c self) = Ok true -> 0.15 < c)
  /\ (fst (_is_mood_stable new_mood c self) = Ok true ->
      new_mood <> "sad" -> 0.3 < c)
  /\ (0.7 < c -> fst (_is_mood_stable new_mood c self) = Ok true).
Proof.
  rewrite gate_run. cbn [fst]. unfold accept_rules.
  split; [|split].
  - intros [= H]. revert H.
    destruct (String.eqb new_mood "sad"); ring_cases; q_cases; simpl;
      intros H; try discriminate H; lra.
  - intros [= H] Hns. apply String.eqb_neq in Hns. rewrite Hns in H.
    revert H. ring_cases; q_cases; simpl; intros H;
      try discriminate H; lra.
  - intros Hc. f_equal.
    destruct (String.eqb new_mood "sad"); ring_cases; q_cases; simpl;
      try reflexivity; lra.
Qed.

Lemma gate_bounds_witness :
  0.15 < 0.2
  /\ fst (_is_mood_stable "happy" 0.8 init) = Ok true.
Proof.
  split.
  - apply (proj1 (gate_bounds "sad" 0.2
                    (set_mood_history [Entry "sad" 0.3 1] init))).
    reflexivity.
  - apply (proj2 (proj2 (gate_bounds "happy" 0.8 init))).
    reflexivity.
Defined.

Lemma in_last_n {A} (k : nat) (pre : list A) (x : A) :
  (1 <= k)%nat -> In x (last_n k (pre ++ [x])).
Proof.
  intros Hk. unfold last_n. rewrite length_app. simpl.
  rewrite skipn_app.
  replace (List.length pre + 1 - k - List.length pre)%nat with 0%nat by lia.
  apply in_or_app. right. now left.
Qed.

Lemma update_mood_history_newest (now : Q) (mood : string) (confidence : Q)
    (self : MoodDetector) :
  exists pre,
    mood_history (snd (_update_mood_history now mood confidence self))
    = pre ++ [Entry mood confidence now].
Proof.
  unfold _update_mood_history, bind, modify, gets, ret. simpl.
  destruct (50 <? List.length (mood_history self ++ [_]))%nat eqn:E; simpl.
  - apply Nat.ltb_lt in E. rewrite length_app in E. simpl in E.
    destruct (mood_history self) as [|e0 h].
    + simpl in E. lia.
    + exists h. reflexivity.
  - now exists (mood_history self).
Qed.

(** X3. Acceptance makes the next one easier: right after a mood has been
    appended to the ring, whatever the ring held, the gate accepts the same
    mood at any confidence above 0.3, and sad at any confidence above
    0.15. *)
Theorem gate_after_append (now : Q) (mood : string) (confidence c : Q)
    (self : MoodDetector) :
  let self' := snd (_update_mood_history now mood confidence self) in
  (0.3 < c -> fst (_is_mood_stable mood c self') = Ok true)
  /\ (mood = "sad" -> 0.15 < c ->
      fst (_is_mood_stable mood c self') = Ok true).
Proof.
  intros self'.
  destruct (update_mood_history_newest now mood confidence self)
    as (pre & Hpre).
  fold self' in Hpre.
  assert (H3 : str_in mood (map mood_of (last_n 3 (mood_history self')))
               = true).
  { apply str_in_true. rewrite Hpre.
    apply (in_map mood_of _ (Entry mood confidence now)).
    apply in_last_n. lia. }
  assert (H2 : str_in mood (map mood_of (last_n 2 (mood_history self')))
               = true).
  { apply str_in_true. rewrite Hpre.
    apply (in_map mood_of _ (Entry mood confidence now)).
    apply in_last_n. lia. }
  rewrite gate_run. cbn [fst]. unfold accept_rules. rewrite H3.
  split.
  - intros Hc. f_equal.
    destruct (String.eqb_spec mood "sad") as [-> | N].
    + rewrite H2. q_cases; simpl; try reflexivity; lra.
    + q_cases; simpl; try reflexivity; lra.
  - intros -> Hc. f_equal. rewrite H2. simpl.
    q_cases; simpl; try reflexivity; lra.
Qed.

Lemma gate_after_append_witness :
  fst (_is_mood_stable "fear" 0.35
         (snd (_update_mood_history 7 "fear" 0.8 init))) = Ok true.
Proof.
  apply (proj1 (gate_after_append 7 "fear" 0.8 0.35 init)).
  reflexivity.
Defined.

(** ** Sensitivity of the sad emotion *)

Lemma pymax_spec (a b : Q) : a <= pymax a b /\ b <= pymax a b
                             /\ (pymax a b = a \/ pymax a b = b).
Proof.
  unfold pymax. destruct (Qgtb b a) eqn:E.
  - apply Qgtb_true in E. repeat split; try lra. now right.
  - apply Qgtb_false in E. repeat split; try lra. now left.
Qed.

Lemma pymin_spec (a b : Q) : pymin a b <= a /\ pymin a b <= b
                             /\ (pymin a b = a \/ pymin a b = b).
Proof.
  unfold pymin. destruct (Qltb b a) eqn:E.
  - apply Qltb_true in E. repeat split; try lra. now right.
  - apply Qltb_false in E. repeat split; try lra. now left.
Qed.

(** The update, path by path. *)
Lemma update_sad_sensitivity_paths (f : Q) (self : MoodDetector) :
  update_sad_sensitivity f self =
  if Qeq_bool f 0 then (Raise ZeroDivisionError, self)
  else
    (Ok tt,
     set_emotion_intensity
       (dict_set (emotion_intensity self) "sad" (pymin 2.0 (1.2 * f)))
       (set_emotion_thresholds
          (dict_set (emotion_thresholds self) "sad" (pymax 0.1 (0.15 / f)))
          self)).
Proof.
  unfold update_sad_sensitivity, bind, pydiv, lift, gets, modify.
  now destruct (Qeq_bool f 0).
Qed.

(** X4. For a factor other than 0 the update returns, leaves the sad
    threshold at 0.1 or more and the sad intensity at 2.0 or less, and
    touches nothing else: the thresholds and intensities of the other
    labels, the current mood, the ring, the smoothing histories and the
    other parameters stay as they were. *)
Theorem sad_sensitivity_bounds (f : Q) (self : MoodDetector) :
  ~ f == 0 ->
  exists self',
    update_sad_sensitivity f self = (Ok tt, self')
    /\ 0.1 <= dict_get (emotion_thresholds self') "sad" 0
    /\ dict_get (emotion_intensity self') "sad" 0 <= 2.0
    /\ (forall k, k <> "sad" ->
          dict_find (emotion_thresholds self') k
          = dict_find (emotion_thresholds self) k
          /\ dict_find (emotion_intensity self') k
             = dict_find (emotion_intensity self) k)
    /\ mood_state self' = mood_state self
    /\ emotion_history self' = emotion_history self
    /\ (confidence_threshold self', emotion_smoothing self',
        mood_mapping self')
       = (confidence_threshold self, emotion_smoothing self,
          mood_mapping self).
Proof.
  intros Hf. rewrite update_sad_sensitivity_paths.
  destruct (Qeq_bool f 0) eqn:E.
  { apply Qeq_bool_eq in E. contradiction. }
  eexists. split; [reflexivity|].
  cbn [emotion_thresholds emotion_intensity set_emotion_intensity
         set_emotion_thresholds].
  rewrite !dict_get_set_same.
  split; [apply pymax_spec|]. split; [apply pymin_spec|].
  split; [|repeat split].
  intros k Hk. now rewrite !dict_find_set_other.
Qed.

Lemma sad_sensitivity_bounds_witness :
  exists self',
    update_sad_sensitivity 2 init = (Ok tt, self')
    /\ 0.1 <= dict_get (emotion_thresholds self') "sad" 0
    /\ dict_get (emotion_intensity self') "sad" 0 <= 2.0
    /\ (forall k, k <> "sad" ->
          dict_find (emotion_thresholds self') k
          = dict_find (emotion_thresholds init) k
          /\ dict_find (emotion_intensity self') k
             = dict_find (emotion_intensity init) k)
    /\ mood_state self' = mood_state init
    /\ emotion_history self' = emotion_history init
    /\ (confidence_threshold self', emotion_smoothing self',
        mood_mapping self')
       = (confidence_threshold init, emotion_smoothing init,
          mood_mapping init).
Proof.
  apply (sad_sensitivity_bounds 2 init). vm_compute. discriminate.
Defined.

(** X5. A factor of 0 makes the update raise ZeroDivisionError before it
    has written anything.  The route never gets there: it clamps the
    sensitivity into 0.5 .. 3.0, always succeeds, and leaves the sad
    threshold within 0.1 .. 0.3 and the sad intensity within 0.6 .. 2.0. *)
Theorem sad_sensitivity_route (sensitivity : Q) (self : MoodDetector) :
  (sensitivity == 0 ->
   update_sad_sensitivity sensitivity self = (Raise ZeroDivisionError, self))
  /\ exists s self',
       set_sad_sensitivity sensitivity self = (Some s, self')
       /\ 0.5 <= s <= 3.0
       /\ (0.5 <= sensitivity <= 3.0 -> s == sensitivity)
       /\ 0.1 <= dict_get (emotion_thresholds self') "sad" 0 <= 0.3
       /\ 0.6 <= dict_get (emotion_intensity self') "sad" 0 <= 2.0.
Proof.
  split.
  - intros H0. rewrite update_sad_sensitivity_paths.
    apply Qeq_bool_iff in H0. now rewrite H0.
  - unfold set_sad_sensitivity. rewrite update_sad_sensitivity_paths.
    set (s := pymax 0.5 (pymin 3.0 sensitivity)).
    assert (Hs : 0.5 <= s <= 3.0).
    { unfold s. destruct (pymax_spec 0.5 (pymin 3.0 sensitivity))
        as (H1 & H2 & [H3 | H3]); rewrite H3 in *.
      - lra.
      - destruct (pymin_spec 3.0 sensitivity) as (H4 & _). lra. }
    destruct (Qeq_bool s 0) eqn:E.
    { apply Qeq_bool_eq in E. lra. }
    exists s. eexists. split; [reflexivity|]. split; [exact Hs|].
    split.
    { intros [Hlo Hhi]. unfold s, pymax, pymin.
      destruct (Qltb sensitivity 3.0) eqn:E1.
      - destruct (Qgtb sensitivity 0.5) eqn:E2; [reflexivity|].
        apply Qgtb_false in E2. lra.
      - apply Qltb_false in E1.
        destruct (Qgtb 3.0 0.5) eqn:E3; [lra | discriminate E3]. }
    cbn [emotion_thresholds emotion_intensity set_emotion_intensity
           set_emotion_thresholds].
    rewrite !dict_get_set_same.
    assert (Hq : 0.05 <= 0.15 / s <= 0.3).
    { split.
      - apply Qle_shift_div_l; lra.
      - apply Qle_shift_div_r; lra. }
    split.
    + destruct (pymax_spec 0.1 (0.15 / s)) as (H1 & H2 & [H3 | H3]);
        rewrite H3 in *; lra.
    + destruct (pymin_spec 2.0 (1.2 * s)) as (H1 & H2 & [H3 | H3]);
        rewrite H3 in *; lra.
Qed.

Lemma sad_sensitivity_route_witness :
  update_sad_sensitivity 0 init = (Raise ZeroDivisionError, init)
  /\ exists s self',
       set_sad_sensitivity 0 init = (Some s, self')
       /\ 0.5 <= s <= 3.0
       /\ (0.5 <= 0 <= 3.0 -> s == 0)
       /\ 0.1 <= dict_get (emotion_thresholds self') "sad" 0 <= 0.3
       /\ 0.6 <= dict_get (emotion_intensity self') "sad" 0 <= 2.0.
Proof.
  split.
  - apply (proj1 (sad_sensitivity_route 0 init)). reflexivity.
  - apply (proj2 (sad_sensitivity_route 0 init)).
Defined.

(** X6. More sensitivity never makes sad harder to detect: of two
    positive factors the larger leaves a sad threshold that is no higher
    and a sad intensity that is no lower. *)
Theorem sad_sensitivity_monotone (f1 f2 : Q) (self1 self2 : MoodDetector) :
  0 < f1 -> f1 <= f2 ->
  let after1 := snd (update_sad_sensitivity f1 self1) in
  let after2 := snd (update_sad_sensitivity f2 self2) in
  dict_get (emotion_thresholds after2) "sad" 0
  <= dict_get (emotion_thresholds after1) "sad" 0
  /\ dict_get (emotion_intensity after1) "sad" 0
     <= dict_get (emotion_intensity after2) "sad" 0.
Proof.
  intros H1 H12. cbv zeta. rewrite !update_sad_sensitivity_paths.
  destruct (Qeq_bool f1 0) eqn:E1; [apply Qeq_bool_eq in E1; lra|].
  destruct (Qeq_bool f2 0) eqn:E2; [apply Qeq_bool_eq in E2; lra|].
  cbn [snd emotion_thresholds emotion_intensity set_emotion_intensity
         set_emotion_thresholds].
  rewrite !dict_get_set_same.
  assert (Hq : 0.15 / f2 <= 0.15 / f1).
  { apply Qle_shift_div_r; [lra|].
    assert (Hx : 0 <= 0.15 / f1) by (apply Qle_shift_div_l; lra).
    assert (Hy : 0.15 / f1 * f1 == 0.15) by (field; lra).
    revert Hx Hy. generalize (0.15 / f1). intros x Hx Hy. nra. }
  split.
  - destruct (pymax_spec 0.1 (0.15 / f1)) as (A1 & A2 & _).
    destruct (pymax_spec 0.1 (0.15 / f2)) as (_ & _ & [B | B]);
      rewrite B; lra.
  - destruct (pymin_spec 2.0 (1.2 * f2)) as (A1 & A2 & _).
    destruct (pymin_spec 2.0 (1.2 * f1)) as (B1 & B2 & _).
    destruct (pymin_spec 2.0 (1.2 * f2)) as (_ & _ & [B | B]);
      rewrite B; lra.
Qed.

Lemma sad_sensitivity_monotone_witness :
  dict_get (emotion_thresholds (snd (update_sad_sensitivity 2 init))) "sad" 0
  <= dict_get (emotion_thresholds (snd (update_sad_sensitivity 1 init)))
       "sad" 0
  /\ dict_get (emotion_intensity (snd (update_sad_sensitivity 1 init)))
       "sad" 0
     <= dict_get (emotion_intensity (snd (update_sad_sensitivity 2 init)))
          "sad" 0.
Proof.
  apply (sad_sensitivity_monotone 1 2 init init).
  - reflexivity.
  - vm_compute. discriminate.
Defined.

(** ** Sums of counts *)

Lemma list_sum_dict_set (C : dict nat) (m : string) (v : nat) :
  (list_sum (map snd (dict_set C m v)) + dict_get C m 0
   = list_sum (map snd C) + v)%nat.
Proof.
  unfold dict_get. induction C as [|[k c] C IH]; simpl.
  - lia.
  - destruct (String.eqb m k); simpl; lia.
Qed.

(** ** The best of several faces *)

Lemma best_detection_loop_spec (ds : list detection) :
  forall (best : option detection) (bt : Q),
    (best_detection_loop ds best bt = best
     /\ Forall (fun d => total_confidence_of d <= bt) ds)
    \/ exists l1 b l2,
         ds = l1 ++ b :: l2
         /\ best_detection_loop ds best bt = Some b
         /\ bt < total_confidence_of b
         /\ Forall (fun d => total_confidence_of d < total_confidence_of b) l1
         /\ Forall (fun d => total_confidence_of d <= total_confidence_of b)
              l2.
Proof.
  induction ds as [|d ds IH]; intros best bt; simpl.
  - left. split; [reflexivity | constructor].
  - destruct (Qgtb (total_confidence_of d) bt) eqn:E.
    + apply Qgtb_true in E. right.
      destruct (IH (Some d) (total_confidence_of d))
        as [[Hr Hall] | (l1 & b & l2 & Hds & Hr & Hlt & H1 & H2)].
      * exists [], d, ds. repeat split; try assumption. constructor.
      * exists (d :: l1), b, l2. subst ds.
        repeat split; try assumption; try lra.
        constructor; assumption.
    + apply Qgtb_false in E.
      destruct (IH best bt)
        as [[Hr Hall] | (l1 & b & l2 & Hds & Hr & Hlt & H1 & H2)].
      * left. split; [assumption|]. constructor; assumption.
      * right. exists (d :: l1), b, l2. subst ds.
        repeat split; try assumption.
        constructor; [lra | assumption].
Qed.

Lemma best_detection_none (ds : list detection) :
  (forall d, In d ds -> total_confidence_of d <= 0) ->
  _get_best_emotion_detection ds = None.
Proof.
  intros Hall.
  assert (E : _get_best_emotion_detection ds = best_detection_loop ds None 0)
    by now destruct ds.
  rewrite E.
  destruct (best_detection_loop_spec ds None 0)
    as [[Hr _] | (l1 & b & l2 & Hds & _ & Hlt & _)]; [exact Hr|].
  exfalso. assert (total_confidence_of b <= 0).
  { apply Hall. subst ds. apply in_or_app. right. now left. }
  lra.
Qed.

(** X10. A processed frame without a usable face changes nothing: when
    no detection has a positive total score the detector stays exactly as
    it was, the smoothing histories included.  Otherwise the frame is
    handled on the scores of the best detection, and of no other. *)
Theorem handle_detections_spec (now : Q) (ds : list detection)
    (self : MoodDetector) :
  ((forall d, In d ds -> total_confidence_of d <= 0) ->
   handle_detections now ds self = (Ok tt, self))
  /\ (forall b,
        _get_best_emotion_detection ds = Some b ->
        snd (handle_detections now ds self)
        = detection_step now (emotions b) self).
Proof.
  split.
  - intros Hall. unfold handle_detections.
    destruct ds as [|d ds']; [reflexivity|].
    assert (E : _get_best_emotion_detection (d :: ds') = None).
    { apply best_detection_none. exact Hall. }
    now rewrite E.
  - intros b Hb. unfold handle_detections, detection_step.
    destruct ds as [|d ds']; [discriminate Hb|].
    rewrite Hb. unfold bind, ret.
    now destruct (detect_frame now (emotions b) self) as [[o | e] s].
Qed.

Lemma handle_detections_spec_witness :
  handle_detections 5 [] init = (Ok tt, init)
  /\ snd (handle_detections 5
            [mkDetection [] [("sad", 0.2)]; mkDetection [] [("happy", 0.9)]]
            init)
     = detection_step 5 [("happy", 0.9)] init.
Proof.
  split.
  - apply (proj1 (handle_detections_spec 5 [] init)). intros d [].
  - apply (proj2 (handle_detections_spec 5
                    [mkDetection [] [("sad", 0.2)];
                     mkDetection [] [("happy", 0.9)]] init)
             (mkDetection [] [("happy", 0.9)])).
    reflexivity.
Defined.

(** ** Two frames out of three are skipped *)

Lemma succ_mod3 (c k : nat) :
  c mod 3 = k -> (c + 1) mod 3 = (k + 1) mod 3.
Proof. intros <-. now rewrite Nat.Div0.add_mod_idemp_l. Qed.

Lemma detection_loop_phases (reads : list camera_read) :
  forall (c : nat) (self : MoodDetector) (d1 d2 : Q * list detection),
    (c mod 3 = 0%nat ->
     _detection_loop reads c self
     = handle_all (every_third (successes reads)) self)
    /\ (c mod 3 = 1%nat ->
        _detection_loop reads c self
        = handle_all (every_third (d1 :: successes reads)) self)
    /\ (c mod 3 = 2%nat ->
        _detection_loop reads c self
        = handle_all (every_third (d1 :: d2 :: successes reads)) self).
Proof.
  induction reads as [|[[now ds]|] reads IH]; intros c self d1 d2.
  - repeat split; intros; reflexivity.
  - cbn [_detection_loop successes].
    split; [|split]; intros Hc; apply succ_mod3 in Hc; rewrite Hc;
      cbn [Nat.modulo Nat.eqb negb].
    + change ((0 + 1) mod 3)%nat with 1%nat in *. cbn [Nat.eqb negb].
      apply (IH (c + 1)%nat self (now, ds) d2). exact Hc.
    + change ((1 + 1) mod 3)%nat with 2%nat in *. cbn [Nat.eqb negb].
      apply (IH (c + 1)%nat self d1 (now, ds)). exact Hc.
    + change ((2 + 1) mod 3)%nat with 0%nat in *. cbn [Nat.eqb negb].
      cbn [every_third]. unfold handle_all at 1. cbn [fold_left fst snd].
      apply (IH (c + 1)%nat _ d1 d2). exact Hc.
  - cbn [_detection_loop successes]. apply IH.
Qed.

(** X11. Of the frames the camera delivers, the loop hands every third
    one to the classifier and its handler, the third, the sixth and so on,
    failed reads not counted; the others never reach the detector. *)
Theorem detection_loop_every_third (reads : list camera_read)
    (self : MoodDetector) :
  _detection_loop reads 0 self
  = handle_all (every_third (successes reads)) self.
Proof.
  apply (detection_loop_phases reads 0 self (0, []) (0, [])). reflexivity.
Qed.

(** ** A mood from a still image *)

Lemma dict_get_in {V} (d : dict V) (k : string) (default : V) :
  In (dict_get d k default) (default :: map snd d).
Proof.
  unfold dict_get. destruct (dict_find d k) as [v|] eqn:E.
  - right. apply dict_find_in in E.
    apply (in_map snd) in E. exact E.
  - now left.
Qed.

(** X12. The mood of a still image is read off the first face alone,
    without smoothing, thresholds or gate, and the detector is left as it
    was.  The label is neutral or a value of the mood mapping.  When the
    first face has scores, its mapping being one of distinct labels, the
    confidence is the greatest of them and the label is the mapped label of
    a score that attains it; without a face, or without scores, the
    answer is neutral at confidence 0.0. *)
Theorem image_mood_spec (ds : list detection) (self : MoodDetector) :
  exists r,
    detect_mood_from_image ds self = (Ok r, self)
    /\ In (image_label r) ("neutral" :: map snd (mood_mapping self))
    /\ (forall d rest,
          ds = d :: rest -> NoDup (map fst (emotions d)) ->
          emotions d <> [] ->
          all_emotions r = emotions d
          /\ (exists k,
                In (k, image_confidence r) (emotions d)
                /\ image_label r = dict_get (mood_mapping self) k "neutral")
          /\ forall k v, In (k, v) (emotions d) -> v <= image_confidence r)
    /\ (ds = [] \/ (exists d rest, ds = d :: rest /\ emotions d = []) ->
        r = mkImageMood "neutral" 0.0 []).
Proof.
  unfold detect_mood_from_image. cbv zeta.
  destruct ds as [|d rest].
  { eexists. split; [reflexivity|]. split; [now left|].
    split; [intros d rest H; discriminate H | reflexivity]. }
  destruct (emotions d) as [|first others] eqn:Hem.
  { eexists. split; [reflexivity|]. split; [now left|].
    split; [|reflexivity].
    intros d' rest' [= <- <-] _ N. rewrite Hem in N. now contradiction N. }
  destruct (max_by_value_spec others first) as [Hin Hmax].
  set (best := max_by_value first others) in *.
  destruct (dict_find (first :: others) (fst best)) as [c|] eqn:Hc.
  - unfold bind, gets, ret. eexists. split; [reflexivity|].
    cbn [image_label image_confidence all_emotions].
    split; [apply dict_get_in|]. split.
    + intros d' rest' [= <- <-] Hnd _. rewrite Hem in *.
      assert (Hbest : dict_find (first :: others) (fst best)
                      = Some (snd best)).
      { apply dict_in_find; [assumption|]. now destruct best. }
      assert (c = snd best) by congruence. subst c.
      split; [reflexivity|]. split.
      * exists (fst best). split; [now destruct best | reflexivity].
      * intros k v I. apply (Hmax (k, v) I).
    + intros [H | (d' & rest' & [= <- <-] & H)]; [discriminate H|].
      rewrite Hem in H. discriminate H.
  - eexists. split; [reflexivity|]. split; [now left|]. split.
    + intros d' rest' [= <- <-] Hnd _. rewrite Hem in *.
      exfalso.
      assert (Hbest : dict_find (first :: others) (fst best)
                      = Some (snd best)).
      { apply dict_in_find; [assumption|]. now destruct best. }
      congruence.
    + reflexivity.
Qed.

Lemma image_mood_spec_witness :
  exists r,
    detect_mood_from_image
      [mkDetection [] [("sad", 0.2); ("happy", 0.7)]] init = (Ok r, init)
    /\ image_label r = "happy".
Proof.
  destruct (image_mood_spec
              [mkDetection [] [("sad", 0.2); ("happy", 0.7)]] init)
    as (r & Hrun & _ & Hd & _).
  exists r. split; [exact Hrun|].
  destruct (Hd (mkDetection [] [("sad", 0.2); ("happy", 0.7)]) [] eq_refl)
    as (_ & (k & Hk & Hl) & Hmax).
  - simpl. repeat constructor; simpl; intuition discriminate.
  - discriminate.
  - rewrite Hl. simpl in Hk.
    destruct Hk as [[= <- Hc] | [[= <- Hc] | []]].
    + exfalso.
      assert (H : 0.7 <= image_confidence r)
        by (apply (Hmax "happy"); simpl; tauto).
      rewrite <- Hc in H. vm_compute in H. now apply H.
    + reflexivity.
Defined.

(** ** More on the windowed voter *)

(** The vote on a window that is not empty: the dictionaries of the loop
    and the answer read off them. *)
Lemma vote_outcome (window_seconds now : Q) (self : MoodDetector) :
  let entries := within window_seconds now (mood_history self) in
  entries <> [] ->
  exists first others C,
    NoDup (map fst (first :: others))
    /\ (forall m, vote_post (emotion_intensity self) (List.length entries) 0
                    entries [] [] (first :: others) C m)
    /\ get_stable_mood window_seconds now self
       = (Ok (let best := max_by_value first others in
              if negb (String.eqb (fst best) "neutral")
                 && (dict_get C (fst best) 0 <? 2)%nat
              then "neutral" else fst best),
          self).
Proof.
  intros entries Hne. rewrite get_stable_mood_unfold. fold entries.
  assert (Ht : List.length entries <> 0%nat)
    by (destruct entries; [congruence | discriminate]).
  destruct (vote_loop_spec entries (List.length entries) 0 [] [] self Ht)
    as (W & C & Hrun & Hnd & Hpost).
  { intros m. simpl. tauto. }
  { constructor. }
  destruct entries as [|e0 rest] eqn:Hentries; [congruence|].
  rewrite <- Hentries in *.
  unfold bind at 1. rewrite Hrun. cbn [fst snd].
  destruct W as [|first others].
  { exfalso. destruct (Hpost (mood_of e0)) as (Hk & _).
    simpl in Hk. destruct Hk as [Hk _].
    destruct (Hk eq_refl) as [_ N]. apply N. rewrite Hentries. now left. }
  exists first, others, C. split; [exact Hnd|]. split; [exact Hpost|].
  cbv zeta. set (best := max_by_value first others).
  destruct (Hpost (fst best)) as (_ & _ & _ & Hwc).
  destruct (max_by_value_spec others first) as [Hin _]. fold best in Hin.
  assert (Hbest : dict_find (first :: others) (fst best) = Some (snd best)).
  { apply dict_in_find; [assumption|]. now destruct best. }
  destruct (negb (String.eqb (fst best) "neutral")); [|reflexivity].
  cbn [andb]. unfold bind, dict_index, lift, dict_get.
  destruct (dict_find C (fst best)) as [c|] eqn:HC.
  - now destruct (c <? 2)%nat.
  - destruct Hwc as [_ Hwc]. rewrite Hwc in Hbest by reflexivity.
    discriminate Hbest.
Qed.

(** X13. The stable mood is never a stranger to the window: over a
    window that is not empty it is neutral, or a mood that occurs at least
    twice among the entries of the window. *)
Theorem stable_mood_seen_twice (window_seconds now : Q)
    (self : MoodDetector) :
  let entries := within window_seconds now (mood_history self) in
  entries <> [] ->
  exists r,
    get_stable_mood window_seconds now self = (Ok r, self)
    /\ (r = "neutral"
        \/ In r (map mood_of entries)
           /\ (2 <= occurrences entries r)%nat).
Proof.
  intros entries Hne.
  destruct (vote_outcome window_seconds now self Hne)
    as (first & others & C & Hnd & Hpost & Hrun).
  fold entries in Hpost.
  eexists. split; [exact Hrun|]. cbv zeta.
  set (best := max_by_value first others).
  destruct (max_by_value_spec others first) as [Hin _]. fold best in Hin.
  assert (Hbest : dict_find (first :: others) (fst best) = Some (snd best)).
  { apply dict_in_find; [assumption|]. now destruct best. }
  destruct (Hpost (fst best)) as (Hk & _ & Hc & _).
  simpl in Hc.
  assert (Hseen : In (fst best) (map mood_of entries)).
  { destruct (in_dec string_dec (fst best) (map mood_of entries));
      [assumption|].
    exfalso. destruct Hk as [_ Hk]. rewrite Hk in Hbest; [discriminate|].
    simpl. tauto. }
  destruct (String.eqb_spec (fst best) "neutral") as [E | N];
    cbn [negb andb].
  - now left.
  - destruct (dict_get C (fst best) 0 <? 2)%nat eqn:E2; [now left|].
    right. split; [exact Hseen|].
    apply Nat.ltb_ge in E2. lia.
Qed.

Lemma stable_mood_seen_twice_witness :
  exists r,
    get_stable_mood 15 100
      (set_mood_history [Entry "angry" 0.6 90; Entry "angry" 0.5 95] init)
    = (Ok r,
       set_mood_history [Entry "angry" 0.6 90; Entry "angry" 0.5 95] init)
    /\ (r = "neutral"
        \/ In r (map mood_of
                   (within 15 100
                      (mood_history
                         (set_mood_history
                            [Entry "angry" 0.6 90; Entry "angry" 0.5 95]
                            init))))
           /\ (2 <= occurrences
                      (within 15 100
                         (mood_history
                            (set_mood_history
                               [Entry "angry" 0.6 90; Entry "angry" 0.5 95]
                               init))) r)%nat).
Proof.
  apply (stable_mood_seen_twice 15 100
           (set_mood_history [Entry "angry" 0.6 90; Entry "angry" 0.5 95]
              init)).
  vm_compute. discriminate.
Defined.

Lemma occurrences_all (entries : list entry) (m : string) :
  (forall e, In e entries -> mood_of e = m) ->
  occurrences entries m = List.length entries.
Proof.
  unfold occurrences. induction entries as [|e l IH]; intros H; simpl.
  - reflexivity.
  - rewrite (H e (or_introl eq_refl)), String.eqb_refl. simpl.
    f_equal. apply IH. intros x Hx. apply H. now right.
Qed.

(** X14. A window in which a single mood occurs decides for that mood,
    whatever the confidences and intensities, as soon as it occurs twice; a
    lone observation in the window gives its mood only when that is
    neutral, and neutral otherwise. *)
Theorem stable_mood_unanimous (window_seconds now : Q)
    (self : MoodDetector) (m : string) :
  let entries := within window_seconds now (mood_history self) in
  entries <> [] ->
  (forall e, In e entries -> mood_of e = m) ->
  get_stable_mood window_seconds now self
  = (Ok (if negb (String.eqb m "neutral") && (List.length entries <? 2)%nat
         then "neutral" else m),
     self).
Proof.
  intros entries Hne Hall.
  destruct (vote_outcome window_seconds now self Hne)
    as (first & others & C & Hnd & Hpost & Hrun).
  fold entries in Hpost. rewrite Hrun. clear Hrun.
  assert (Hkey : forall k, In k (map fst (first :: others)) -> k = m).
  { intros k Hk. destruct (Hpost k) as (Hk1 & _).
    destruct (in_dec string_dec k (map mood_of entries)) as [I | N].
    - apply in_map_iff in I. destruct I as (e & <- & He). now apply Hall.
    - exfalso. apply (proj1 (dict_find_none (first :: others) k));
        [|exact Hk].
      apply Hk1. simpl. tauto. }
  assert (Hothers : others = []).
  { destruct others as [|second others']; [reflexivity|]. exfalso.
    assert (H1 : fst first = m) by (apply Hkey; simpl; tauto).
    assert (H2 : fst second = m) by (apply Hkey; simpl; tauto).
    inversion Hnd as [|? ? Hn _]. apply Hn. simpl. left. congruence. }
  subst others. cbn [max_by_value]. cbv zeta.
  assert (Hm : fst first = m) by (apply Hkey; simpl; tauto).
  rewrite Hm. destruct (Hpost m) as (_ & _ & Hc & _).
  rewrite Hc. simpl. now rewrite (occurrences_all entries m Hall).
Qed.

Lemma stable_mood_unanimous_witness :
  get_stable_mood 15 100
    (set_mood_history
       [Entry "sad" 0.9 10; Entry "fear" 0.9 96; Entry "fear" 0.4 97] init)
  = (Ok "fear",
     set_mood_history
       [Entry "sad" 0.9 10; Entry "fear" 0.9 96; Entry "fear" 0.4 97] init).
Proof.
  apply (stable_mood_unanimous 15 100
           (set_mood_history
              [Entry "sad" 0.9 10; Entry "fear" 0.9 96; Entry "fear" 0.4 97]
              init) "fear").
  - vm_compute. discriminate.
  - intros e H. vm_compute in H. destruct H as [<- | [<- | []]]; reflexivity.
Defined.

(** ** More on the smoother *)

Lemma in_last_n_in {A} (n : nat) (l : list A) (x : A) :
  In x (last_n n l) -> In x l.
Proof.
  unfold last_n. intros H.
  rewrite <- (firstn_skipn (List.length l - n) l).
  apply in_or_app. now right.
Qed.

Lemma dict_set_new {V} (d : dict V) (k : string) (v : V) :
  dict_find d k = None -> dict_set d k v = d ++ [(k, v)].
Proof.
  induction d as [|[k0 v0] d IH]; simpl; [reflexivity|].
  destruct (String.eqb k k0); [discriminate|].
  intros H. now rewrite IH.
Qed.

Lemma smooth_loop_keys (items : dict Q) :
  forall (acc smoothed : dict Q) (self self' : MoodDetector),
    NoDup (map fst acc ++ map fst items) ->
    smooth_loop items acc self = (Ok smoothed, self') ->
    map fst smoothed = map fst acc ++ map fst items.
Proof.
  induction items as [|[e s] items IH]; intros acc smoothed self self' Hnd.
  - simpl. intros [= <- _]. now rewrite app_nil_r.
  - cbn [smooth_loop]. unfold bind.
    destruct (smooth_one e s self) as [[v | ex] self1]; [|discriminate].
    intros Hrun.
    assert (He : dict_find acc e = None).
    { apply dict_find_none. intros I.
      apply NoDup_remove_2 in Hnd. apply Hnd.
      apply in_or_app. now left. }
    apply IH in Hrun.
    + rewrite Hrun, dict_set_keys, He. simpl. now rewrite <- app_assoc.
    + rewrite dict_set_keys, He. simpl in Hnd |- *.
      now rewrite <- app_assoc.
Qed.

(** X16. The smoother answers every label it was given, and in the order
    it was given them: whenever it returns, its mapping has the labels of
    the raw mapping, one each, in the same order. *)
Theorem smooth_emotions_keys (emotion_scores smoothed : dict Q)
    (self self' : MoodDetector) :
  NoDup (map fst emotion_scores) ->
  _smooth_emotions emotion_scores self = (Ok smoothed, self') ->
  map fst smoothed = map fst emotion_scores.
Proof.
  intros Hnd Hrun.
  apply (smooth_loop_keys emotion_scores [] smoothed self self'); assumption.
Qed.

Lemma smooth_emotions_keys_witness :
  map fst (match fst (_smooth_emotions [("sad", 0.2); ("happy", 0.05)] init)
           with Ok smoothed => smoothed | Raise _ => [] end)
  = ["sad"; "happy"].
Proof.
  apply (smooth_emotions_keys [("sad", 0.2); ("happy", 0.05)]
           _ init
           (snd (_smooth_emotions [("sad", 0.2); ("happy", 0.05)] init))).
  - simpl. repeat constructor; simpl; intuition discriminate.
  - reflexivity.
Defined.

Lemma smooth_loop_untracked (items : dict Q) :
  forall (acc : dict Q) (self : MoodDetector),
    NoDup (map fst acc ++ map fst items) ->
    (forall k, In k (map fst items) ->
               dict_find (emotion_history self) k = None) ->
    smooth_loop items acc self = (Ok (acc ++ items), self).
Proof.
  induction items as [|[e s] items IH]; intros acc self Hnd Hun.
  - simpl. now rewrite app_nil_r.
  - cbn [smooth_loop]. unfold bind.
    rewrite smooth_one_paths, (Hun e (or_introl eq_refl)).
    assert (He : dict_find acc e = None).
    { apply dict_find_none. intros I.
      apply NoDup_remove_2 in Hnd. apply Hnd.
      apply in_or_app. now left. }
    rewrite (dict_set_new acc e s He), IH.
    + now rewrite <- app_assoc.
    + rewrite map_app. simpl in Hnd |- *. now rewrite <- app_assoc.
    + intros k I. apply Hun. now right.
Qed.

(** X17. Labels the detector keeps no history for pass through the
    smoother untouched: a mapping of such labels comes back as it is, and
    the detector is left as it was. *)
Theorem smooth_emotions_untracked (emotion_scores : dict Q)
    (self : MoodDetector) :
  NoDup (map fst emotion_scores) ->
  (forall k, In k (map fst emotion_scores) ->
             dict_find (emotion_history self) k = None) ->
  _smooth_emotions emotion_scores self = (Ok emotion_scores, self).
Proof.
  intros Hnd Hun.
  apply (smooth_loop_untracked emotion_scores [] self); assumption.
Qed.

Lemma smooth_emotions_untracked_witness :
  _smooth_emotions [("contempt", 0.4)] init = (Ok [("contempt", 0.4)], init).
Proof.
  apply (smooth_emotions_untracked [("contempt", 0.4)] init).
  - simpl. repeat constructor; simpl; tauto.
  - intros k [<- | []]. reflexivity.
Defined.

(** X18. A decay factor whose weights cancel makes the smoother raise
    ZeroDivisionError, but only after it has recorded the sample: the
    label's history is pushed and capped as usual, while the current
    mood, its confidence and the ring stay as they were. *)
Theorem smoothing_zero_weights (now : Q) (label : string) (score : Q)
    (old : list Q) (self : MoodDetector) :
  dict_find (emotion_history self) label = Some old ->
  (List.length old <= 5)%nat ->
  old <> [] ->
  pysum (powers (emotion_smoothing self)
           (List.length (last_n 5 (old ++ [score])))) == 0 ->
  _smooth_emotions [(label, score)] self
  = (Raise ZeroDivisionError,
     set_emotion_history
       (dict_set (emotion_history self) label (last_n 5 (old ++ [score])))
       self)
  /\ mood_state (detection_step now [(label, score)] self) = mood_state self.
Proof.
  intros Hold Hlen Hne Hzero.
  assert (Hrun : _smooth_emotions [(label, score)] self
                 = (Raise ZeroDivisionError,
                    set_emotion_history
                      (dict_set (emotion_history self) label
                         (last_n 5 (old ++ [score]))) self)).
  { unfold _smooth_emotions. cbn [smooth_loop]. unfold bind.
    rewrite smooth_one_paths, Hold. cbv zeta.
    rewrite (push_cap 5 old score Hlen).
    set (hist := last_n 5 (old ++ [score])) in *.
    assert (H1 : (1 <? List.length hist)%nat = true).
    { apply Nat.ltb_lt. unfold hist, last_n.
      rewrite length_skipn, length_app. cbn [List.length].
      assert (List.length old <> 0%nat)
        by (destruct old; [congruence | discriminate]).
      lia. }
    rewrite H1.
    assert (Hz : Qeq_bool
                   (pysum (rev (powers (emotion_smoothing self)
                                  (List.length hist)))) 0 = true).
    { apply Qeq_bool_iff. now rewrite pysum_rev. }
    now rewrite Hz. }
  split; [exact Hrun|].
  unfold detection_step. rewrite detect_frame_paths, Hrun. reflexivity.
Qed.

Lemma smoothing_zero_weights_witness :
  _smooth_emotions [("happy", 0.9)]
    (set_params 0.2 (-1) (set_emotion_history [("happy", [0.5])] init))
  = (Raise ZeroDivisionError,
     set_emotion_history
       (dict_set
          (emotion_history
             (set_params 0.2 (-1)
                (set_emotion_history [("happy", [0.5])] init)))
          "happy" (last_n 5 ([0.5] ++ [0.9])))
       (set_params 0.2 (-1) (set_emotion_history [("happy", [0.5])] init))).
Proof.
  apply (proj1 (smoothing_zero_weights 1 "happy" 0.9 [0.5]
                  (set_params 0.2 (-1)
                     (set_emotion_history [("happy", [0.5])] init))
                  eq_refl ltac:(simpl; lia) ltac:(discriminate)
                  ltac:(reflexivity))).
Defined.

(** ** What a session keeps true *)

Lemma handle_detections_cases (now : Q) (ds : list detection)
    (self : MoodDetector) :
  snd (handle_detections now ds self) = self
  \/ exists scores,
       snd (handle_detections now ds self) = detection_step now scores self.
Proof.
  unfold handle_detections, detection_step.
  destruct ds as [|d ds']; [now left|].
  destruct (_get_best_emotion_detection (d :: ds')) as [b|]; [|now left].
  right. exists (emotions b). unfold bind, ret.
  now destruct (detect_frame now (emotions b) self) as [[o | e] s].
Qed.

(** What holds at the start of a session and after each handled frame
    holds at its end. *)
Lemma detection_loop_preserves (P : MoodDetector -> Prop) :
  (forall now scores self, P self -> P (detection_step now scores self)) ->
  forall reads c self, P self -> P (_detection_loop reads c self).
Proof.
  intros Hstep.
  induction reads as [|[[now ds]|] reads IH]; intros c self HP.
  - exact HP.
  - cbn [_detection_loop].
    destruct (negb _); [now apply IH|].
    apply IH.
    destruct (handle_detections_cases now ds self) as [E | (scores & E)];
      rewrite E; [exact HP | now apply Hstep].
  - cbn [_detection_loop]. now apply IH.
Qed.

(** A handled frame ends where the smoother left the detector, or one
    accepted observation further. *)
Lemma detection_step_cases (now : Q) (scores : dict Q) (self : MoodDetector) :
  let self1 := snd (_smooth_emotions scores self) in
  detection_step now scores self = self1
  \/ exists m c,
       accept_rules m c (mood_history self1) = true
       /\ In m ("neutral" :: map snd (mood_mapping self))
       /\ detection_step now scores self
          = snd (_update_mood_history now m c (set_current m c self1)).
Proof.
  unfold detection_step. rewrite detect_frame_paths.
  destruct (_smooth_emotions scores self) as [[smoothed | e] self1];
    cbn [snd]; [|now left].
  destruct (fst (_get_dominant_emotion smoothed self1)) as [[dom conf] | e];
    [|now left].
  cbv zeta. destruct (Qgtb conf _); [|now left].
  destruct (accept_rules _ conf (mood_history self1)) eqn:Hacc; [|now left].
  right. eexists. exists conf. split; [exact Hacc|].
  split; [apply dict_get_in | reflexivity].
Qed.

Lemma update_mood_history_fields (now : Q) (m : string) (c : Q)
    (self : MoodDetector) :
  let self' := snd (_update_mood_history now m c self) in
  current_mood self' = current_mood self
  /\ mood_confidence self' = mood_confidence self
  /\ mood_mapping self' = mood_mapping self
  /\ emotion_history self' = emotion_history self.
Proof.
  unfold _update_mood_history, bind, modify, gets, ret.
  cbn -[Nat.ltb]. now step_m.
Qed.

Lemma smooth_one_capped (emotion : string) (score : Q) (self : MoodDetector) :
  histories_capped self ->
  histories_capped (snd (smooth_one emotion score self))
  /\ map fst (emotion_history (snd (smooth_one emotion score self)))
     = map fst (emotion_history self).
Proof.
  intros Hcap. rewrite smooth_one_paths.
  destruct (dict_find (emotion_history self) emotion) as [old|] eqn:Hold;
    [|now split].
  cbv zeta. rewrite (push_cap 5 old score (Hcap _ _ Hold)).
  set (hist := last_n 5 (old ++ [score])).
  assert (Hboth :
            histories_capped
              (set_emotion_history
                 (dict_set (emotion_history self) emotion hist) self)
            /\ map fst
                 (emotion_history
                    (set_emotion_history
                       (dict_set (emotion_history self) emotion hist) self))
               = map fst (emotion_history self)).
  { split.
    - intros k h. cbn [emotion_history set_emotion_history].
      destruct (String.eqb_spec k emotion) as [-> | N].
      + rewrite dict_find_set_same. intros [= <-]. apply last_n_length.
      + rewrite dict_find_set_other by assumption. apply Hcap.
    - cbn [emotion_history set_emotion_history].
      now rewrite dict_set_keys, Hold. }
  destruct (1 <? List.length hist)%nat; [|exact Hboth].
  cbv zeta. now destruct (Qeq_bool _ 0).
Qed.

Lemma smooth_loop_capped (items : dict Q) :
  forall (acc : dict Q) (self : MoodDetector),
    histories_capped self ->
    histories_capped (snd (smooth_loop items acc self))
    /\ map fst (emotion_history (snd (smooth_loop items acc self)))
       = map fst (emotion_history self).
Proof.
  induction items as [|[e s] items IH]; intros acc self Hcap.
  - now split.
  - cbn [smooth_loop]. unfold bind.
    destruct (smooth_one_capped e s self Hcap) as [H1 H2].
    destruct (smooth_one e s self) as [[v | ex] self1]; cbn [snd] in *.
    + destruct (IH (dict_set acc e v) self1 H1) as [H3 H4].
      split; [exact H3 | congruence].
    + now split.
Qed.

(** X19. Throughout a session of the detection loop, whatever the frames
    show and whether or not a frame ends in an exception, the detector
    keeps a smoothing history for the labels it kept one for, in the same
    order, and none of them grows beyond 5 samples.  A fresh detector
    starts with the seven labels and empty histories. *)
Theorem session_keeps_histories (reads : list camera_read) (c : nat)
    (self : MoodDetector) :
  histories_capped self ->
  histories_capped (_detection_loop reads c self)
  /\ map fst (emotion_history (_detection_loop reads c self))
     = map fst (emotion_history self)
  /\ histories_capped init
  /\ map fst (emotion_history init) = seven_labels.
Proof.
  intros Hcap.
  assert (H : histories_capped (_detection_loop reads c self)
              /\ map fst (emotion_history (_detection_loop reads c self))
                 = map fst (emotion_history self)).
  { apply (detection_loop_preserves
             (fun s => histories_capped s
                       /\ map fst (emotion_history s)
                          = map fst (emotion_history self)));
      [|now split].
    intros now scores s [Hs Hk].
    destruct (smooth_loop_capped scores [] s Hs) as [H1 H2].
    fold (_smooth_emotions scores) in H1, H2.
    destruct (detection_step_cases now scores s) as [E | (m & cf & _ & _ & E)];
      rewrite E.
    - split; [exact H1 | congruence].
    - destruct (update_mood_history_fields now m cf
                  (set_current m cf (snd (_smooth_emotions scores s))))
        as (_ & _ & _ & Heh).
      cbn [emotion_history set_current] in Heh.
      split.
      + intros k h. rewrite Heh. apply H1.
      + rewrite Heh. congruence. }
  destruct H as [H1 H2]. split; [exact H1|]. split; [exact H2|].
  split; [|reflexivity].
  intros k h Hk. simpl in Hk. unfold dict_find in Hk. simpl in Hk.
  repeat match type of Hk with
         | (if ?b then _ else _) = _ =>
             destruct b; [injection Hk as <-; simpl; lia|]
         end.
  discriminate Hk.
Qed.

Lemma session_keeps_histories_witness :
  histories_capped
    (_detection_loop [Some (1, [mkDetection [] [("happy", 0.9)]])] 2 init).
Proof.
  apply (session_keeps_histories
           [Some (1, [mkDetection [] [("happy", 0.9)]])] 2 init).
  intros k h Hk. simpl in Hk. unfold dict_find in Hk. simpl in Hk.
  repeat match type of Hk with
         | (if ?b then _ else _) = _ =>
             destruct b; [injection Hk as <-; simpl; lia|]
         end.
  discriminate Hk.
Defined.

Lemma accept_rules_floor (m : string) (c : Q) (h : list entry) :
  accept_rules m c h = true -> 0.15 < c.
Proof.
  unfold accept_rules.
  destruct (String.eqb m "sad"); ring_cases; q_cases; simpl; intros H;
    try discriminate H; lra.
Qed.

Lemma ring_sound_frame (s s1 : MoodDetector) :
  frame_of s1 = frame_of s -> ring_sound s -> ring_sound s1.
Proof.
  unfold frame_of, ring_sound. intros E.
  assert (E1 : mood_history s1 = mood_history s) by congruence.
  assert (E2 : current_mood s1 = current_mood s) by congruence.
  assert (E3 : mood_confidence s1 = mood_confidence s) by congruence.
  assert (E4 : mood_mapping s1 = mood_mapping s) by congruence.
  now rewrite E1, E2, E3, E4.
Qed.

Lemma detection_step_ring (now : Q) (scores : dict Q) (s : MoodDetector) :
  ring_sound s -> ring_sound (detection_step now scores s).
Proof.
  intros Hs.
  pose proof (smooth_loop_frame scores [] s) as Hframe.
  fold (_smooth_emotions scores) in Hframe.
  pose proof (ring_sound_frame s _ Hframe Hs) as Hs1.
  destruct (detection_step_cases now scores s)
    as [E | (m & c & Hacc & Hm & E)]; rewrite E; [exact Hs1|].
  set (s1 := snd (_smooth_emotions scores s)) in *.
  destruct Hs1 as (Hlen & Hall & _).
  assert (Hmap : mood_mapping s1 = mood_mapping s)
    by (unfold frame_of in Hframe; congruence).
  destruct (update_mood_history_fields now m c (set_current m c s1))
    as (Fc & Fq & Fm & _).
  cbn [current_mood mood_confidence mood_mapping set_current] in Fc, Fq, Fm.
  pose proof (update_mood_history_last_n now m c (set_current m c s1)) as Hh.
  cbn [mood_history set_current] in Hh. specialize (Hh Hlen).
  destruct (update_mood_history_newest now m c (set_current m c s1))
    as (pre & Hpre).
  unfold ring_sound. rewrite Fc, Fq, Fm. split; [|split].
  - rewrite Hh. apply last_n_length.
  - intros e He. rewrite Hh in He. apply in_last_n_in in He.
    apply in_app_or in He. destruct He as [He | [<- | []]].
    + now apply Hall.
    + cbn [confidence_of mood_of]. split.
      * now apply (accept_rules_floor m c (mood_history s1)).
      * now rewrite Hmap.
  - right. exists pre, now. exact Hpre.
Qed.

(** X20. Throughout a session of the detection loop the ring stays sound:
    it never holds more than 50 entries; every entry has a confidence above
    0.15, the least the gate lets through, and a label that is neutral or a
    value of the mood mapping; and once the ring is not empty, its newest
    entry is the current mood with the current confidence.  A fresh
    detector starts sound. *)
Theorem session_keeps_ring (reads : list camera_read) (c : nat)
    (self : MoodDetector) :
  (ring_sound self -> ring_sound (_detection_loop reads c self))
  /\ ring_sound init.
Proof.
  split.
  - apply (detection_loop_preserves ring_sound).
    intros now scores s. apply detection_step_ring.
  - unfold ring_sound. simpl. split; [lia|]. split; [intros e []|].
    now left.
Qed.

Lemma session_keeps_ring_witness :
  ring_sound
    (_detection_loop [Some (1, [mkDetection [] [("happy", 0.9)]])] 2 init).
Proof.
  apply (proj1 (session_keeps_ring
                  [Some (1, [mkDetection [] [("happy", 0.9)]])] 2 init)).
  apply (proj2 (session_keeps_ring [] 0 init)).
Defined.

(** ** The selector takes the first maximum *)

Lemma sorted_desc_head (l : list (string * Q)) :
  l <> [] ->
  exists first rest l1 l2,
    sorted_desc l = first :: rest
    /\ l = l1 ++ first :: l2
    /\ Forall (fun x => snd x < snd first) l1
    /\ Forall (fun x => snd x <= snd first) l2.
Proof.
  induction l as [|x l IH]; intros Hne; [congruence|].
  destruct l as [|y l'].
  - exists x, [], [], []. repeat split; constructor.
  - destruct IH as (h & t & l1 & l2 & Hs & Hl & H1 & H2); [discriminate|].
    cbn [sorted_desc] in Hs |- *. rewrite Hs. cbn [insert_desc].
    destruct (Qle_bool (snd h) (snd x)) eqn:E.
    + apply Qle_bool_iff in E.
      exists x, (h :: t), [], (y :: l').
      split; [reflexivity|]. split; [reflexivity|].
      split; [constructor|]. rewrite Hl.
      apply Forall_app. split.
      * eapply Forall_impl; [|exact H1]. simpl. intros a Ha. lra.
      * constructor; [exact E|].
        eapply Forall_impl; [|exact H2]. simpl. intros a Ha. lra.
    + exists h, (insert_desc x t), (x :: l1), l2.
      split; [reflexivity|]. split; [now rewrite Hl|].
      split; [|exact H2]. constructor; [|exact H1].
      destruct (Qlt_le_dec (snd x) (snd h)) as [L | L]; [exact L|].
      apply Qle_bool_iff in L. congruence.
Qed.

(** X21. The selector always goes by the greatest score, and by the first
    label that has it: for a mapping that is not empty, the confidence it
    returns is that score, as it is with the label neutral or times the
    intensity with the label itself; scores before that label in the
    mapping are smaller, scores after it are not greater.  The detector is
    left as it was. *)
Theorem dominant_is_first_maximum (emotion_scores : dict Q)
    (self : MoodDetector) :
  emotion_scores <> [] ->
  exists l1 k v l2,
    emotion_scores = l1 ++ (k, v) :: l2
    /\ (forall x, In x l1 -> snd x < v)
    /\ (forall x, In x l2 -> snd x <= v)
    /\ (_get_dominant_emotion emotion_scores self
        = (Ok ("neutral", v), self)
        \/ _get_dominant_emotion emotion_scores self
           = (Ok (k, v * dict_get (emotion_intensity self) k 0.5), self)).
Proof.
  intros Hne.
  destruct (sorted_desc_head emotion_scores Hne)
    as ([k v] & rest & l1 & l2 & Hs & Hl & H1 & H2).
  exists l1, k, v, l2. rewrite Forall_forall in H1, H2.
  split; [exact Hl|]. split; [exact H1|]. split; [exact H2|].
  unfold _get_dominant_emotion. rewrite Hs.
  destruct emotion_scores as [|x0 l0]; [congruence|].
  destruct rest as [|[se ss] rest'].
  - right. reflexivity.
  - destruct (Qltb (v - ss) 0.1 && Qltb v 0.4); [left | right]; reflexivity.
Qed.

Lemma dominant_is_first_maximum_witness :
  exists l1 k v l2,
    [("sad", 0.3); ("happy", 0.6); ("fear", 0.6)] = l1 ++ (k, v) :: l2
    /\ (forall x, In x l1 -> snd x < v)
    /\ (forall x, In x l2 -> snd x <= v)
    /\ (_get_dominant_emotion [("sad", 0.3); ("happy", 0.6); ("fear", 0.6)]
          init
        = (Ok ("neutral", v), init)
        \/ _get_dominant_emotion
             [("sad", 0.3); ("happy", 0.6); ("fear", 0.6)] init
           = (Ok (k, v * dict_get (emotion_intensity init) k 0.5), init)).
Proof.
  apply (dominant_is_first_maximum
           [("sad", 0.3); ("happy", 0.6); ("fear", 0.6)] init).
  discriminate.
Defined.

(** ** The category switch *)

(** The switch, path by path. *)
Lemma play_mood_music_paths (mood : string) (mm : MusicManager.t) :
  MusicManager.play_mood_music mood mm =
  if String.eqb mood (MusicManager.current_mood mm) then mm
  else
    match MusicManager.get_songs_by_mood mm mood with
    | (_ :: _) as songs =>
        MusicManager.mk mood (MusicManager.music_library mm) songs 0
    | [] =>
        if String.eqb mood "neutral" then
          MusicManager.mk mood (MusicManager.music_library mm)
            (MusicManager.playlist mm) (MusicManager.current_index mm)
        else
          match MusicManager.get_songs_by_mood mm "neutral" with
          | (_ :: _) as songs =>
              MusicManager.mk "neutral" (MusicManager.music_library mm)
                songs 0
          | [] =>
              MusicManager.mk "neutral" (MusicManager.music_library mm)
                (MusicManager.playlist mm) (MusicManager.current_index mm)
          end
    end.
Proof.
  unfold MusicManager.play_mood_music, MusicManager.play_mood_music_body,
    MusicManager.get_songs_by_mood.
  cbn [MusicManager.current_mood MusicManager.music_library
         MusicManager.playlist MusicManager.current_index].
  destruct (String.eqb mood (MusicManager.current_mood mm)) eqn:E1;
    [reflexivity|].
  cbn [negb].
  destruct (dict_get (MusicManager.music_library mm) mood []) eqn:S1;
    [|reflexivity].
  destruct (String.eqb mood "neutral") eqn:E2; [reflexivity|].
  cbn [negb]. rewrite String.eqb_sym, E2. cbn [negb].
  destruct (dict_get (MusicManager.music_library mm) "neutral" []);
    reflexivity.
Qed.

(** X22. A request for a mood ends with that mood served, or with
    neutral served.  The mood itself is served when it already was, when
    the library has songs for it, or when it is neutral; a mood without
    songs is answered with neutral.  The playlist is replaced, and set to
    its start, exactly when songs were found for the mood that ends up
    served; the library is never changed.  Shuffle mode is off, as it is
    from the start: the shuffle is outside the model. *)
Theorem play_mood_music_outcome (mood : string) (mm : MusicManager.t) :
  let mm' := MusicManager.play_mood_music mood mm in
  let songs := MusicManager.get_songs_by_mood mm in
  MusicManager.music_library mm' = MusicManager.music_library mm
  /\ (MusicManager.current_mood mm' = mood
      \/ MusicManager.current_mood mm' = "neutral")
  /\ (mood = MusicManager.current_mood mm -> mm' = mm)
  /\ (mood <> MusicManager.current_mood mm ->
      (MusicManager.current_mood mm' = mood <->
       songs mood <> [] \/ mood = "neutral")
      /\ (songs (MusicManager.current_mood mm') <> [] ->
          MusicManager.playlist mm' = songs (MusicManager.current_mood mm')
          /\ MusicManager.current_index mm' = 0%nat)
      /\ (songs (MusicManager.current_mood mm') = [] ->
          MusicManager.playlist mm' = MusicManager.playlist mm
          /\ MusicManager.current_index mm'
             = MusicManager.current_index mm)).
Proof.
  cbv zeta. rewrite play_mood_music_paths.
  destruct (String.eqb_spec mood (MusicManager.current_mood mm)) as [E | N].
  { split; [reflexivity|]. split; [now left|]. split; [reflexivity|].
    intros H. contradiction. }
  destruct (MusicManager.get_songs_by_mood mm mood) as [|s0 ss] eqn:S1.
  - destruct (String.eqb_spec mood "neutral") as [E2 | N2].
    + cbn [MusicManager.current_mood MusicManager.music_library
             MusicManager.playlist MusicManager.current_index].
      split; [reflexivity|]. split; [now left|].
      split; [intros H; contradiction|]. intros _.
      rewrite S1. split; [split; [now right | reflexivity]|].
      split; [intros H; now contradiction H | now split].
    + destruct (MusicManager.get_songs_by_mood mm "neutral")
        as [|n0 ns] eqn:S2;
        cbn [MusicManager.current_mood MusicManager.music_library
               MusicManager.playlist MusicManager.current_index];
        rewrite S2;
        (split; [reflexivity|]); (split; [now right|]);
        (split; [intros H; contradiction|]); intros _.
      * split; [split; [intros H; now symmetry in H
                       | intros [H | H]; [now contradiction H | congruence]]|].
        split; [intros H; now contradiction H | now split].
      * split; [split; [intros H; now symmetry in H
                       | intros [H | H]; [now contradiction H | congruence]]|].
        split; [now split | discriminate].
  - cbn [MusicManager.current_mood MusicManager.music_library
           MusicManager.playlist MusicManager.current_index].
    rewrite S1.
    split; [reflexivity|]. split; [now left|].
    split; [intros H; contradiction|]. intros _.
    split; [split; [intros _; left; discriminate | reflexivity]|].
    split; [now split | discriminate].
Qed.

Lemma play_mood_music_outcome_witness :
  MusicManager.current_mood
    (MusicManager.play_mood_music "sad"
       (MusicManager.mk "happy" [("sad", []); ("neutral", ["calm.mp3"])]
          ["joy.mp3"] 0))
  <> "sad".
Proof.
  intros H.
  destruct (proj2 (proj2 (proj2
              (play_mood_music_outcome "sad"
                 (MusicManager.mk "happy"
                    [("sad", []); ("neutral", ["calm.mp3"])]
                    ["joy.mp3"] 0)))))
    as ([H1 _] & _).
  - discriminate.
  - destruct (H1 H) as [N | N].
    + now apply N.
    + discriminate N.
Defined.

(** X23. Asking for the same mood twice changes nothing the second time:
    the served mood, the playlist, the position in it and the library are
    after the second request what they were after the first (shuffle mode
    off). *)
Theorem play_mood_music_twice (mood : string) (mm : MusicManager.t) :
  MusicManager.play_mood_music mood (MusicManager.play_mood_music mood mm)
  = MusicManager.play_mood_music mood mm.
Proof.
  rewrite (play_mood_music_paths mood mm).
  destruct (String.eqb mood (MusicManager.current_mood mm)) eqn:E1.
  { rewrite play_mood_music_paths. now rewrite E1. }
  destruct (MusicManager.get_songs_by_mood mm mood) as [|s0 ss] eqn:S1.
  - destruct (String.eqb mood "neutral") eqn:E2.
    + rewrite play_mood_music_paths.
      cbn [MusicManager.current_mood]. now rewrite String.eqb_refl.
    + destruct (MusicManager.get_songs_by_mood mm "neutral")
        as [|n0 ns] eqn:S2;
        rewrite play_mood_music_paths;
        unfold MusicManager.get_songs_by_mood in *;
        cbn [MusicManager.current_mood MusicManager.music_library
               MusicManager.playlist MusicManager.current_index];
        now rewrite E2, S1, S2.
  - rewrite play_mood_music_paths.
    cbn [MusicManager.current_mood]. now rewrite String.eqb_refl.
Qed.

(** ** After a switch of the loop *)

Lemma monitor_tick_switched (t_vote current_time : Q) (w w1 : world)
    (s : switch) :
  monitor_tick t_vote current_time w = (w1, Some s) ->
  auto_play_enabled (state w) = true
  /\ switch_mood s <> MusicManager.current_mood (manager w)
  /\ w1 = mkWorld (detector w)
            (set_last_mood_change current_time (state w))
            (MusicManager.play_mood_music (switch_mood s) (manager w)).
Proof.
  rewrite monitor_tick_paths.
  destruct (auto_play_enabled (state w)); [|discriminate].
  destruct (fst (get_stable_mood _ t_vote (detector w))) as [stable | e];
    [|discriminate].
  destruct (Qgtb _ _); [|discriminate]. cbn [andb].
  destruct (String.eqb_spec stable (MusicManager.current_mood (manager w)))
    as [E | N]; [discriminate|].
  cbn [negb andb]. destruct (_ || _); [|discriminate].
  intros [= <- <-]. cbn [switch_mood]. repeat split. exact N.
Qed.

(** X24. What follows a switch of the loop depends on the library.  When
    it has songs for the stable mood, or the stable mood is neutral, that
    mood is served from then on and no later tick with the same stable
    mood switches again, however long it waits.  When it has none, neutral
    is served instead, the stable mood still differs from the served one,
    and every later tick that comes after the cooldown with the same
    stable mood and enough confidence repeats the switch. *)
Theorem after_switch (t_vote current_time : Q) (w w1 : world) (s : switch) :
  monitor_tick t_vote current_time w = (w1, Some s) ->
  let songs := MusicManager.get_songs_by_mood (manager w) (switch_mood s) in
  let later t_vote2 time2 det2 :=
    monitor_tick t_vote2 time2 (mkWorld det2 (state w1) (manager w1)) in
  (songs <> [] \/ switch_mood s = "neutral" ->
   MusicManager.current_mood (manager w1) = switch_mood s
   /\ forall t_vote2 time2 det2,
        fst (get_stable_mood (inject_Z (mood_stability_window (state w1)))
               t_vote2 det2) = Ok (switch_mood s) ->
        snd (later t_vote2 time2 det2) = None)
  /\ (songs = [] -> switch_mood s <> "neutral" ->
      MusicManager.current_mood (manager w1) = "neutral"
      /\ forall t_vote2 time2 det2,
           fst (get_stable_mood (inject_Z (mood_stability_window (state w1)))
                  t_vote2 det2) = Ok (switch_mood s) ->
           inject_Z (mood_change_cooldown (state w1))
           < time2 - current_time ->
           0.4 < mood_confidence det2 ->
           snd (later t_vote2 time2 det2)
           = Some (mkSwitch time2 (mood_change_cooldown (state w1))
                     (switch_mood s))).
Proof.
  intros Htick. cbv zeta.
  destruct (monitor_tick_switched _ _ _ _ _ Htick) as (Hauto & Hne & ->).
  cbn [state manager].
  set (mood := switch_mood s) in *.
  assert (Hpaths := play_mood_music_paths mood (manager w)).
  apply String.eqb_neq in Hne. rewrite Hne in Hpaths.
  split.
  - intros Hsongs.
    assert (Hserved : MusicManager.current_mood
                        (MusicManager.play_mood_music mood (manager w))
                      = mood).
    { rewrite Hpaths.
      destruct (MusicManager.get_songs_by_mood (manager w) mood);
        [|reflexivity].
      destruct Hsongs as [H | H]; [now contradiction H|].
      apply String.eqb_eq in H. now rewrite H. }
    split; [exact Hserved|].
    intros tv2 t2 det2 Hstable.
    rewrite monitor_tick_paths. cbn [state manager detector].
    cbn [auto_play_enabled set_last_mood_change mood_stability_window]
      in Hstable |- *.
    rewrite Hauto, Hstable, Hserved, String.eqb_refl.
    cbn [negb]. now rewrite andb_false_r.
  - intros Hsongs Hnn.
    assert (Hserved : MusicManager.current_mood
                        (MusicManager.play_mood_music mood (manager w))
                      = "neutral").
    { rewrite Hpaths, Hsongs.
      apply String.eqb_neq in Hnn. rewrite Hnn.
      now destruct (MusicManager.get_songs_by_mood (manager w) "neutral"). }
    split; [exact Hserved|].
    intros tv2 t2 det2 Hstable Hcd Hconf.
    rewrite monitor_tick_paths. cbn [state manager detector].
    cbn [auto_play_enabled set_last_mood_change mood_stability_window
           last_mood_change mood_change_cooldown] in Hstable, Hcd |- *.
    rewrite Hauto, Hstable, Hserved.
    apply Qgtb_true in Hcd. rewrite Hcd.
    apply String.eqb_neq in Hnn. rewrite Hnn.
    apply Qgtb_true in Hconf. rewrite Hconf. reflexivity.
Qed.

Lemma after_switch_witness :
  MusicManager.current_mood
    (manager
       (fst (monitor_tick 100 100
               (mkWorld
                  (set_current "happy" 0.9
                     (set_mood_history
                        [Entry "happy" 0.9 98; Entry "happy" 0.9 99] init))
                  (mkAppState true true 0 8 12)
                  (MusicManager.mk "neutral" [] [] 0)))))
  = "neutral".
Proof.
  refine (proj1 (proj2 (after_switch 100 100
                          (mkWorld
                             (set_current "happy" 0.9
                                (set_mood_history
                                   [Entry "happy" 0.9 98;
                                    Entry "happy" 0.9 99] init))
                             (mkAppState true true 0 8 12)
                             (MusicManager.mk "neutral" [] [] 0))
                          _ (mkSwitch 100 8 "happy") eq_refl) _ _)).
  - reflexivity.
  - discriminate.
Defined.

(** ** Playback *)

(** X25. The volume is clamped: whatever is asked for, the volume ends
    within 0 .. 1; a request within that range is taken as it is, one below
    it gives 0 and one above it gives 1; nothing else of the player
    changes. *)
Theorem set_volume_clamps (v : Q) (self : Player.t) :
  let self' := Player.set_volume v self in
  0 <= Player.volume self' <= 1
  /\ (0 <= v <= 1 -> Player.volume self' == v)
  /\ (v <= 0 -> Player.volume self' == 0)
  /\ (1 <= v -> Player.volume self' == 1)
  /\ (Player.core self', Player.current_song self', Player.is_playing self',
      Player.is_paused self', Player.repeat_mode self',
      Player.shuffle_mode self')
     = (Player.core self, Player.current_song self, Player.is_playing self,
        Player.is_paused self, Player.repeat_mode self,
        Player.shuffle_mode self).
Proof.
  cbv zeta. unfold Player.set_volume. cbn [Player.volume].
  unfold pymax, pymin.
  destruct (Qltb v 1.0) eqn:E1; destruct (Qgtb _ 0.0) eqn:E2;
    try apply Qltb_true in E1; try apply Qltb_false in E1;
    try apply Qgtb_true in E2; try apply Qgtb_false in E2;
    repeat split; intros; try lra.
Qed.

Lemma set_volume_clamps_witness :
  Player.volume
    (Player.set_volume 1.5
       (Player.mk (MusicManager.mk "neutral" [] [] 0) None false false 0.7
          false false)) == 1.
Proof.
  apply (set_volume_clamps 1.5
           (Player.mk (MusicManager.mk "neutral" [] [] 0) None false false
              0.7 false false)).
  vm_compute. discriminate.
Defined.

Lemma play_current_song_keeps (mixer : string -> bool) (self : Player.t) :
  Player.core (snd (Player.play_current_song mixer self)) = Player.core self
  /\ Player.repeat_mode (snd (Player.play_current_song mixer self))
     = Player.repeat_mode self
  /\ Player.volume (snd (Player.play_current_song mixer self))
     = Player.volume self.
Proof.
  unfold Player.play_current_song.
  destruct (Player.playlist self); [now repeat split|].
  destruct (nth_error _ _) as [song|]; [|now repeat split].
  destruct (mixer song); now repeat split.
Qed.

(** The position after [next_song] and after [previous_song]; the
    playlist and the repeat mode are theirs to read only. *)
Lemma next_song_index (mixer : string -> bool) (self : Player.t) :
  Player.playlist (Player.next_song mixer self) = Player.playlist self
  /\ Player.repeat_mode (Player.next_song mixer self)
     = Player.repeat_mode self
  /\ Player.current_index (Player.next_song mixer self)
     = match Player.playlist self with
       | [] => Player.current_index self
       | _ :: _ =>
           if (Player.current_index self
               <? List.length (Player.playlist self) - 1)%nat
           then (Player.current_index self + 1)%nat
           else if Player.repeat_mode self then 0%nat
                else Player.current_index self
       end.
Proof.
  unfold Player.next_song.
  destruct (Player.playlist self) as [|s0 ss] eqn:Hp; [now repeat split|].
  destruct (_ <? _)%nat.
  - destruct (play_current_song_keeps mixer
                (Player.set_current_index (Player.current_index self + 1)
                   self)) as (Hc & Hr & _).
    unfold Player.playlist, Player.current_index in *.
    rewrite Hc, Hr. cbn. now rewrite Hp.
  - destruct (Player.repeat_mode self) eqn:Hrep.
    + destruct (play_current_song_keeps mixer
                  (Player.set_current_index 0 self)) as (Hc & Hr & _).
      unfold Player.playlist, Player.current_index in *.
      rewrite Hc, Hr. cbn. now rewrite Hp.
    + unfold Player.stop, Player.playlist, Player.current_index in *.
      cbn. now rewrite Hp.
Qed.

Lemma previous_song_index (mixer : string -> bool) (self : Player.t) :
  Player.playlist (Player.previous_song mixer self) = Player.playlist self
  /\ Player.repeat_mode (Player.previous_song mixer self)
     = Player.repeat_mode self
  /\ Player.current_index (Player.previous_song mixer self)
     = match Player.playlist self with
       | [] => Player.current_index self
       | _ :: _ =>
           if (0 <? Player.current_index self)%nat
           then (Player.current_index self - 1)%nat
           else if Player.repeat_mode self
                then (List.length (Player.playlist self) - 1)%nat
                else 0%nat
       end.
Proof.
  unfold Player.previous_song.
  destruct (Player.playlist self) as [|s0 ss] eqn:Hp; [now repeat split|].
  destruct (0 <? _)%nat.
  - destruct (play_current_song_keeps mixer
                (Player.set_current_index (Player.current_index self - 1)
                   self)) as (Hc & Hr & _).
    unfold Player.playlist, Player.current_index in *.
    rewrite Hc, Hr. cbn. now rewrite Hp.
  - destruct (Player.repeat_mode self) eqn:Hrep.
    + destruct (play_current_song_keeps mixer
                  (Player.set_current_index
                     (List.length (s0 :: ss) - 1) self)) as (Hc & Hr & _).
      unfold Player.playlist, Player.current_index in *.
      rewrite Hc, Hr. cbn. now rewrite Hp.
    + destruct (play_current_song_keeps mixer
                  (Player.set_current_index 0 self)) as (Hc & Hr & _).
      unfold Player.playlist, Player.current_index in *.
      rewrite Hc, Hr. cbn. now rewrite Hp.
Qed.

(** X26. Skipping never leaves the playlist: when the position lies
    within the playlist it still does after next and after previous,
    whether or not the mixer plays the song, and neither of them changes
    the playlist. *)
Theorem skipping_stays_in_playlist (mixer : string -> bool)
    (self : Player.t) :
  in_playlist self ->
  in_playlist (Player.next_song mixer self)
  /\ in_playlist (Player.previous_song mixer self)
  /\ Player.playlist (Player.next_song mixer self) = Player.playlist self
  /\ Player.playlist (Player.previous_song mixer self)
     = Player.playlist self.
Proof.
  intros Hin.
  destruct (next_song_index mixer self) as (Np & _ & Ni).
  destruct (previous_song_index mixer self) as (Pp & _ & Pi).
  unfold in_playlist in *. rewrite Np, Pp, Ni, Pi.
  split; [|split; [|now split]].
  - destruct (Player.playlist self) as [|s0 ss] eqn:Hp; [now left|]. right.
    destruct Hin as [H | H]; [discriminate H|].
    destruct (_ <? _)%nat eqn:E.
    + apply Nat.ltb_lt in E. lia.
    + destruct (Player.repeat_mode self); [simpl; lia | exact H].
  - destruct (Player.playlist self) as [|s0 ss] eqn:Hp; [now left|]. right.
    destruct Hin as [H | H]; [discriminate H|].
    destruct (0 <? _)%nat; [lia|].
    destruct (Player.repeat_mode self); simpl; lia.
Qed.

Lemma skipping_stays_in_playlist_witness :
  in_playlist
    (Player.next_song (fun _ => true)
       (Player.mk (MusicManager.mk "happy" [] ["a.mp3"; "b.mp3"] 1) None
          false false 0.7 true false)).
Proof.
  apply (skipping_stays_in_playlist (fun _ => true)
           (Player.mk (MusicManager.mk "happy" [] ["a.mp3"; "b.mp3"] 1) None
              false false 0.7 true false)).
  right. unfold Player.current_index, Player.playlist. simpl. lia.
Defined.

Lemma next_song_repeat (mixer : string -> bool) (self : Player.t) :
  Player.repeat_mode self = true ->
  (Player.current_index self < List.length (Player.playlist self))%nat ->
  Player.current_index (Player.next_song mixer self)
  = ((Player.current_index self + 1)
     mod List.length (Player.playlist self))%nat.
Proof.
  intros Hrep Hin.
  destruct (next_song_index mixer self) as (_ & _ & Ni). rewrite Ni, Hrep.
  destruct (Player.playlist self) as [|s0 ss]; [simpl in Hin; lia|].
  set (n := List.length (s0 :: ss)) in *.
  destruct (_ <? _)%nat eqn:E.
  - apply Nat.ltb_lt in E. rewrite Nat.mod_small; lia.
  - apply Nat.ltb_ge in E.
    replace (Player.current_index self + 1)%nat with n by lia.
    now rewrite Nat.Div0.mod_same.
Qed.

Lemma next_song_iter (mixer : string -> bool) (self : Player.t) (k : nat) :
  Player.repeat_mode self = true ->
  (Player.current_index self < List.length (Player.playlist self))%nat ->
  Player.playlist (Nat.iter k (Player.next_song mixer) self)
  = Player.playlist self
  /\ Player.repeat_mode (Nat.iter k (Player.next_song mixer) self) = true
  /\ Player.current_index (Nat.iter k (Player.next_song mixer) self)
     = ((Player.current_index self + k)
        mod List.length (Player.playlist self))%nat.
Proof.
  intros Hrep Hin. induction k as [|k (Hp & Hr & Hi)].
  - simpl. repeat split; try assumption.
    rewrite Nat.add_0_r, Nat.mod_small; [reflexivity | assumption].
  - rewrite !Nat.iter_succ.
    destruct (next_song_index mixer (Nat.iter k (Player.next_song mixer) self))
      as (Np & Nr & _).
    split; [congruence|]. split; [congruence|].
    rewrite next_song_repeat; [|assumption|].
    + rewrite Hp, Hi, Nat.Div0.add_mod_idemp_l. f_equal. lia.
    + rewrite Hp, Hi. apply Nat.mod_upper_bound. lia.
Qed.

(** X27. With repeat on, the playlist is a circle: from a position within
    it, next and then previous comes back to the same position, and so
    does previous and then next; and next, pressed as many times as the
    playlist has songs, comes back to it as well.  That holds whether or
    not the mixer plays the songs on the way. *)
Theorem repeat_is_a_circle (mixer : string -> bool) (self : Player.t) :
  Player.repeat_mode self = true ->
  (Player.current_index self < List.length (Player.playlist self))%nat ->
  Player.current_index
    (Player.previous_song mixer (Player.next_song mixer self))
  = Player.current_index self
  /\ Player.current_index
       (Player.next_song mixer (Player.previous_song mixer self))
     = Player.current_index self
  /\ Player.current_index
       (Nat.iter (List.length (Player.playlist self))
          (Player.next_song mixer) self)
     = Player.current_index self.
Proof.
  intros Hrep Hin.
  destruct (next_song_index mixer self) as (Np & Nr & Ni).
  destruct (previous_song_index mixer self) as (Pp & Pr & Pi).
  destruct (previous_song_index mixer (Player.next_song mixer self))
    as (_ & _ & PNi).
  destruct (next_song_index mixer (Player.previous_song mixer self))
    as (_ & _ & NPi).
  rewrite Np, Nr, Ni in PNi. rewrite Pp, Pr, Pi in NPi.
  rewrite Hrep in *.
  split; [|split].
  - rewrite PNi. clear - Hin.
    destruct (Player.playlist self) as [|s0 ss]; [simpl in Hin; lia|].
    set (n := List.length (s0 :: ss)) in *.
    destruct (Player.current_index self <? n - 1)%nat eqn:E.
    + replace (0 <? Player.current_index self + 1)%nat with true
        by (symmetry; apply Nat.ltb_lt; lia).
      lia.
    + apply Nat.ltb_ge in E. rewrite Nat.ltb_irrefl. lia.
  - rewrite NPi. clear - Hin.
    destruct (Player.playlist self) as [|s0 ss]; [simpl in Hin; lia|].
    set (n := List.length (s0 :: ss)) in *.
    destruct (0 <? Player.current_index self)%nat eqn:E.
    + apply Nat.ltb_lt in E.
      replace (Player.current_index self - 1 <? n - 1)%nat with true
        by (symmetry; apply Nat.ltb_lt; lia).
      lia.
    + apply Nat.ltb_ge in E.
      rewrite Nat.ltb_irrefl. lia.
  - destruct (next_song_iter mixer self
                (List.length (Player.playlist self)) Hrep Hin)
      as (_ & _ & Hi).
    rewrite Hi.
    replace (Player.current_index self + List.length (Player.playlist self))%nat
      with (Player.current_index self
            + 1 * List.length (Player.playlist self))%nat by lia.
    rewrite Nat.Div0.mod_add. now apply Nat.mod_small.
Qed.

Lemma repeat_is_a_circle_witness :
  Player.current_index
    (Nat.iter 3 (Player.next_song (fun _ => true))
       (Player.mk (MusicManager.mk "happy" [] ["a"; "b"; "c"] 1) None false
          false 0.7 true false))
  = 1%nat.
Proof.
  apply (proj2 (proj2
           (repeat_is_a_circle (fun _ => true)
              (Player.mk (MusicManager.mk "happy" [] ["a"; "b"; "c"] 1)
                 None false false 0.7 true false)
              eq_refl ltac:(unfold Player.current_index, Player.playlist;
                            simpl; lia)))).
Defined.

(** X28. Where next goes.  Before the last song it moves one on and asks
    the mixer for that song: the song becomes the current song even when
    the mixer refuses it, and playing and not paused are set only when the
    mixer accepts it.  At the last song without repeat it stops playback:
    nothing is playing or paused, there is no current song, and the
    position stays on the last song. *)
Theorem next_song_plays (mixer : string -> bool) (self : Player.t) :
  Player.playlist self <> [] ->
  (forall song,
      nth_error (Player.playlist self) (Player.current_index self + 1)
      = Some song ->
      let self' := Player.next_song mixer self in
      Player.current_index self' = (Player.current_index self + 1)%nat
      /\ Player.current_song self' = Some song
      /\ (mixer song = true ->
          Player.is_playing self' = true /\ Player.is_paused self' = false)
      /\ (mixer song = false ->
          Player.is_playing self' = Player.is_playing self
          /\ Player.is_paused self' = Player.is_paused self))
  /\ ((List.length (Player.playlist self) <= Player.current_index self + 1)%nat
      -> Player.repeat_mode self = false ->
      Player.next_song mixer self = Player.stop self
      /\ Player.is_playing (Player.next_song mixer self) = false
      /\ Player.current_song (Player.next_song mixer self) = None
      /\ Player.current_index (Player.next_song mixer self)
         = Player.current_index self).
Proof.
  intros Hne. unfold Player.next_song.
  destruct (Player.playlist self) as [|s0 ss] eqn:Hp; [congruence|].
  split.
  - intros song Hsong. cbv zeta.
    assert (Hlt : (Player.current_index self + 1
                   < List.length (s0 :: ss))%nat).
    { apply nth_error_Some. congruence. }
    replace (Player.current_index self <? List.length (s0 :: ss) - 1)%nat
      with true by (symmetry; apply Nat.ltb_lt; lia).
    unfold Player.play_current_song, Player.playlist, Player.current_index
      in *.
    cbn [Player.core Player.set_current_index MusicManager.playlist
           MusicManager.current_index].
    rewrite Hp, Hsong.
    destruct (mixer song); cbn; repeat split; intros; congruence.
  - intros Hlast Hrep.
    replace (Player.current_index self <? List.length (s0 :: ss) - 1)%nat
      with false by (symmetry; apply Nat.ltb_ge; lia).
    rewrite Hrep. repeat split.
Qed.

Lemma next_song_plays_witness :
  Player.current_song
    (Player.next_song (fun _ => false)
       (Player.mk (MusicManager.mk "happy" [] ["a"; "b"] 0) None true false
          0.7 false false))
  = Some "b"
  /\ Player.is_playing
       (Player.next_song (fun _ => true)
          (Player.mk (MusicManager.mk "happy" [] ["a"; "b"] 1) (Some "b")
             true false 0.7 false false))
     = false.
Proof.
  split.
  - apply (proj1 (next_song_plays (fun _ => false)
                    (Player.mk (MusicManager.mk "happy" [] ["a"; "b"] 0)
                       None true false 0.7 false false)
                    ltac:(discriminate)) "b").
    reflexivity.
  - apply (proj2 (next_song_plays (fun _ => true)
                    (Player.mk (MusicManager.mk "happy" [] ["a"; "b"] 1)
                       (Some "b") true false 0.7 false false)
                    ltac:(discriminate))).
    + unfold Player.current_index, Player.playlist. simpl. lia.
    + reflexivity.
Defined.

(** X29. Pause and resume undo each other: resuming a player that was
    playing and has just been paused gives back the player as it was, and
    so does pausing one that was paused and has just been resumed.  Neither
    does anything to a player that is not playing, a second pause does
    nothing more than the first, and none of them moves the position or
    changes the song. *)
Theorem pause_resume (self : Player.t) :
  (Player.is_playing self = true -> Player.is_paused self = false ->
   Player.resume (Player.pause self) = self)
  /\ (Player.is_playing self = true -> Player.is_paused self = true ->
      Player.pause (Player.resume self) = self)
  /\ (Player.is_playing self = false ->
      Player.pause self = self /\ Player.resume self = self)
  /\ Player.pause (Player.pause self) = Player.pause self
  /\ (Player.core (Player.pause self), Player.current_song (Player.pause self))
     = (Player.core self, Player.current_song self)
  /\ (Player.core (Player.resume self),
      Player.current_song (Player.resume self))
     = (Player.core self, Player.current_song self).
Proof.
  destruct self as [core song playing paused vol rep shuf].
  unfold Player.pause, Player.resume. cbn.
  destruct playing, paused; cbn; repeat split; intros; congruence.
Qed.

Lemma pause_resume_witness :
  Player.resume
    (Player.pause
       (Player.mk (MusicManager.mk "happy" [] ["a"] 0) (Some "a") true false
          0.7 false false))
  = Player.mk (MusicManager.mk "happy" [] ["a"] 0) (Some "a") true false
      0.7 false false.
Proof.
  apply (proj1 (pause_resume
                  (Player.mk (MusicManager.mk "happy" [] ["a"] 0) (Some "a")
                     true false 0.7 false false))); reflexivity.
Defined.

(** ** Statistics of the library *)

Lemma library_stats_loop_spec (library : dict (list string)) :
  forall (stats : dict nat) (total : nat),
    snd (library_stats_loop library stats total)
    = (total + list_sum (map (fun ms => List.length (snd ms)) library))%nat
    /\ (forall k, ~ In k (map fst library) ->
          dict_find (fst (library_stats_loop library stats total)) k
          = dict_find stats k)
    /\ (NoDup (map fst library) ->
        forall mood songs,
          In (mood, songs) library ->
          dict_find (fst (library_stats_loop library stats total)) mood
          = Some (List.length songs)).
Proof.
  induction library as [|[m ss] library IH]; intros stats total.
  - simpl. split; [lia|]. split; [reflexivity | intros _ ? ? []].
  - cbn [library_stats_loop].
    destruct (IH (dict_set stats m (List.length ss))
                (total + List.length ss)%nat) as (Ht & Hother & Hin).
    split; [|split].
    + rewrite Ht. simpl. lia.
    + intros k Hk. simpl in Hk. rewrite Hother by tauto.
      apply dict_find_set_other. intros ->. tauto.
    + intros Hnd mood songs [E | I].
      * injection E as <- <-. inversion Hnd as [|? ? Hm _]; subst.
        rewrite (Hother m Hm). apply dict_find_set_same.
      * inversion Hnd; subst. now apply Hin.
Qed.

(** X30. The statistics of the library report, under total, the number
    of songs in all categories together, and, for a library of distinct
    categories, under each category other than one named total the number
    of its songs. *)
Theorem library_stats_spec (mm : MusicManager.t) :
  dict_find (get_library_stats mm) "total"
  = Some (list_sum (map (fun ms => List.length (snd ms))
                      (MusicManager.music_library mm)))
  /\ (NoDup (map fst (MusicManager.music_library mm)) ->
      forall mood songs,
        In (mood, songs) (MusicManager.music_library mm) ->
        mood <> "total" ->
        dict_find (get_library_stats mm) mood = Some (List.length songs)).
Proof.
  unfold get_library_stats.
  destruct (library_stats_loop_spec (MusicManager.music_library mm) [] 0)
    as (Ht & _ & Hin).
  destruct (library_stats_loop (MusicManager.music_library mm) [] 0)
    as [stats total]. cbn [fst snd] in *.
  split.
  - rewrite dict_find_set_same, Ht. reflexivity.
  - intros Hnd mood songs I N.
    rewrite dict_find_set_other by exact N. now apply Hin.
Qed.

Lemma library_stats_spec_witness :
  dict_find
    (get_library_stats
       (MusicManager.mk "neutral"
          [("happy", ["a.mp3"; "b.mp3"]); ("sad", [])] [] 0))
    "happy" = Some 2%nat.
Proof.
  apply (proj2 (library_stats_spec
                  (MusicManager.mk "neutral"
                     [("happy", ["a.mp3"; "b.mp3"]); ("sad", [])] [] 0))
           ltac:(simpl; repeat constructor; simpl; intuition discriminate)
           "happy" ["a.mp3"; "b.mp3"]).
  - simpl. tauto.
  - discriminate.
Defined.

(** * Properties in binary64 *)

(** ** The order of floats *)

Ltac cmp_cases :=
  repeat match goal with
  | |- context [(?a ?= ?b)%Z] => destruct (Z.compare_spec a b)
  | H : context [(?a ?= ?b)%Z] |- _ => destruct (Z.compare_spec a b)
  | |- context [Pos.compare_cont Eq ?a ?b] =>
      change (Pos.compare_cont Eq a b) with (Pos.compare a b);
      destruct (Pos.compare_spec a b)
  | H : context [Pos.compare_cont Eq ?a ?b] |- _ =>
      change (Pos.compare_cont Eq a b) with (Pos.compare a b) in H;
      destruct (Pos.compare_spec a b)
  end.

Ltac sf_cases x := destruct x as [[|] | [|] | | [|] ? ?].

Ltac sf_order :=
  simpl; try discriminate; try reflexivity; intros;
  cmp_cases; simpl in *; try discriminate; try reflexivity;
  subst; try lia; try congruence.

Lemma SFcompare_refl (x : spec_float) :
  x <> S754_nan -> SFcompare x x = Some Eq.
Proof.
  sf_cases x; simpl; intros H; try reflexivity; try congruence;
    now rewrite Z.compare_refl, Pos.compare_cont_refl.
Qed.

Lemma SFcompare_total (x y : spec_float) :
  x <> S754_nan -> y <> S754_nan -> SFcompare x y <> None.
Proof. sf_cases x; sf_cases y; simpl; congruence. Qed.

Lemma SFcompare_swap (x y : spec_float) :
  SFcompare x y = Some Lt <-> SFcompare y x = Some Gt.
Proof. sf_cases x; sf_cases y; split; sf_order. Qed.

Lemma SFcompare_eq_sym (x y : spec_float) :
  SFcompare x y = Some Eq -> SFcompare y x = Some Eq.
Proof. sf_cases x; sf_cases y; sf_order. Qed.

Lemma SFcompare_lt_trans (x y z : spec_float) :
  SFcompare x y = Some Lt -> SFcompare y z = Some Lt ->
  SFcompare x z = Some Lt.
Proof. sf_cases x; sf_cases y; sf_cases z; sf_order. Qed.

Lemma SFcompare_eq_lt (x y z : spec_float) :
  SFcompare x y = Some Eq -> SFcompare y z = Some Lt ->
  SFcompare x z = Some Lt.
Proof. sf_cases x; sf_cases y; sf_cases z; sf_order. Qed.

Lemma SFcompare_lt_eq (x y z : spec_float) :
  SFcompare x y = Some Lt -> SFcompare y z = Some Eq ->
  SFcompare x z = Some Lt.
Proof. sf_cases x; sf_cases y; sf_cases z; sf_order. Qed.

Lemma SFcompare_eq_trans (x y z : spec_float) :
  SFcompare x y = Some Eq -> SFcompare y z = Some Eq ->
  SFcompare x z = Some Eq.
Proof. sf_cases x; sf_cases y; sf_cases z; sf_order. Qed.

Section FloatOrder.

Local Open Scope float_scope.

Lemma float_is_nan_spec (x : float) : is_nan x = true <-> Prim2SF x = S754_nan.
Proof.
  unfold is_nan. rewrite eqb_spec. unfold SFeqb. split.
  - intros H. destruct (Prim2SF x) eqn:E; try reflexivity;
      rewrite SFcompare_refl in H by discriminate; discriminate.
  - intros ->. reflexivity.
Qed.

Lemma float_not_nan_spec (x : float) : is_nan x = false <-> Prim2SF x <> S754_nan.
Proof.
  rewrite <- float_is_nan_spec. destruct (is_nan x); split; congruence.
Qed.

Lemma float_ltb_trans (x y z : float) :
  (x <? y) = true -> (y <? z) = true -> (x <? z) = true.
Proof.
  rewrite !ltb_spec. unfold SFltb. intros H1 H2.
  destruct (SFcompare (Prim2SF x) (Prim2SF y)) as [[| |]|] eqn:E1;
    try discriminate.
  destruct (SFcompare (Prim2SF y) (Prim2SF z)) as [[| |]|] eqn:E2;
    try discriminate.
  now rewrite (SFcompare_lt_trans _ _ _ E1 E2).
Qed.

Lemma float_leb_trans (x y z : float) :
  (x <=? y) = true -> (y <=? z) = true -> (x <=? z) = true.
Proof.
  rewrite !leb_spec. unfold SFleb. intros H1 H2.
  destruct (SFcompare (Prim2SF x) (Prim2SF y)) as [[| |]|] eqn:E1;
    try discriminate;
    destruct (SFcompare (Prim2SF y) (Prim2SF z)) as [[| |]|] eqn:E2;
    try discriminate.
  - now rewrite (SFcompare_eq_trans _ _ _ E1 E2).
  - now rewrite (SFcompare_eq_lt _ _ _ E1 E2).
  - now rewrite (SFcompare_lt_eq _ _ _ E1 E2).
  - now rewrite (SFcompare_lt_trans _ _ _ E1 E2).
Qed.

Lemma float_ltb_leb_trans (x y z : float) :
  (x <? y) = true -> (y <=? z) = true -> (x <? z) = true.
Proof.
  rewrite !ltb_spec, leb_spec. unfold SFltb, SFleb. intros H1 H2.
  destruct (SFcompare (Prim2SF x) (Prim2SF y)) as [[| |]|] eqn:E1;
    try discriminate;
    destruct (SFcompare (Prim2SF y) (Prim2SF z)) as [[| |]|] eqn:E2;
    try discriminate.
  - now rewrite (SFcompare_lt_eq _ _ _ E1 E2).
  - now rewrite (SFcompare_lt_trans _ _ _ E1 E2).
Qed.

Lemma float_leb_ltb_trans (x y z : float) :
  (x <=? y) = true -> (y <? z) = true -> (x <? z) = true.
Proof.
  rewrite !ltb_spec, leb_spec. unfold SFltb, SFleb. intros H1 H2.
  destruct (SFcompare (Prim2SF x) (Prim2SF y)) as [[| |]|] eqn:E1;
    try discriminate;
    destruct (SFcompare (Prim2SF y) (Prim2SF z)) as [[| |]|] eqn:E2;
    try discriminate.
  - now rewrite (SFcompare_eq_lt _ _ _ E1 E2).
  - now rewrite (SFcompare_lt_trans _ _ _ E1 E2).
Qed.

(** Greater excludes less or equal. *)
Lemma float_ltb_not_leb (x y : float) : (x <? y) = true -> (y <=? x) = false.
Proof.
  rewrite ltb_spec, leb_spec. unfold SFltb, SFleb. intros H.
  destruct (SFcompare (Prim2SF x) (Prim2SF y)) as [[| |]|] eqn:E;
    try discriminate.
  apply SFcompare_swap in E. now rewrite E.
Qed.

Lemma float_ltb_irrefl (x : float) : (x <? x) = false.
Proof.
  destruct (x <? x) eqn:E; [|reflexivity].
  pose proof (float_ltb_not_leb _ _ E) as H.
  rewrite ltb_spec in E. rewrite leb_spec in H. unfold SFltb, SFleb in *.
  now destruct (SFcompare (Prim2SF x) (Prim2SF x)) as [[| |]|].
Qed.

Lemma float_ltb_leb (x y : float) : (x <? y) = true -> (x <=? y) = true.
Proof.
  rewrite ltb_spec, leb_spec. unfold SFltb, SFleb.
  now destruct (SFcompare (Prim2SF x) (Prim2SF y)) as [[| |]|].
Qed.

(** Numbers compare: what is not less or equal is greater. *)
Lemma float_not_leb_ltb (x y : float) :
  is_nan x = false -> is_nan y = false ->
  (x <=? y) = false -> (y <? x) = true.
Proof.
  rewrite !float_not_nan_spec, ltb_spec, leb_spec. unfold SFltb, SFleb.
  intros Hx Hy H.
  pose proof (SFcompare_total _ _ Hx Hy) as T.
  destruct (SFcompare (Prim2SF x) (Prim2SF y)) as [[| |]|] eqn:E;
    try discriminate; try congruence.
  apply SFcompare_swap in E. now rewrite E.
Qed.

Lemma float_leb_refl (x : float) : is_nan x = false -> (x <=? x) = true.
Proof.
  rewrite float_not_nan_spec, leb_spec. unfold SFleb. intros H.
  now rewrite SFcompare_refl.
Qed.

End FloatOrder.

Section InBinary64.

Import Binary64 Binary64Spec.
Local Open Scope float_scope.
Local Open Scope b64_scope.

(** ** The dominant emotion selector *)

Lemma b64_insert_desc_perm (x : string * float) (l : list (string * float)) :
  Permutation (insert_desc x l) (x :: l).
Proof.
  induction l as [|y l IH]; simpl.
  - apply Permutation_refl.
  - destruct (snd y <=? snd x).
    + apply Permutation_refl.
    + apply perm_trans with (y :: x :: l).
      * now apply perm_skip.
      * apply perm_swap.
Qed.

Lemma b64_sorted_desc_perm (l : list (string * float)) :
  Permutation (sorted_desc l) l.
Proof.
  induction l as [|x l IH]; simpl.
  - apply perm_nil.
  - apply perm_trans with (x :: sorted_desc l).
    + apply b64_insert_desc_perm.
    + now apply perm_skip.
Qed.

Lemma b64_insert_desc_sorted (x : string * float)
    (l : list (string * float)) :
  is_nan (snd x) = false ->
  Forall (fun y => is_nan (snd y) = false) l ->
  StronglySorted desc l -> StronglySorted desc (insert_desc x l).
Proof.
  intros Hx. induction l as [|y l IH]; intros Hl Hs; simpl.
  - repeat constructor.
  - inversion Hs as [|? ? Hs' Hall]; subst.
    inversion Hl as [|? ? Hy Hl']; subst.
    destruct (snd y <=? snd x) eqn:E.
    + constructor; [assumption|].
      constructor; [exact E|].
      eapply Forall_impl; [|exact Hall].
      intros z Hz. unfold desc in *. now apply float_leb_trans with (snd y).
    + constructor; [now apply IH|].
      apply (Permutation_Forall (Permutation_sym (b64_insert_desc_perm x l))).
      constructor; [|assumption].
      unfold desc. apply float_ltb_leb. now apply float_not_leb_ltb.
Qed.

Lemma b64_sorted_desc_sorted (l : list (string * float)) :
  Forall (fun y => is_nan (snd y) = false) l ->
  StronglySorted desc (sorted_desc l).
Proof.
  induction l as [|x l IH]; intros Hl; simpl.
  - constructor.
  - inversion Hl as [|? ? Hx Hl']; subst.
    apply b64_insert_desc_sorted; [assumption | | now apply IH].
    apply (Permutation_Forall (Permutation_sym (b64_sorted_desc_perm l))).
    exact Hl'.
Qed.

(** C4, the claim as worded, fails: a mapping with the single label happy
    at score 0.05 has no second score, so the difference to 0 is below 0.1
    and the score is below 0.4, and still the selector answers happy, not
    neutral. *)
Lemma singleton_is_not_ambiguous :
  (0.05 - 0 <? 0.1) = true
  /\ (0.05 <? 0.4) = true
  /\ _get_dominant_emotion [("happy", 0.05)] init
     = (Ok ("happy", 0.05 * 1.0), init)
  /\ fst (_get_dominant_emotion [("happy", 0.05)] init)
     <> Ok ("neutral", 0.05).
Proof.
  split; [reflexivity|]. split; [reflexivity|]. split; [reflexivity|].
  vm_compute. discriminate.
Qed.

(** C4, amended. The selector answers (neutral, 0.0) on the empty mapping.
    On any other mapping of scores that are numbers, with the items in
    descending order of score, primary the first and secondary the second
    when there is one, it answers (neutral, primary score) when there is a
    second item, primary - secondary < 0.1 and primary < 0.4, difference
    and comparisons being those of binary64; in every other case, so for
    every mapping of one label, it answers the primary label with its
    score times the label's intensity, 0.5 for a label without one.  The
    intensities of a fresh detector are happy 1.0, surprise 0.8,
    neutral 0.5, disgust 0.6, fear 0.7, sad 1.2, angry 1.0. *)
Theorem dominant_emotion_select (emotion_scores : dict float)
    (self : MoodDetector) :
  (emotion_scores = [] ->
   _get_dominant_emotion emotion_scores self = (Ok ("neutral", 0.0), self))
  /\ (emotion_scores <> [] ->
      (forall x, In x emotion_scores -> is_nan (snd x) = false) ->
      exists primary others,
        Permutation (primary :: others) emotion_scores
        /\ StronglySorted desc (primary :: others)
        /\ let weighted :=
             (fst primary,
              snd primary
              * dict_get (emotion_intensity self) (fst primary) 0.5) in
           match others with
           | [] =>
               _get_dominant_emotion emotion_scores self
               = (Ok weighted, self)
           | secondary :: _ =>
               ((snd primary - snd secondary <? 0.1) = true
                /\ (snd primary <? 0.4) = true ->
                _get_dominant_emotion emotion_scores self
                = (Ok ("neutral", snd primary), self))
               /\ (~ ((snd primary - snd secondary <? 0.1) = true
                      /\ (snd primary <? 0.4) = true) ->
                   _get_dominant_emotion emotion_scores self
                   = (Ok weighted, self))
           end)
  /\ emotion_intensity init
     = [("happy", 1.0); ("surprise", 0.8); ("neutral", 0.5);
        ("disgust", 0.6); ("fear", 0.7); ("sad", 1.2); ("angry", 1.0)].
Proof.
  split; [intros ->; reflexivity|].
  split; [|reflexivity].
  intros Hne Hnum.
  pose proof (b64_sorted_desc_perm emotion_scores) as Hperm.
  assert (Hsorted : StronglySorted desc (sorted_desc emotion_scores)).
  { apply b64_sorted_desc_sorted. now apply Forall_forall. }
  unfold _get_dominant_emotion.
  destruct emotion_scores as [|x0 l0] eqn:Hscores; [congruence|].
  rewrite <- Hscores in *. clear Hne.
  destruct (sorted_desc emotion_scores) as [|[pe ps] others] eqn:Hsd.
  { apply Permutation_nil in Hperm. congruence. }
  exists (pe, ps), others.
  split; [exact Hperm|]. split; [exact Hsorted|].
  cbn [fst snd]. cbv zeta.
  destruct others as [|[se ss] others'].
  - reflexivity.
  - cbn [fst snd]. split.
    + intros [H1 H2]. now rewrite H1, H2.
    + intros H.
      destruct (ps - ss <? 0.1) eqn:E1; [|reflexivity].
      destruct (ps <? 0.4) eqn:E2; [|reflexivity].
      exfalso. apply H. now split.
Qed.

Lemma dominant_emotion_select_witness :
  _get_dominant_emotion [] init = (Ok ("neutral", 0.0), init)
  /\ exists primary others,
       Permutation (primary :: others) [("happy", 0.3); ("sad", 0.2)]
       /\ StronglySorted desc (primary :: others)
       /\ match others with
          | [] =>
              _get_dominant_emotion [("happy", 0.3); ("sad", 0.2)] init
              = (Ok (fst primary,
                     snd primary
                     * dict_get (emotion_intensity init) (fst primary) 0.5),
                 init)
          | secondary :: _ =>
              ((snd primary - snd secondary <? 0.1) = true
               /\ (snd primary <? 0.4) = true ->
               _get_dominant_emotion [("happy", 0.3); ("sad", 0.2)] init
               = (Ok ("neutral", snd primary), init))
              /\ (~ ((snd primary - snd secondary <? 0.1) = true
                     /\ (snd primary <? 0.4) = true) ->
                  _get_dominant_emotion [("happy", 0.3); ("sad", 0.2)] init
                  = (Ok (fst primary,
                         snd primary
                         * dict_get (emotion_intensity init) (fst primary)
                             0.5),
                     init))
          end.
Proof.
  split.
  - apply (dominant_emotion_select [] init). reflexivity.
  - apply (proj1 (proj2 (dominant_emotion_select
                           [("happy", 0.3); ("sad", 0.2)] init))).
    + discriminate.
    + intros x [<- | [<- | []]]; reflexivity.
Defined.

(** The mapping that tells the rounded difference from the exact one:
    0.3 - 0.2 is below 0.1 in binary64, and the selector answers
    neutral. *)
Example close_race_in_binary64 :
  (0.3 - 0.2 <? 0.1) = true
  /\ _get_dominant_emotion [("happy", 0.3); ("sad", 0.2)] init
     = (Ok ("neutral", 0.3), init).
Proof. split; reflexivity. Qed.

(** ** The windowed voter *)

Lemma filter_filter_and {A} (p q : A -> bool) (l : list A) :
  filter p (filter q l) = filter (fun x => q x && p x) l.
Proof.
  induction l as [|x l IH]; simpl; [reflexivity|].
  destruct (q x); simpl; [|exact IH].
  destruct (p x); now rewrite IH.
Qed.

Lemma first_seen_in (l : list string) (m : string) :
  In m (first_seen l) <-> In m l.
Proof.
  induction l as [|x l IH]; simpl; [tauto|].
  rewrite filter_In, IH.
  destruct (String.eqb_spec m x) as [-> | N]; simpl.
  - tauto.
  - split.
    + intros [E | [I _]]; [left; exact E | now right].
    + intros [E | I]; [left; exact E | right; now split].
Qed.

Lemma dict_mem_set {V} (d : dict V) (k m : string) (v : V) :
  dict_mem (dict_set d k v) m = String.eqb m k || dict_mem d m.
Proof.
  unfold dict_mem. destruct (String.eqb_spec m k) as [-> | N].
  - now rewrite dict_find_set_same.
  - now rewrite dict_find_set_other.
Qed.

Lemma b64_occurrences_cons (e : entry) (rest : list entry) (m : string) :
  occurrences (e :: rest) m
  = ((if String.eqb (mood_of e) m then 1 else 0) + occurrences rest m)%nat.
Proof.
  unfold occurrences. simpl. now destruct (String.eqb (mood_of e) m).
Qed.

(** The loop neither raises nor mutates; its weight dictionary has the
    labels in the order in which they were first met and holds for each
    what [acc_from] says, its count dictionary counts. *)
Lemma b64_vote_loop_spec (rest : list entry) :
  forall (total i : nat) (W : dict float) (C : dict nat)
         (self : MoodDetector),
    total <> 0%nat ->
    (forall m, dict_find W m = None <-> dict_find C m = None) ->
    NoDup (map fst W) ->
    exists W' C',
      vote_loop total i rest W C self = (Ok (W', C'), self)
      /\ NoDup (map fst W')
      /\ map fst W'
         = map fst W
           ++ filter (fun m => negb (dict_mem W m))
                (first_seen (map mood_of rest))
      /\ forall m,
           dict_find W' m
           = acc_from (dict_find W m)
               (label_weights (emotion_intensity self) total i rest m)
           /\ dict_get C' m 0%nat
              = (dict_get C m 0%nat + occurrences rest m)%nat
           /\ (dict_find W' m = None <-> dict_find C' m = None).
Proof.
  induction rest as [|e rest IH]; intros total i W C self Ht Hkeys Hnd.
  - exists W, C. simpl. split; [reflexivity|]. split; [assumption|].
    split; [now rewrite app_nil_r|].
    intros m. unfold occurrences. simpl.
    split; [now destruct (dict_find W m)|]. split; [lia | apply Hkeys].
  - cbn [vote_loop]. unfold bind at 1, int_truediv, lift.
    replace (Nat.eqb total 0) with false
      by (symmetry; now apply Nat.eqb_neq).
    unfold bind at 1, gets at 1.
    fold (final_weight (emotion_intensity self) total i e).
    set (fw := final_weight (emotion_intensity self) total i e).
    assert (Hk1 : forall vW vC m,
               dict_find (dict_set W (mood_of e) vW) m = None <->
               dict_find (dict_set C (mood_of e) vC) m = None).
    { intros vW vC m. destruct (String.eqb_spec m (mood_of e)) as [-> | N].
      - rewrite !dict_find_set_same. split; discriminate.
      - rewrite !dict_find_set_other by assumption. apply Hkeys. }
    assert (Hstep : forall vW vC,
               Some vW = acc_from (dict_find W (mood_of e)) [fw] ->
               vC = (dict_get C (mood_of e) 0 + 1)%nat ->
               exists W' C',
                 vote_loop total (S i) rest (dict_set W (mood_of e) vW)
                   (dict_set C (mood_of e) vC) self
                 = (Ok (W', C'), self)
                 /\ NoDup (map fst W')
                 /\ map fst W'
                    = map fst W
                      ++ filter (fun m => negb (dict_mem W m))
                           (first_seen (map mood_of (e :: rest)))
                 /\ forall m,
                      dict_find W' m
                      = acc_from (dict_find W m)
                          (label_weights (emotion_intensity self) total i
                             (e :: rest) m)
                      /\ dict_get C' m 0%nat
                         = (dict_get C m 0%nat
                            + occurrences (e :: rest) m)%nat
                      /\ (dict_find W' m = None <-> dict_find C' m = None)).
    { intros vW vC HvW HvC.
      destruct (IH total (S i) (dict_set W (mood_of e) vW)
                  (dict_set C (mood_of e) vC) self Ht (Hk1 _ _)
                  (dict_set_nodup W _ _ Hnd))
        as (W' & C' & Hrun & Hnd' & Hord & Hspec).
      exists W', C'. split; [exact Hrun|]. split; [exact Hnd'|]. split.
      - rewrite Hord, dict_set_keys. cbn [map first_seen filter].
        rewrite filter_filter_and.
        assert (Hf : filter
                       (fun m => negb (dict_mem (dict_set W (mood_of e) vW) m))
                       (first_seen (map mood_of rest))
                     = filter
                         (fun x => negb (String.eqb x (mood_of e))
                                   && negb (dict_mem W x))
                         (first_seen (map mood_of rest))).
        { apply filter_ext. intros x. rewrite dict_mem_set.
          now destruct (String.eqb x (mood_of e)), (dict_mem W x). }
        rewrite Hf. unfold dict_mem at 2.
        destruct (dict_find W (mood_of e)); simpl.
        + reflexivity.
        + now rewrite <- app_assoc.
      - intros m. destruct (Hspec m) as (Hw & Hc & Hwc).
        rewrite b64_occurrences_cons. cbn [label_weights]. fold fw.
        destruct (String.eqb_spec (mood_of e) m) as [E | N].
        + subst m. rewrite dict_find_set_same in Hw.
          rewrite dict_get_set_same in Hc.
          split; [|split; [lia | exact Hwc]].
          rewrite Hw. cbn [app].
          destruct (dict_find W (mood_of e)); simpl in HvW |- *;
            injection HvW as ->; reflexivity.
        + rewrite dict_find_set_other in Hw by congruence.
          rewrite dict_get_set_other in Hc by congruence.
          split; [|split; [lia | exact Hwc]].
          rewrite Hw. reflexivity. }
    unfold dict_mem.
    destruct (dict_find W (mood_of e)) as [w|] eqn:HW.
    + destruct (dict_find C (mood_of e)) as [c|] eqn:HC.
      2: { apply Hkeys in HC. congruence. }
      unfold bind at 1, dict_index at 1, lift. rewrite HW.
      unfold bind at 1, dict_index at 1, lift. rewrite HC.
      apply Hstep; [reflexivity|]. unfold dict_get. now rewrite HC.
    + assert (HC : dict_find C (mood_of e) = None) by now apply Hkeys.
      apply Hstep; [reflexivity|]. unfold dict_get. now rewrite HC.
Qed.

(** [max] returns the first of the items that no item exceeds. *)
Lemma b64_max_loop_spec (l : list (string * float)) :
  forall best,
    (max_by_value best l = best
     /\ forall x, In x l -> (snd best <? snd x) = false)
    \/ exists l1 l2,
         l = l1 ++ max_by_value best l :: l2
         /\ (snd best <? snd (max_by_value best l)) = true
         /\ (forall x, In x l1 ->
               (snd (max_by_value best l) <=? snd x) = false)
         /\ (forall x, In x l2 ->
               (snd (max_by_value best l) <? snd x) = false).
Proof.
  induction l as [|y l IH]; intros best; cbn [max_by_value].
  - left. split; [reflexivity | intros x []].
  - destruct (snd best <? snd y) eqn:E.
    + right. destruct (IH y) as [[Hr Hall] | (l1 & l2 & Hl & Hlt & H1 & H2)].
      * exists [], l. rewrite Hr. split; [reflexivity|].
        split; [exact E|]. split; [intros x []| exact Hall].
      * exists (y :: l1), l2. split; [simpl; now rewrite <- Hl|].
        split; [now apply float_ltb_trans with (snd y)|]. split; [|exact H2].
        intros x [<- | I]; [now apply float_ltb_not_leb | now apply H1].
    + destruct (IH best)
        as [[Hr Hall] | (l1 & l2 & Hl & Hlt & H1 & H2)].
      * left. split; [exact Hr|]. intros x [<- | I]; [exact E | now apply Hall].
      * right. exists (y :: l1), l2. split; [simpl; now rewrite <- Hl|].
        split; [exact Hlt|]. split; [|exact H2].
        intros x [<- | I]; [|now apply H1].
        destruct (snd (max_by_value best l) <=? snd y) eqn:L; [|reflexivity].
        rewrite (float_ltb_leb_trans _ _ _ Hlt L) in E. discriminate E.
Qed.

Lemma b64_max_by_value_spec (first : string * float)
    (others : list (string * float)) :
  exists l1 l2,
    first :: others = l1 ++ max_by_value first others :: l2
    /\ (forall x, In x l1 ->
          (snd (max_by_value first others) <=? snd x) = false)
    /\ (forall x, In x l2 ->
          (snd (max_by_value first others) <? snd x) = false).
Proof.
  destruct (b64_max_loop_spec others first)
    as [[Hr Hall] | (l1 & l2 & Hl & Hlt & H1 & H2)].
  - exists [], others. rewrite Hr. split; [reflexivity|].
    split; [intros x [] | exact Hall].
  - exists (first :: l1), l2. split; [simpl; now rewrite <- Hl|].
    split; [|exact H2].
    intros x [<- | I]; [now apply float_ltb_not_leb | now apply H1].
Qed.

(** The voter after its read of the ring. *)
Lemma b64_get_stable_mood_unfold (window_seconds now : float)
    (self : MoodDetector) :
  get_stable_mood window_seconds now self
  = match within window_seconds now (mood_history self) with
    | [] => (Ok (current_mood self), self)
    | _ :: _ =>
        bind (vote_loop
                (List.length (within window_seconds now (mood_history self)))
                0 (within window_seconds now (mood_history self)) [] [])
          (fun r =>
             match fst r with
             | [] => gets current_mood
             | first :: others =>
                 let best_mood := max_by_value first others in
                 if negb (String.eqb (fst best_mood) "neutral")
                 then
                   c <- dict_index (snd r) (fst best_mood) ;;
                   if (c <? 2)%nat then ret "neutral"
                   else ret (fst best_mood)
                 else ret (fst best_mood)
             end) self
    end.
Proof.
  unfold get_stable_mood. unfold bind at 1. unfold gets at 1.
  now destruct (within window_seconds now (mood_history self)).
Qed.

(** C2. When no entry of the ring lies in the window the stable mood is the
    current mood.  Otherwise, with the in-window entries taken oldest
    first, each at position i of total weighing confidence * ((i+1)/total)
    * intensity of its mood and the weights of a label added up in that
    order, all in binary64, the winner is a label whose accumulated weight
    no label exceeds, and among such labels the one that appears first in
    the window; the result is neutral when the winner is not neutral and
    occurs fewer than 2 times in the window, and the winner otherwise.
    The call returns normally and leaves the detector as it was. *)
Theorem stable_mood_vote (window_seconds now : float)
    (self : MoodDetector) :
  let entries :=
    filter (fun e => now - timestamp_of e <=? window_seconds)
      (mood_history self) in
  let weight :=
    accumulated_weight (emotion_intensity self) (List.length entries)
      entries in
  (entries = [] ->
   get_stable_mood window_seconds now self = (Ok (current_mood self), self))
  /\ (entries <> [] ->
      exists earlier winner later,
        first_seen (map mood_of entries) = earlier ++ winner :: later
        /\ (forall m, In m (map mood_of entries) ->
                      (weight winner <? weight m) = false)
        /\ (forall m, In m earlier -> (weight winner <=? weight m) = false)
        /\ get_stable_mood window_seconds now self
           = (Ok (if negb (String.eqb winner "neutral")
                     && (occurrences entries winner <? 2)%nat
                  then "neutral" else winner),
              self)).
Proof.
  intros entries weight. subst weight. cbv beta.
  change entries with (within window_seconds now (mood_history self)) in *.
  clear entries.
  set (entries := within window_seconds now (mood_history self)).
  rewrite b64_get_stable_mood_unfold. fold entries.
  split.
  - intros ->. reflexivity.
  - intros Hne.
    destruct entries as [|e0 rest] eqn:Hentries; [congruence|].
    rewrite <- Hentries in *. clear Hne.
    assert (Ht : List.length entries <> 0%nat)
      by (rewrite Hentries; discriminate).
    destruct (b64_vote_loop_spec entries (List.length entries) 0 [] [] self
                Ht)
      as (W & C & Hrun & Hnd & Hord & Hpost).
    { intros m. simpl. tauto. }
    { constructor. }
    unfold bind. rewrite Hrun. cbn [fst snd].
    cbn [map app] in Hord.
    rewrite (filter_ext _ (fun _ => true)) in Hord by reflexivity.
    rewrite filter_true in Hord.
    set (weight := accumulated_weight (emotion_intensity self)
                     (List.length entries) entries) in *.
    assert (Hval : forall m v, In (m, v) W -> v = weight m).
    { intros m v I. apply (dict_in_find W m v Hnd) in I.
      destruct (Hpost m) as (Hw & _). rewrite I in Hw.
      unfold weight, accumulated_weight. cbn [dict_find acc_from] in Hw.
      destruct (label_weights _ _ _ _ m); [discriminate Hw|].
      now injection Hw. }
    destruct W as [|first others] eqn:HW.
    { exfalso. rewrite Hentries in Hord. discriminate Hord. }
    destruct (b64_max_by_value_spec first others)
      as (l1 & l2 & Hsplit & H1 & H2).
    set (best := max_by_value first others) in *.
    rewrite <- HW in *.
    assert (Hbin : In best W)
      by (rewrite Hsplit; apply in_or_app; right; now left).
    assert (Hbest : snd best = weight (fst best))
      by (apply Hval; now destruct best).
    exists (map fst l1), (fst best), (map fst l2).
    split; [|split; [|split]].
    + rewrite <- Hord, Hsplit, map_app. reflexivity.
    + intros m I. apply first_seen_in in I. rewrite <- Hord in I.
      apply in_map_iff in I. destruct I as ([m' v] & <- & I).
      cbn [fst]. rewrite <- (Hval _ _ I), <- Hbest.
      rewrite Hsplit in I. apply in_app_or in I.
      destruct I as [I | [E | I]].
      * specialize (H1 _ I). cbn [snd] in H1.
        destruct (snd best <? v) eqn:L; [|reflexivity].
        apply float_ltb_leb in L. congruence.
      * rewrite E. cbn [snd]. apply float_ltb_irrefl.
      * apply (H2 _ I).
    + intros m I. apply in_map_iff in I. destruct I as ([m' v] & <- & I).
      cbn [fst]. specialize (H1 _ I). cbn [snd] in H1.
      assert (IW : In (m', v) W)
        by (rewrite Hsplit; apply in_or_app; now left).
      now rewrite <- (Hval _ _ IW), <- Hbest.
    + assert (Hfind : dict_find W (fst best) = Some (snd best))
        by (apply dict_in_find; [assumption | now destruct best]).
      destruct (Hpost (fst best)) as (_ & Hc & Hwc).
      cbn [dict_get dict_find] in Hc. unfold dict_get in Hc.
      destruct (negb (String.eqb (fst best) "neutral")); [|reflexivity].
      unfold dict_index, lift.
      destruct (dict_find C (fst best)) as [c|] eqn:HC.
      * simpl in Hc. subst c. cbn [andb].
        now destruct (occurrences entries (fst best) <? 2)%nat.
      * assert (dict_find W (fst best) = None) by now apply Hwc.
        congruence.
Qed.

Lemma stable_mood_vote_witness :
  get_stable_mood 15 100 init = (Ok "neutral", init)
  /\ exists earlier winner later,
       first_seen ["fear"; "surprise"; "fear"] = earlier ++ winner :: later
       /\ (forall m, In m ["fear"; "surprise"; "fear"] ->
             (accumulated_weight (emotion_intensity init) 3
                [Entry "fear" 0.6789999999999999 90;
                 Entry "surprise" 0.784 95; Entry "fear" 0.371 97] winner
              <? accumulated_weight (emotion_intensity init) 3
                   [Entry "fear" 0.6789999999999999 90;
                    Entry "surprise" 0.784 95; Entry "fear" 0.371 97] m)
             = false)
       /\ (forall m, In m earlier ->
             (accumulated_weight (emotion_intensity init) 3
                [Entry "fear" 0.6789999999999999 90;
                 Entry "surprise" 0.784 95; Entry "fear" 0.371 97] winner
              <=? accumulated_weight (emotion_intensity init) 3
                    [Entry "fear" 0.6789999999999999 90;
                     Entry "surprise" 0.784 95; Entry "fear" 0.371 97] m)
             = false)
       /\ get_stable_mood 15 100
            (set_mood_history
               [Entry "fear" 0.6789999999999999 90;
                Entry "surprise" 0.784 95; Entry "fear" 0.371 97] init)
          = (Ok (if negb (String.eqb winner "neutral")
                    && (occurrences
                          [Entry "fear" 0.6789999999999999 90;
                           Entry "surprise" 0.784 95; Entry "fear" 0.371 97]
                          winner <? 2)%nat
                 then "neutral" else winner),
             set_mood_history
               [Entry "fear" 0.6789999999999999 90;
                Entry "surprise" 0.784 95; Entry "fear" 0.371 97] init).
Proof.
  split.
  - apply (stable_mood_vote 15 100 init). reflexivity.
  - apply (stable_mood_vote 15 100
             (set_mood_history
                [Entry "fear" 0.6789999999999999 90;
                 Entry "surprise" 0.784 95; Entry "fear" 0.371 97] init)).
    vm_compute. discriminate.
Defined.

(** A ring on which rounding decides: fear and surprise accumulate the
    same weight in binary64, fear was met first and occurs twice, and fear
    is the stable mood. *)
Example tie_in_binary64 :
  accumulated_weight (emotion_intensity init) 3
    [Entry "fear" 0.6789999999999999 90; Entry "surprise" 0.784 95;
     Entry "fear" 0.371 97] "fear"
  = accumulated_weight (emotion_intensity init) 3
      [Entry "fear" 0.6789999999999999 90; Entry "surprise" 0.784 95;
       Entry "fear" 0.371 97] "surprise"
  /\ get_stable_mood 15 100
       (set_mood_history
          [Entry "fear" 0.6789999999999999 90; Entry "surprise" 0.784 95;
           Entry "fear" 0.371 97] init)
     = (Ok "fear",
        set_mood_history
          [Entry "fear" 0.6789999999999999 90; Entry "surprise" 0.784 95;
           Entry "fear" 0.371 97] init).
Proof. split; reflexivity. Qed.

(** ** The emotion smoother *)

Lemma rev_map_seq {A} (f : nat -> A) (n : nat) :
  rev (map f (seq 0 n)) = map (fun k => f (n - 1 - k)%nat) (seq 0 n).
Proof.
  induction n as [|n IH].
  - reflexivity.
  - rewrite seq_S at 1. rewrite map_app, rev_app_distr. cbn [map rev app].
    rewrite IH. cbn [seq map].
    replace (S n - 1 - 0)%nat with n by lia. f_equal.
    rewrite <- seq_shift, map_map. apply map_ext_in.
    intros k Hk. apply in_seq in Hk. f_equal. lia.
Qed.

Lemma combine_map_seq {A B C} (f : nat -> A) (g : A -> B -> C) (d : B)
    (l : list B) :
  forall i,
    map (fun p => g (fst p) (snd p))
      (combine (map f (seq i (List.length l))) l)
    = map (fun k => g (f k) (nth (k - i) l d)) (seq i (List.length l)).
Proof.
  induction l as [|x l IH]; intros i; cbn [List.length seq map combine].
  - reflexivity.
  - cbn [fst snd]. rewrite Nat.sub_diag. cbn [nth]. f_equal.
    rewrite IH. apply map_ext_in. intros k Hk. apply in_seq in Hk.
    replace (k - i)%nat with (S (k - S i)) by lia. reflexivity.
Qed.

Section Builtins.

Variable float_pow : float -> nat -> result float.
Variable pysum : list float -> float.

(** A comprehension whose items all return is a [map]. *)
Lemma comprehension_ok {A B} (f : A -> M B) (g : A -> B) (l : list A)
    (self : MoodDetector) :
  (forall a, In a l -> f a self = (Ok (g a), self)) ->
  comprehension f l self = (Ok (map g l), self).
Proof.
  induction l as [|a l IH]; intros H; cbn [comprehension map].
  - reflexivity.
  - unfold bind at 1. rewrite (H a (or_introl eq_refl)).
    unfold bind at 1. rewrite IH by (intros b Hb; apply H; now right).
    reflexivity.
Qed.

(** The loop body of the smoother, path by path. *)
Lemma b64_smooth_one_paths (emotion : string) (score : float)
    (self : MoodDetector) :
  smooth_one float_pow pysum emotion score self =
  match dict_find (emotion_history self) emotion with
  | None => (Ok score, self)
  | Some old =>
      let pushed := old ++ [score] in
      let hist :=
        if (5 <? List.length pushed)%nat then tl pushed else pushed in
      let self' :=
        set_emotion_history (dict_set (emotion_history self) emotion hist)
          self in
      if (1 <? List.length hist)%nat then
        match comprehension
                (fun i => lift (float_pow (emotion_smoothing self) i))
                (seq 0 (List.length hist)) self' with
        | (Ok weights, self'') =>
            let weights := rev weights in
            pydiv
              (pysum (map (fun ws => fst ws * snd ws)
                        (combine weights hist)))
              (pysum weights) self''
        | (Raise e, self'') => (Raise e, self'')
        end
      else (Ok score, self')
  end.
Proof.
  unfold smooth_one, dict_mem.
  unfold bind at 1, gets at 1.
  destruct (dict_find (emotion_history self) emotion) as [old|] eqn:Hold;
    [|reflexivity].
  unfold bind at 1, dict_index at 1, lift at 1. rewrite Hold.
  unfold bind at 1, modify at 1.
  unfold bind at 1, gets at 1. cbn [emotion_history set_emotion_history].
  unfold bind at 1, dict_index at 1, lift at 1. rewrite dict_find_set_same.
  cbv zeta.
  destruct (5 <? List.length (old ++ [score]))%nat.
  - unfold bind at 1, modify at 1.
    unfold bind at 1, gets at 1. cbn [emotion_history set_emotion_history].
    unfold bind at 1, dict_index at 1, lift at 1.
    rewrite dict_find_set_same, dict_set_set.
    destruct (1 <? List.length (tl (old ++ [score])))%nat; [|reflexivity].
    unfold bind at 1, gets at 1.
    cbn [emotion_smoothing set_emotion_history].
    unfold bind at 1. reflexivity.
  - unfold bind at 1, ret at 1.
    unfold bind at 1, gets at 1. cbn [emotion_history set_emotion_history].
    unfold bind at 1, dict_index at 1, lift at 1.
    rewrite dict_find_set_same.
    destruct (1 <? List.length (old ++ [score]))%nat; [|reflexivity].
    unfold bind at 1, gets at 1.
    cbn [emotion_smoothing set_emotion_history].
    unfold bind at 1. reflexivity.
Qed.

Lemma b64_smooth_one_spec (emotion : string) (score : float)
    (self : MoodDetector) (old : list float) (pw : nat -> float) :
  dict_find (emotion_history self) emotion = Some old ->
  (List.length old <= 5)%nat ->
  (forall i, (i < 5)%nat ->
             float_pow (emotion_smoothing self) i = Ok (pw i)) ->
  (forall n, (2 <= n <= 5)%nat ->
             (pysum (map (fun k => pw (n - 1 - k)%nat) (seq 0 n)) =? 0)
             = false) ->
  let hist := last_n 5 (old ++ [score]) in
  exists v,
    smooth_one float_pow pysum emotion score self
    = (Ok v,
       set_emotion_history (dict_set (emotion_history self) emotion hist)
         self)
    /\ (List.length hist = 1%nat -> v = score)
    /\ ((1 < List.length hist)%nat -> v = ema pysum pw hist).
Proof.
  intros Hold Hlen Hpow Hnz hist.
  rewrite b64_smooth_one_paths, Hold. cbv zeta.
  rewrite (push_cap 5 old score Hlen). fold hist.
  pose proof (last_n_length 5 (old ++ [score])) as Hcap. fold hist in Hcap.
  destruct (1 <? List.length hist)%nat eqn:E.
  - apply Nat.ltb_lt in E.
    rewrite (comprehension_ok _ pw).
    2: { intros i Hi. apply in_seq in Hi. unfold lift.
         rewrite Hpow by lia. reflexivity. }
    cbv zeta. rewrite rev_map_seq.
    rewrite (combine_map_seq _ mul 0 hist 0).
    unfold pydiv, lift. rewrite Hnz by lia.
    eexists. split; [reflexivity|]. split; [lia|]. intros _.
    unfold ema. cbv zeta. f_equal. f_equal. apply map_ext.
    intros k. now rewrite Nat.sub_0_r.
  - apply Nat.ltb_ge in E. exists score.
    split; [reflexivity|]. split; [reflexivity | lia].
Qed.

Lemma b64_smooth_loop_spec (items : dict float) (pw : nat -> float) :
  forall (acc : dict float) (self : MoodDetector),
    (forall i, (i < 5)%nat ->
               float_pow (emotion_smoothing self) i = Ok (pw i)) ->
    (forall n, (2 <= n <= 5)%nat ->
               (pysum (map (fun k => pw (n - 1 - k)%nat) (seq 0 n)) =? 0)
               = false) ->
    NoDup (map fst items) ->
    (forall label, In label (map fst items) ->
       exists old, dict_find (emotion_history self) label = Some old
                   /\ (List.length old <= 5)%nat) ->
    exists smoothed self',
      smooth_loop float_pow pysum items acc self = (Ok smoothed, self')
      /\ emotion_smoothing self' = emotion_smoothing self
      /\ (forall k, ~ In k (map fst items) ->
            dict_find (emotion_history self') k
            = dict_find (emotion_history self) k
            /\ dict_find smoothed k = dict_find acc k)
      /\ (forall label score old,
            In (label, score) items ->
            dict_find (emotion_history self) label = Some old ->
            smooth_post pysum pw old score
              (emotion_history self') smoothed label).
Proof.
  induction items as [|[e s] items IH]; intros acc self Hpow Hnz Hnd Htracked.
  - exists acc, self. simpl.
    split; [reflexivity|]. split; [reflexivity|].
    split; [intros; split; reflexivity | intros ? ? ? []].
  - cbn [smooth_loop]. unfold bind.
    inversion Hnd as [|? ? He Hnd']; subst.
    destruct (Htracked e (or_introl eq_refl)) as (old & Hold & Hlen).
    destruct (b64_smooth_one_spec e s self old pw Hold Hlen Hpow Hnz)
      as (v & Hrun & Hone & Hmany).
    rewrite Hrun.
    set (self1 := set_emotion_history _ self) in *.
    assert (Hother : forall k, k <> e ->
               dict_find (emotion_history self1) k
               = dict_find (emotion_history self) k).
    { intros k N. unfold self1. cbn [emotion_history set_emotion_history].
      now apply dict_find_set_other. }
    destruct (IH (dict_set acc e v) self1) as (smoothed & self' & Hloop
                                               & Hg' & Hrest & Hpost).
    + exact Hpow.
    + exact Hnz.
    + exact Hnd'.
    + intros label I. rewrite Hother.
      * apply Htracked. now right.
      * intros ->. contradiction.
    + exists smoothed, self'. split; [exact Hloop|].
      split; [exact Hg'|]. split.
      * intros k N. simpl in N.
        assert (Nk : k <> e) by (intros ->; tauto).
        destruct (Hrest k) as [H1 H2]; [tauto|].
        rewrite H1, H2, (Hother k Nk).
        split; [reflexivity|]. now apply dict_find_set_other.
      * intros label score old' [E | I] Hold'.
        -- injection E as <- <-.
           assert (old' = old) by congruence. subst old'.
           destruct (Hrest e He) as [H1 H2].
           unfold smooth_post. cbv zeta.
           rewrite H1. unfold self1 at 1.
           cbn [emotion_history set_emotion_history].
           rewrite dict_find_set_same.
           split; [reflexivity|]. split; [apply last_n_length|].
           exists v. rewrite H2, dict_find_set_same.
           split; [reflexivity|]. split; assumption.
        -- assert (N : label <> e).
           { intros ->. apply He. apply (in_map fst) in I. exact I. }
           apply (Hpost label score old' I).
           now rewrite Hother.
Qed.

(** C5. For a mapping of distinct labels that the detector keeps
    histories for, none longer than 5, a decay factor whose powers up to
    the fourth the interpreter computes without overflow, and weights that
    do not sum to zero, the smoother returns a mapping, and for each label
    with raw score [score] and history [old]: the new history is the last 5
    entries of [old] followed by [score], so the oldest is what is evicted;
    when it has one entry the smoothed score is [score] itself; when it has
    more the smoothed score is the weighted sum of the history, newest
    last, where the sample that is i steps old weighs the decay factor to
    the power i, divided by the sum of these weights, as binary64 computes
    it.  The decay factor of a fresh detector is 0.6. *)
Theorem smooth_emotions_spec (emotion_scores : dict float)
    (self : MoodDetector) (pw : nat -> float) :
  (forall i, (i < 5)%nat ->
             float_pow (emotion_smoothing self) i = Ok (pw i)) ->
  (forall n, (2 <= n <= 5)%nat ->
             (pysum (map (fun k => pw (n - 1 - k)%nat) (seq 0 n)) =? 0)
             = false) ->
  NoDup (map fst emotion_scores) ->
  (forall label, In label (map fst emotion_scores) ->
     exists old, dict_find (emotion_history self) label = Some old
                 /\ (List.length old <= 5)%nat) ->
  emotion_smoothing init = 0.6
  /\ exists smoothed self',
       _smooth_emotions float_pow pysum emotion_scores self
       = (Ok smoothed, self')
       /\ forall label score old,
            In (label, score) emotion_scores ->
            dict_find (emotion_history self) label = Some old ->
            smooth_post pysum pw old score
              (emotion_history self') smoothed label.
Proof.
  intros Hpow Hnz Hnd Htracked. split; [reflexivity|].
  destruct (b64_smooth_loop_spec emotion_scores pw [] self Hpow Hnz Hnd
              Htracked)
    as (smoothed & self' & Hrun & _ & _ & Hpost).
  exists smoothed, self'. split; [exact Hrun | exact Hpost].
Qed.

(** ** The best of several faces *)

Lemma b64_best_detection_loop_spec (ds : list detection) :
  forall (best : option detection) (bt : float),
    (best_detection_loop pysum ds best bt = best
     /\ forall d, In d ds -> (bt <? pysum (map snd (emotions d))) = false)
    \/ exists l1 b l2,
         ds = l1 ++ b :: l2
         /\ best_detection_loop pysum ds best bt = Some b
         /\ (bt <? pysum (map snd (emotions b))) = true
         /\ (forall d, In d l1 ->
               (pysum (map snd (emotions b))
                <=? pysum (map snd (emotions d))) = false)
         /\ (forall d, In d l2 ->
               (pysum (map snd (emotions b))
                <? pysum (map snd (emotions d))) = false).
Proof.
  induction ds as [|d ds IH]; intros best bt; cbn [best_detection_loop].
  - left. split; [reflexivity | intros d []].
  - cbv zeta. destruct (bt <? pysum (map snd (emotions d))) eqn:E.
    + right.
      destruct (IH (Some d) (pysum (map snd (emotions d))))
        as [[Hr Hall] | (l1 & b & l2 & Hds & Hr & Hlt & H1 & H2)].
      * exists [], d, ds. split; [reflexivity|]. split; [exact Hr|].
        split; [exact E|]. split; [intros x [] | exact Hall].
      * exists (d :: l1), b, l2. subst ds.
        split; [reflexivity|]. split; [exact Hr|].
        split; [now apply float_ltb_trans with (pysum (map snd (emotions d)))|].
        split; [|exact H2].
        intros x [<- | I]; [now apply float_ltb_not_leb | now apply H1].
    + destruct (IH best bt)
        as [[Hr Hall] | (l1 & b & l2 & Hds & Hr & Hlt & H1 & H2)].
      * left. split; [exact Hr|].
        intros x [<- | I]; [exact E | now apply Hall].
      * right. exists (d :: l1), b, l2. subst ds.
        split; [reflexivity|]. split; [exact Hr|].
        split; [exact Hlt|]. split; [|exact H2].
        intros x [<- | I]; [|now apply H1].
        destruct (pysum (map snd (emotions b))
                  <=? pysum (map snd (emotions d))) eqn:L; [|reflexivity].
        rewrite (float_ltb_leb_trans _ _ _ Hlt L) in E. discriminate E.
Qed.

(** X9. Of the detections of a frame the one of the greatest total score
    is chosen, the total being the interpreter's sum of the face's scores
    and the first face being kept when several share the greatest; none is
    chosen exactly when no detection has a total above 0, as when there is
    no detection at all. *)
Theorem best_emotion_detection_spec (ds : list detection) :
  let total d := pysum (map snd (emotions d)) in
  (_get_best_emotion_detection pysum ds = None <->
   forall d, In d ds -> (0 <? total d) = false)
  /\ (forall b,
        _get_best_emotion_detection pysum ds = Some b ->
        exists l1 l2,
          ds = l1 ++ b :: l2
          /\ (0 <? total b) = true
          /\ (forall d, In d l1 -> (total b <=? total d) = false)
          /\ (forall d, In d l2 -> (total b <? total d) = false)).
Proof.
  cbv zeta.
  assert (E : _get_best_emotion_detection pysum ds
              = best_detection_loop pysum ds None 0)
    by now destruct ds.
  rewrite E.
  destruct (b64_best_detection_loop_spec ds None 0)
    as [[Hr Hall] | (l1 & b & l2 & Hds & Hr & Hlt & H1 & H2)].
  - rewrite Hr. split.
    + split; [intros _; exact Hall | reflexivity].
    + intros b Hb. discriminate Hb.
  - rewrite Hr. split.
    + split; [discriminate|].
      intros Hall. exfalso.
      assert (H : (0 <? pysum (map snd (emotions b))) = false).
      { apply Hall. subst ds. apply in_or_app. right. now left. }
      congruence.
    + intros b' [= <-]. exists l1, l2.
      split; [exact Hds|]. split; [exact Hlt|]. split; assumption.
Qed.

End Builtins.

Lemma smooth_emotions_spec_witness :
  emotion_smoothing init = 0.6
  /\ exists smoothed self',
       _smooth_emotions pow_rounded sum_left [("happy", 0.5); ("sad", 0.1)]
         (set_emotion_history [("happy", [0.9]); ("sad", [])] init)
       = (Ok smoothed, self')
       /\ forall label score old,
            In (label, score) [("happy", 0.5); ("sad", 0.1)] ->
            dict_find
              (emotion_history
                 (set_emotion_history [("happy", [0.9]); ("sad", [])] init))
              label = Some old ->
            smooth_post sum_left
              (fun i => match pow_rounded 0.6 i with
                        | Ok v => v
                        | Raise _ => 0
                        end)
              old score (emotion_history self') smoothed label.
Proof.
  apply (smooth_emotions_spec pow_rounded sum_left
           [("happy", 0.5); ("sad", 0.1)]
           (set_emotion_history [("happy", [0.9]); ("sad", [])] init)).
  - intros i Hi. do 5 (destruct i; [reflexivity|]). lia.
  - intros n Hn. do 6 (destruct n; [try lia; reflexivity|]). lia.
  - simpl. repeat constructor; simpl; intuition discriminate.
  - simpl. intros label [<- | [<- | []]]; eexists;
      (split; [reflexivity | simpl; lia]).
Defined.

(** The run that tells the rounded average from the exact one: three
    samples of 0.625 are smoothed to the float next above 0.625. *)
Example three_equal_samples :
  fst (_smooth_emotions pow_rounded sum_left [("happy", 0.625)]
         (set_emotion_history [("happy", [0.625; 0.625])] init))
  = Ok [("happy", 0.6250000000000001)].
Proof. reflexivity. Qed.

(** A decay factor whose square is beyond the format: the power raises
    once three samples are in the history, after the push. *)
Example decay_factor_overflow :
  _smooth_emotions pow_rounded sum_left [("happy", 0.5)]
    (set_emotion_smoothing 1e200
       (set_emotion_history [("happy", [0.5; 0.5])] init))
  = (Raise OverflowError,
     set_emotion_smoothing 1e200
       (set_emotion_history [("happy", [0.5; 0.5; 0.5])] init)).
Proof. reflexivity. Qed.

Lemma best_emotion_detection_spec_witness :
  _get_best_emotion_detection sum_left [mkDetection [] [("happy", 0)]] = None
  /\ exists l1 l2,
       [mkDetection [] [("sad", 0.2)]; mkDetection [] [("happy", 0.9)]]
       = l1 ++ mkDetection [] [("happy", 0.9)] :: l2
       /\ (0 <? sum_left (map snd (emotions (mkDetection [] [("happy", 0.9)]))))
          = true
       /\ (forall d, In d l1 ->
             (sum_left (map snd (emotions (mkDetection [] [("happy", 0.9)])))
              <=? sum_left (map snd (emotions d))) = false)
       /\ (forall d, In d l2 ->
             (sum_left (map snd (emotions (mkDetection [] [("happy", 0.9)])))
              <? sum_left (map snd (emotions d))) = false).
Proof.
  split.
  - apply (proj1 (best_emotion_detection_spec sum_left
                    [mkDetection [] [("happy", 0)]])).
    intros d [<- | []]. reflexivity.
  - apply (proj2 (best_emotion_detection_spec sum_left
                    [mkDetection [] [("sad", 0.2)];
                     mkDetection [] [("happy", 0.9)]])).
    reflexivity.
Defined.

(** Two faces whose scores add up to 1 exactly: added up one by one in
    binary64 the first totals less than 1, and the second face is kept. *)
Example rounded_totals :
  let face1 := mkDetection [1%Z]
                 [("angry", 0.06); ("disgust", 0.04); ("fear", 0.08);
                  ("happy", 0.12); ("sad", 0.01); ("surprise", 0.57);
                  ("neutral", 0.12)] in
  let face2 := mkDetection [2%Z]
                 [("angry", 0.05); ("disgust", 0.23); ("fear", 0.04);
                  ("happy", 0.22); ("sad", 0.01); ("surprise", 0.01);
                  ("neutral", 0.44)] in
  sum_left (map snd (emotions face1)) = 0.9999999999999999
  /\ sum_left (map snd (emotions face2)) = 1
  /\ _get_best_emotion_detection sum_left [face1; face2] = Some face2.
Proof. repeat split. Qed.

(** ** Statistics of the ring *)

(** The length of a ring within its cap converts to a float that is not
    zero. *)
Lemma of_nat_nonzero (n : nat) :
  n <> 0%nat -> (n <= 50)%nat -> (of_nat n =? 0) = false.
Proof.
  intros H0 H50.
  do 51 (destruct n as [|n]; [first [congruence | reflexivity]|]).
  lia.
Qed.

Lemma b64_statistics_loop_spec (history : list entry) :
  forall (C : dict nat) (T : float) (self : MoodDetector),
    NoDup (map fst C) ->
    exists C',
      statistics_loop history C T self
      = (Ok (C', fold_left add (map confidence_of history) T), self)
      /\ NoDup (map fst C')
      /\ (forall m, dict_get C' m 0%nat
                    = (dict_get C m 0 + occurrences history m)%nat)
      /\ (forall m, dict_find C' m = None <->
                    dict_find C m = None /\ ~ In m (map mood_of history))
      /\ list_sum (map snd C')
         = (list_sum (map snd C) + List.length history)%nat.
Proof.
  induction history as [|e rest IH]; intros C T self Hnd.
  - exists C. simpl. unfold occurrences. simpl.
    split; [reflexivity|]. split; [assumption|].
    split; [intros; lia|]. split; [tauto | lia].
  - cbn [statistics_loop]. unfold dict_mem.
    assert (Hstep : forall v : nat,
               v = (dict_get C (mood_of e) 0 + 1)%nat ->
               exists C',
                 statistics_loop rest (dict_set C (mood_of e) v)
                   (T + confidence_of e) self
                 = (Ok (C', fold_left add
                              (map confidence_of (e :: rest)) T), self)
                 /\ NoDup (map fst C')
                 /\ (forall m, dict_get C' m 0%nat
                               = (dict_get C m 0
                                  + occurrences (e :: rest) m)%nat)
                 /\ (forall m, dict_find C' m = None <->
                               dict_find C m = None
                               /\ ~ In m (map mood_of (e :: rest)))
                 /\ list_sum (map snd C')
                    = (list_sum (map snd C)
                       + List.length (e :: rest))%nat).
    { intros v Hv.
      destruct (IH (dict_set C (mood_of e) v) (T + confidence_of e) self
                  (dict_set_nodup C _ _ Hnd))
        as (C' & Hrun & Hnd' & Hcount & Hkeys & Hsum).
      exists C'. split; [exact Hrun|]. split; [exact Hnd'|].
      split; [|split].
      - intros m. rewrite Hcount, b64_occurrences_cons.
        destruct (String.eqb_spec (mood_of e) m) as [<- | N].
        + rewrite dict_get_set_same. lia.
        + rewrite dict_get_set_other by congruence. lia.
      - intros m. rewrite Hkeys. simpl.
        destruct (String.eqb_spec m (mood_of e)) as [-> | N].
        + rewrite dict_find_set_same. split.
          * intros [H _]. discriminate H.
          * intros [_ H]. exfalso. apply H. now left.
        + rewrite dict_find_set_other by assumption. split.
          * intros [H1 H2]. split; [exact H1|].
            intros [E | I]; [congruence | contradiction].
          * intros [H1 H2]. split; [exact H1|]. intros I. apply H2.
            now right.
      - rewrite Hsum. pose proof (list_sum_dict_set C (mood_of e) v).
        simpl. lia. }
    destruct (dict_find C (mood_of e)) as [c|] eqn:HC.
    + unfold bind, dict_index, lift. rewrite HC.
      apply Hstep. unfold dict_get. now rewrite HC.
    + apply Hstep. unfold dict_get. now rewrite HC.
Qed.

Lemma b64_get_mood_statistics_unfold (self : MoodDetector) :
  get_mood_statistics self
  = match mood_history self with
    | [] => (Ok None, self)
    | _ :: _ =>
        bind (statistics_loop (mood_history self) [] 0)
          (fun r =>
             avg_confidence <-
               pydiv (snd r) (of_nat (List.length (mood_history self))) ;;
             m <- gets current_mood ;;
             ret (Some (mkStatistics (fst r) avg_confidence
                          (List.length (mood_history self)) m))) self
    end.
Proof.
  unfold get_mood_statistics. unfold bind at 1. unfold gets at 1.
  now destruct (mood_history self).
Qed.

(** X7. The statistics never touch the detector and, on a ring within its
    cap of 50, never raise.  An empty ring gives the empty answer.
    Otherwise the answer counts every mood of the ring as often as it
    occurs there and no other mood, each once; the counts add up to the
    number of detections, which is the length of the ring; the reported
    mood is the current mood; and the average confidence is the
    confidences added up one by one, oldest first, divided by the number
    of detections, as binary64 computes it. *)
Theorem mood_statistics_spec (self : MoodDetector) :
  (mood_history self = [] -> get_mood_statistics self = (Ok None, self))
  /\ (mood_history self <> [] ->
      (List.length (mood_history self) <= 50)%nat ->
      exists st,
        get_mood_statistics self = (Ok (Some st), self)
        /\ total_detections st = List.length (mood_history self)
        /\ reported_mood st = current_mood self
        /\ NoDup (map fst (mood_distribution st))
        /\ (forall m, In m (map fst (mood_distribution st)) <->
                      In m (map mood_of (mood_history self)))
        /\ (forall m, dict_get (mood_distribution st) m 0%nat
                      = occurrences (mood_history self) m)
        /\ list_sum (map snd (mood_distribution st)) = total_detections st
        /\ average_confidence st
           = fold_left add (map confidence_of (mood_history self)) 0
             / of_nat (total_detections st)).
Proof.
  rewrite b64_get_mood_statistics_unfold.
  split.
  - intros ->. reflexivity.
  - intros Hne Hcap.
    destruct (b64_statistics_loop_spec (mood_history self) [] 0 self)
      as (C' & Hrun & Hnd & Hcount & Hkeys & Hsum); [constructor|].
    assert (Hlen : List.length (mood_history self) <> 0%nat)
      by (destruct (mood_history self); [congruence | discriminate]).
    destruct (mood_history self) as [|e0 rest] eqn:Hh; [congruence|].
    rewrite <- Hh in *. clear Hne.
    unfold bind at 1. rewrite Hrun. cbn [fst snd].
    unfold bind, pydiv, lift, gets, ret.
    rewrite (of_nat_nonzero _ Hlen Hcap).
    eexists. split; [reflexivity|].
    cbn [total_detections reported_mood mood_distribution
           average_confidence].
    split; [reflexivity|]. split; [reflexivity|]. split; [exact Hnd|].
    split; [|split; [|split]].
    + intros m. destruct (Hkeys m) as [K1 K2]. simpl in K1, K2.
      pose proof (dict_find_none C' m) as Hn. split.
      * intros I.
        destruct (in_dec string_dec m (map mood_of (mood_history self)));
          [assumption|].
        exfalso. apply (proj1 Hn); [|exact I]. apply K2. tauto.
      * intros I.
        destruct (in_dec string_dec m (map fst C')); [assumption|].
        exfalso. apply Hn in n. apply K1 in n. tauto.
    + intros m. rewrite Hcount. reflexivity.
    + rewrite Hsum. reflexivity.
    + reflexivity.
Qed.

Lemma mood_statistics_spec_witness :
  get_mood_statistics init = (Ok None, init)
  /\ exists st,
       get_mood_statistics
         (set_mood_history
            [Entry "fear" 0.7 1; Entry "sad" 0.7 2; Entry "fear" 0.7 3] init)
       = (Ok (Some st),
          set_mood_history
            [Entry "fear" 0.7 1; Entry "sad" 0.7 2; Entry "fear" 0.7 3] init)
       /\ total_detections st = 3%nat
       /\ average_confidence st = 0.6999999999999998.
Proof.
  split.
  - apply (proj1 (mood_statistics_spec init)). reflexivity.
  - destruct (proj2 (mood_statistics_spec
                       (set_mood_history
                          [Entry "fear" 0.7 1; Entry "sad" 0.7 2;
                           Entry "fear" 0.7 3] init)))
      as (st & H1 & H2 & _ & _ & _ & _ & _ & H8).
    + discriminate.
    + simpl. lia.
    + exists st. split; [exact H1|]. split; [exact H2|].
      rewrite H8, H2. reflexivity.
Defined.

End InBinary64.
